(** * A shallow embedding of [keras/src/layers/core/dense.py]

    The [Dense] layer, its quantized variants (int8, packed int4, float8)
    and its LoRA overlay, together with the properties its specification
    states about them.

    Conventions of the embedding.
    - A 2-D tensor is the list of its rows.  Integer tensors (dtype int8)
      hold [Z] values, wrapped to the signed 8-bit range where the code
      stores them; floating-point tensors hold exact rationals ([Qc]), so
      that rounding error of the compute dtype is abstracted away.
    - Python attributes that may be absent are [option] fields.
    - Methods run in a state-and-exception monad over the layer record: a
      raised exception keeps the state reached when it was raised. *)

From Stdlib Require Import ZArith QArith Qcanon Qround Qcabs Lia.
From stdpp Require Import base list gmap strings pretty.

Local Open Scope Z_scope.

(** ** Tensors

    The numerical operations of [keras.src.ops] that [dense.py] calls.
    Their bodies are not part of [dense.py]; they follow NumPy: shapes are
    checked, binary element-wise operations broadcast, and a shape
    mismatch is an error. *)

Section Rows.
Context {A : Type}.

(** Column count of a 2-D tensor, read off its first row. *)
Definition ncols (m : list (list A)) : nat := length (default [] (head m)).

(** The shape [(rows, cols)] of a 2-D tensor. *)
Definition shape2 (m : list (list A)) : nat * nat := (length m, ncols m).

(** Every row has [c] entries. *)
Definition rect (c : nat) (m : list (list A)) : Prop :=
  Forall (fun r => length r = c) m.

(** The tensor has [r] rows of [c] entries each. *)
Definition has_shape (r c : nat) (m : list (list A)) : Prop :=
  length m = r /\ rect c m.

(** Boolean version of [rect]. *)
Definition rectb (c : nat) (m : list (list A)) : bool :=
  forallb (fun r => Nat.eqb (length r) c) m.

(** The tensor of shape [(r, c)] whose entry [(i, j)] is [f i j]. *)
Definition tabulate (r c : nat) (f : nat -> nat -> A) : list (list A) :=
  map (fun i => map (f i) (seq 0 c)) (seq 0 r).

Context (zero : A).

(** Entry [(i, j)]. *)
Definition get (m : list (list A)) (i j : nat) : A :=
  nth j (nth i m []) zero.

(** [ops.transpose]. *)
Definition transpose (m : list (list A)) : list (list A) :=
  tabulate (ncols m) (length m) (fun i j => get m j i).

(** The common extent of two broadcast dimensions, if there is one. *)
Definition bdim (a b : nat) : option nat :=
  if Nat.eqb a b then Some a
  else if Nat.eqb a 1 then Some b
  else if Nat.eqb b 1 then Some a
  else None.

(** Index into a dimension of extent [n] that may be broadcast. *)
Definition bidx (n i : nat) : nat := if Nat.eqb n 1 then 0%nat else i.

(** A binary element-wise operation with broadcasting; [None] when the
    shapes are incompatible. *)
Definition ewise (f : A -> A -> A) (a b : list (list A))
  : option (list (list A)) :=
  r ← bdim (length a) (length b);
  c ← bdim (ncols a) (ncols b);
  Some (tabulate r c (fun i j =>
          f (get a (bidx (length a) i) (bidx (ncols a) j))
            (get b (bidx (length b) i) (bidx (ncols b) j)))).

Context (add mul : A -> A -> A).

(** Sum of [g k] for [k < n]. *)
Definition sum_upto (n : nat) (g : nat -> A) : A :=
  foldr add zero (map g (seq 0 n)).

(** [ops.matmul] on 2-D tensors; [None] when the inner dimensions
    differ. *)
Definition matmul (a b : list (list A)) : option (list (list A)) :=
  if Nat.eqb (ncols a) (length b)
  then Some (tabulate (length a) (ncols b) (fun i j =>
               sum_upto (length b) (fun k => mul (get a i k) (get b k j))))
  else None.
End Rows.

(** Tensor payloads of rank 0, 1 and 2. *)
Inductive tdata (A : Type) : Type :=
| D0 (x : A)
| D1 (v : list A)
| D2 (m : list (list A)).
Arguments D0 {A} x.
Arguments D1 {A} v.
Arguments D2 {A} m.

Inductive dtype := Int8 | Float32.

#[global] Instance dtype_eq_dec : EqDecision dtype.
Proof. solve_decision. Defined.

(** A tensor is integer or floating point. *)
Inductive tensor :=
| TI (d : tdata Z)
| TF (d : tdata Qc).

(** The shape of a payload. The column count of a 2-D payload is read off
    its first row: a payload without rows has the shape [(0, 0)]. *)
Definition dshape {A} (d : tdata A) : list nat :=
  match d with
  | D0 _ => []
  | D1 v => [length v]
  | D2 m => [length m; ncols m]
  end.

Definition shape (t : tensor) : list nat :=
  match t with TI d => dshape d | TF d => dshape d end.

Definition tensor_dtype (t : tensor) : dtype :=
  match t with TI _ => Int8 | TF _ => Float32 end.

(** Broadcasting puts a tensor of lower rank under leading axes of extent
    one. *)
Definition lift2 {A} (d : tdata A) : list (list A) :=
  match d with
  | D0 x => [[x]]
  | D1 v => [v]
  | D2 m => m
  end.

Definition dmap {A B} (f : A -> B) (d : tdata A) : tdata B :=
  match d with
  | D0 x => D0 (f x)
  | D1 v => D1 (map f v)
  | D2 m => D2 (map (map f) m)
  end.

Definition Qc_of_Z (z : Z) : Qc := Q2Qc (inject_Z z).

(** Wrap-around of a machine integer into the signed 8-bit range. *)
Definition to_int8 (z : Z) : Z := (z + 128) mod 256 - 128.

(** Conversion of a float to int8: truncation toward zero, then
    wrap-around. *)
Definition Qc_to_int8 (q : Qc) : Z :=
  to_int8 (if Qclt_le_dec q 0 then - Qfloor (- q) else Qfloor q).

(** [ops.cast]. *)
Definition cast (dt : dtype) (t : tensor) : tensor :=
  match dt, t with
  | Int8, TI d => TI d
  | Float32, TF d => TF d
  | Float32, TI d => TF (dmap Qc_of_Z d)
  | Int8, TF d => TI (dmap Qc_to_int8 d)
  end.

(** The values of a tensor as a 2-D floating-point operand. *)
Definition float2 (t : tensor) : list (list Qc) :=
  match t with
  | TF d => lift2 d
  | TI d => lift2 (dmap Qc_of_Z d)
  end.

(** The values of a tensor as a 2-D integer operand. *)
Definition int2 (t : tensor) : list (list Z) :=
  match t with
  | TI d => lift2 d
  | TF d => lift2 (dmap Qc_to_int8 d)
  end.

Module Ops.
Definition matmulQ := matmul (0%Qc) Qcplus Qcmult.
Definition matmulZ := matmul 0%Z Z.add Z.mul.
Definition addQ := ewise (0%Qc) Qcplus.
Definition multiplyQ := ewise (0%Qc) Qcmult.
Definition divideQ := ewise (0%Qc) Qcdiv.
Definition transposeQ := transpose (0%Qc).

(** Multiplication of a tensor by a Python number. *)
Definition scale (s : Qc) (m : list (list Qc)) : list (list Qc) :=
  map (map (Qcmult s)) m.

(** [ops.cast(x, compute_dtype)] of an integer 2-D tensor. *)
Definition cast_float (m : list (list Z)) : list (list Qc) :=
  map (map Qc_of_Z) m.

(** [ops.zeros(shape)] and the values of the [zeros] and [ones]
    initializers. *)
Definition full (x : Qc) (sh : list nat) : tensor :=
  match sh with
  | [] => TF (D0 x)
  | [n] => TF (D1 (replicate n x))
  | n :: c :: _ => TF (D2 (replicate n (replicate c x)))
  end.
Definition zeros := full 0%Qc.
Definition ones := full 1%Qc.

(** [ops.squeeze(x, axis=0)]: the leading axis must have extent one. *)
Definition squeeze0 {A} (m : list (list A)) : option (list A) :=
  match m with
  | [v] => Some v
  | _ => None
  end.
End Ops.

(** ** keras.src.quantizers: the 4-bit packer *)

Module Quantizers.

(** Modelled from the spec: the body of [quantizers.pack_int4] is not in
    [dense.py]. One byte of the packed tensor: value0 in the low nibble and
    value1 in the high nibble, each in two's-complement 4-bit encoding, the
    byte being stored with dtype int8. *)
Definition pack_byte (value0 value1 : Z) : Z :=
  to_int8 (Z.lor (Z.shiftl (Z.land value1 15) 4) (Z.land value0 15)).

(** Modelled from the spec: sign extension of a 4-bit nibble to int8. *)
Definition sign_extend4 (n : Z) : Z := if Z.ltb 7 n then n - 16 else n.

(** Modelled from the spec: the two nibbles of a packed byte. *)
Definition low_nibble (b : Z) : Z := sign_extend4 (Z.land b 15).
Definition high_nibble (b : Z) : Z :=
  sign_extend4 (Z.land (Z.shiftr b 4) 15).

(** Modelled from the spec: rows are packed pairwise along axis 0; an
    unpaired last row is packed against a zero-filled partner. *)
Fixpoint pack_rows (x : list (list Z)) : list (list Z) :=
  match x with
  | [] => []
  | [r] => [zip_with pack_byte r (replicate (length r) 0)]
  | r0 :: r1 :: rest => zip_with pack_byte r0 r1 :: pack_rows rest
  end.

(** Modelled from the spec: [quantizers.pack_int4], whose body is not in
    [dense.py]. Its caller [Dense.quantize] unpacks three results: the packed
    tensor, the packed shape and the original row count, which has to be
    tracked by the caller. *)
Definition pack_int4 (x : list (list Z))
  : list (list Z) * (nat * nat) * nat :=
  let packed := pack_rows x in
  (packed, shape2 packed, length x).

(** Modelled from the spec: every packed row yields the row of its low
    nibbles followed by the row of its high nibbles. *)
Definition unpack_rows (packed : list (list Z)) : list (list Z) :=
  flat_map (fun row => [map low_nibble row; map high_nibble row]) packed.

(** Modelled from the spec: [quantizers.unpack_int4], whose body is not in
    [dense.py]; the result is truncated to [orig_rows] rows. *)
Definition unpack_int4 (packed : list (list Z)) (orig_rows : nat)
  : list (list Z) :=
  take orig_rows (unpack_rows packed).

(** The values a signed 4-bit integer can take. *)
Definition int4 (v : Z) : Prop := -8 <= v <= 7.
Definition int4b (v : Z) : bool := Z.leb (-8) v && Z.leb v 7.

(** The values a signed 8-bit integer can take. *)
Definition int8 (v : Z) : Prop := -128 <= v <= 127.

(** *** The abs-max quantizer *)

(** The larger of two rationals. *)
Definition Qcmax (a b : Qc) : Qc := if Qclt_le_dec a b then b else a.

(** Modelled from the spec: the maximum absolute value of one slice. *)
Definition max_abs (slice : list Qc) : Qc :=
  foldr (fun x acc => Qcmax (Qcabs x) acc) 0%Qc slice.

(** The fuzz factor [backend.epsilon()], 1e-7, which is the default of the
    [epsilon] argument of [abs_max_quantize]; [dense.py] never passes
    another. *)
Definition epsilon : Qc := Q2Qc (1 # 10000000).

(** Modelled from the spec: scale = value_range_max / max_abs, per slice.
    Where the spec branches on a maximum of 0, [abs_max_quantize] has no
    branch: it keeps the divisor away from zero by adding [epsilon] to the
    maximum, so that the scale of an all-zero slice is
    value_range_max / epsilon (1.27e9 for int8) and not 1. *)
Definition abs_max_scale (value_range_max : Z) (slice : list Qc) : Qc :=
  (Qc_of_Z value_range_max / (max_abs slice + epsilon))%Qc.

(** Modelled from the spec: rounding to the nearest integer. The spec says
    only "round"; ties go to the even neighbour, as NumPy's [round] has it. *)
Definition round_half_even (q : Qc) : Z :=
  let f := Qfloor q in
  let d := (q - Qc_of_Z f)%Qc in
  let half := Q2Qc (1 # 2) in
  if Qclt_le_dec d half then f
  else if Qclt_le_dec half d then f + 1
  else if Z.even f then f else f + 1.

(** Clamping to the closed interval from [lo] to [hi]. *)
Definition clip (lo hi z : Z) : Z := Z.max lo (Z.min hi z).

(** Modelled from the spec: quantized value = round(tensor * scale) clamped
    to value_range, cast to the target integer type. *)
Definition quantize_value (value_range : Z * Z) (scale x : Qc) : Z :=
  to_int8 (clip value_range.1 value_range.2 (round_half_even (x * scale)%Qc)).

(** The two axes [dense.py] quantizes along: [axis=0] (one scale per
    column, for kernels) and [axis=-1] (one scale per row, for inputs). *)
Inductive axis := Axis0 | AxisLast.

#[global] Instance axis_eq_dec : EqDecision axis.
Proof. solve_decision. Defined.

Definition default_value_range : Z * Z := (-127, 127).

(** Modelled from the spec: [quantizers.abs_max_quantize], whose body is
    not in [dense.py]. The scale keeps the reduced axis with extent one. *)
Definition abs_max_quantize (inputs : list (list Qc)) (ax : axis)
    (value_range : Z * Z) : list (list Z) * list (list Qc) :=
  match ax with
  | Axis0 =>
      let scales :=
        map (abs_max_scale value_range.2) (Ops.transposeQ inputs) in
      (map (fun row => zip_with (quantize_value value_range) scales row)
           inputs,
       [scales])
  | AxisLast =>
      let scales := map (abs_max_scale value_range.2) inputs in
      (zip_with (fun s row => map (quantize_value value_range s) row)
                scales inputs,
       map (fun s => [s]) scales)
  end.

(** Modelled from the spec: [dequantize] is cast-to-float divided by the
    scale, one scale per output channel. *)
Definition dequantize (quantized : list (list Z)) (scale : list Qc)
  : list (list Qc) :=
  map (fun row => zip_with Qcdiv (map Qc_of_Z row) scale) quantized.

End Quantizers.


(** ** The layer *)

Module Layer.

(** Initializers are opaque callables; [Sampled f] stands for a random
    initializer (glorot_uniform, he_uniform) whose draw at entry [(i, j)]
    is [f i j]. *)
Inductive Initializer :=
| Zeros
| Ones
| Sampled (f : nat -> nat -> Qc).

Definition initial_value (init : Initializer) (dt : dtype) (sh : list nat)
  : tensor :=
  cast dt
    match init with
    | Zeros => Ops.zeros sh
    | Ones => Ops.ones sh
    | Sampled f =>
        match sh with
        | [] => TF (D0 (f 0 0)%nat)
        | [n] => TF (D1 (map (f 0%nat) (seq 0 n)))
        | n :: c :: _ => TF (D2 (tabulate n c f))
        end
    end.

(** A constraint is an opaque projection applied after weight updates. *)
Definition Constraint : Type := tensor -> tensor.

(** A backend variable: a named buffer of fixed shape and dtype. *)
Record KerasVariable := {
  v_name : string;
  v_shape : list nat;
  v_dtype : dtype;
  v_trainable : bool;
  v_value : tensor
}.

Definition set_v_value (t : tensor) (v : KerasVariable) : KerasVariable :=
  {| v_name := v_name v; v_shape := v_shape v; v_dtype := v_dtype v;
     v_trainable := v_trainable v; v_value := t |}.

Definition set_v_trainable (b : bool) (v : KerasVariable) : KerasVariable :=
  {| v_name := v_name v; v_shape := v_shape v; v_dtype := v_dtype v;
     v_trainable := b; v_value := v_value v |}.

(** What the layer reads from its dtype policy. [amax_history_length] is
    the value [getattr(policy, "amax_history_length", default)] yields. *)
Record DTypePolicy := {
  policy_name : string;
  quantization_mode_of : option string;
  compute_dtype : string;
  amax_history_length : nat
}.

(** Exceptions raised by the methods of the layer and by the operations
    they call. *)
Inductive exn :=
| LoraKernelConstraintError
| LoraNotBuiltError
| LoraAlreadyEnabledError
| KernelNotBuiltError
| NeverBuiltError (layer : string) (received : nat)
| VariableCountError (layer : string) (expected received : nat)
    (expected_names : list string)
| QuantizationModeError (mode : string)
| QuantizeNotImplementedError
| Float8LoraNotImplementedError
| AttributeError (attr : string)
| KeyError (key : string)
| IndexError
| TypeError
| ZeroDivisionError
| ShapeError (op : string).

(** The attributes of a [Dense] instance that the methods below read or
    write. [variables] is the part of the instance dictionary that holds
    the weights, keyed by attribute name; a missing key is an attribute that
    does not exist or holds [None]. [is_subclass] records whether
    [type(self)] is a proper subclass of [Dense]; regularizers, which are
    only handed on to [add_weight], are left out. *)
Record Dense := {
  name : string;
  is_subclass : bool;
  units : nat;
  activation : option (Qc -> Qc);
  use_bias : bool;
  kernel_initializer : Initializer;
  bias_initializer : Initializer;
  kernel_constraint : option Constraint;
  lora_rank : option nat;
  lora_alpha : option Qc;
  lora_enabled : bool;
  built : bool;
  dtype_policy : DTypePolicy;
  tracker_locked : bool;
  _trainable_variables : list string;
  _non_trainable_variables : list string;
  variables : gmap string KerasVariable;
  inputs_quantizer : option Quantizers.axis;
  _orig_input_dim : option nat;
  _is_quantized : bool
}.

(** Attribute assignment, one setter per mutable attribute. *)
Definition set_lora_rank (x : option nat) (l : Dense) : Dense :=
  {| name := name l; is_subclass := is_subclass l; units := units l;
  activation := activation l; use_bias := use_bias l; kernel_initializer :=
  kernel_initializer l; bias_initializer := bias_initializer l;
  kernel_constraint := kernel_constraint l; lora_rank := x; lora_alpha :=
  lora_alpha l; lora_enabled := lora_enabled l; built := built l;
  dtype_policy := dtype_policy l; tracker_locked := tracker_locked l;
  _trainable_variables := _trainable_variables l; _non_trainable_variables
  := _non_trainable_variables l; variables := variables l; inputs_quantizer
  := inputs_quantizer l; _orig_input_dim := _orig_input_dim l; _is_quantized
  := _is_quantized l |}.
Definition set_lora_alpha (x : option Qc) (l : Dense) : Dense :=
  {| name := name l; is_subclass := is_subclass l; units := units l;
  activation := activation l; use_bias := use_bias l; kernel_initializer :=
  kernel_initializer l; bias_initializer := bias_initializer l;
  kernel_constraint := kernel_constraint l; lora_rank := lora_rank l;
  lora_alpha := x; lora_enabled := lora_enabled l; built := built l;
  dtype_policy := dtype_policy l; tracker_locked := tracker_locked l;
  _trainable_variables := _trainable_variables l; _non_trainable_variables
  := _non_trainable_variables l; variables := variables l; inputs_quantizer
  := inputs_quantizer l; _orig_input_dim := _orig_input_dim l; _is_quantized
  := _is_quantized l |}.
Definition set_lora_enabled (x : bool) (l : Dense) : Dense :=
  {| name := name l; is_subclass := is_subclass l; units := units l;
  activation := activation l; use_bias := use_bias l; kernel_initializer :=
  kernel_initializer l; bias_initializer := bias_initializer l;
  kernel_constraint := kernel_constraint l; lora_rank := lora_rank l;
  lora_alpha := lora_alpha l; lora_enabled := x; built := built l;
  dtype_policy := dtype_policy l; tracker_locked := tracker_locked l;
  _trainable_variables := _trainable_variables l; _non_trainable_variables
  := _non_trainable_variables l; variables := variables l; inputs_quantizer
  := inputs_quantizer l; _orig_input_dim := _orig_input_dim l; _is_quantized
  := _is_quantized l |}.
Definition set_built (x : bool) (l : Dense) : Dense :=
  {| name := name l; is_subclass := is_subclass l; units := units l;
  activation := activation l; use_bias := use_bias l; kernel_initializer :=
  kernel_initializer l; bias_initializer := bias_initializer l;
  kernel_constraint := kernel_constraint l; lora_rank := lora_rank l;
  lora_alpha := lora_alpha l; lora_enabled := lora_enabled l; built := x;
  dtype_policy := dtype_policy l; tracker_locked := tracker_locked l;
  _trainable_variables := _trainable_variables l; _non_trainable_variables
  := _non_trainable_variables l; variables := variables l; inputs_quantizer
  := inputs_quantizer l; _orig_input_dim := _orig_input_dim l; _is_quantized
  := _is_quantized l |}.
Definition set_dtype_policy (x : DTypePolicy) (l : Dense) : Dense :=
  {| name := name l; is_subclass := is_subclass l; units := units l;
  activation := activation l; use_bias := use_bias l; kernel_initializer :=
  kernel_initializer l; bias_initializer := bias_initializer l;
  kernel_constraint := kernel_constraint l; lora_rank := lora_rank l;
  lora_alpha := lora_alpha l; lora_enabled := lora_enabled l; built := built
  l; dtype_policy := x; tracker_locked := tracker_locked l;
  _trainable_variables := _trainable_variables l; _non_trainable_variables
  := _non_trainable_variables l; variables := variables l; inputs_quantizer
  := inputs_quantizer l; _orig_input_dim := _orig_input_dim l; _is_quantized
  := _is_quantized l |}.
Definition set_tracker_locked (x : bool) (l : Dense) : Dense :=
  {| name := name l; is_subclass := is_subclass l; units := units l;
  activation := activation l; use_bias := use_bias l; kernel_initializer :=
  kernel_initializer l; bias_initializer := bias_initializer l;
  kernel_constraint := kernel_constraint l; lora_rank := lora_rank l;
  lora_alpha := lora_alpha l; lora_enabled := lora_enabled l; built := built
  l; dtype_policy := dtype_policy l; tracker_locked := x;
  _trainable_variables := _trainable_variables l; _non_trainable_variables
  := _non_trainable_variables l; variables := variables l; inputs_quantizer
  := inputs_quantizer l; _orig_input_dim := _orig_input_dim l; _is_quantized
  := _is_quantized l |}.
Definition set__trainable_variables (x : list string) (l : Dense) : Dense :=
  {| name := name l; is_subclass := is_subclass l; units := units l;
  activation := activation l; use_bias := use_bias l; kernel_initializer :=
  kernel_initializer l; bias_initializer := bias_initializer l;
  kernel_constraint := kernel_constraint l; lora_rank := lora_rank l;
  lora_alpha := lora_alpha l; lora_enabled := lora_enabled l; built := built
  l; dtype_policy := dtype_policy l; tracker_locked := tracker_locked l;
  _trainable_variables := x; _non_trainable_variables :=
  _non_trainable_variables l; variables := variables l; inputs_quantizer :=
  inputs_quantizer l; _orig_input_dim := _orig_input_dim l; _is_quantized :=
  _is_quantized l |}.
Definition set__non_trainable_variables (x : list string) (l : Dense) : Dense :=
  {| name := name l; is_subclass := is_subclass l; units := units l;
  activation := activation l; use_bias := use_bias l; kernel_initializer :=
  kernel_initializer l; bias_initializer := bias_initializer l;
  kernel_constraint := kernel_constraint l; lora_rank := lora_rank l;
  lora_alpha := lora_alpha l; lora_enabled := lora_enabled l; built := built
  l; dtype_policy := dtype_policy l; tracker_locked := tracker_locked l;
  _trainable_variables := _trainable_variables l; _non_trainable_variables
  := x; variables := variables l; inputs_quantizer := inputs_quantizer l;
  _orig_input_dim := _orig_input_dim l; _is_quantized := _is_quantized l |}.
Definition set_variables (x : gmap string KerasVariable) (l : Dense) : Dense :=
  {| name := name l; is_subclass := is_subclass l; units := units l;
  activation := activation l; use_bias := use_bias l; kernel_initializer :=
  kernel_initializer l; bias_initializer := bias_initializer l;
  kernel_constraint := kernel_constraint l; lora_rank := lora_rank l;
  lora_alpha := lora_alpha l; lora_enabled := lora_enabled l; built := built
  l; dtype_policy := dtype_policy l; tracker_locked := tracker_locked l;
  _trainable_variables := _trainable_variables l; _non_trainable_variables
  := _non_trainable_variables l; variables := x; inputs_quantizer :=
  inputs_quantizer l; _orig_input_dim := _orig_input_dim l; _is_quantized :=
  _is_quantized l |}.
Definition set_inputs_quantizer (x : option Quantizers.axis) (l : Dense) : Dense :=
  {| name := name l; is_subclass := is_subclass l; units := units l;
  activation := activation l; use_bias := use_bias l; kernel_initializer :=
  kernel_initializer l; bias_initializer := bias_initializer l;
  kernel_constraint := kernel_constraint l; lora_rank := lora_rank l;
  lora_alpha := lora_alpha l; lora_enabled := lora_enabled l; built := built
  l; dtype_policy := dtype_policy l; tracker_locked := tracker_locked l;
  _trainable_variables := _trainable_variables l; _non_trainable_variables
  := _non_trainable_variables l; variables := variables l; inputs_quantizer
  := x; _orig_input_dim := _orig_input_dim l; _is_quantized := _is_quantized
  l |}.
Definition set__orig_input_dim (x : option nat) (l : Dense) : Dense :=
  {| name := name l; is_subclass := is_subclass l; units := units l;
  activation := activation l; use_bias := use_bias l; kernel_initializer :=
  kernel_initializer l; bias_initializer := bias_initializer l;
  kernel_constraint := kernel_constraint l; lora_rank := lora_rank l;
  lora_alpha := lora_alpha l; lora_enabled := lora_enabled l; built := built
  l; dtype_policy := dtype_policy l; tracker_locked := tracker_locked l;
  _trainable_variables := _trainable_variables l; _non_trainable_variables
  := _non_trainable_variables l; variables := variables l; inputs_quantizer
  := inputs_quantizer l; _orig_input_dim := x; _is_quantized :=
  _is_quantized l |}.
Definition set__is_quantized (x : bool) (l : Dense) : Dense :=
  {| name := name l; is_subclass := is_subclass l; units := units l;
  activation := activation l; use_bias := use_bias l; kernel_initializer :=
  kernel_initializer l; bias_initializer := bias_initializer l;
  kernel_constraint := kernel_constraint l; lora_rank := lora_rank l;
  lora_alpha := lora_alpha l; lora_enabled := lora_enabled l; built := built
  l; dtype_policy := dtype_policy l; tracker_locked := tracker_locked l;
  _trainable_variables := _trainable_variables l; _non_trainable_variables
  := _non_trainable_variables l; variables := variables l; inputs_quantizer
  := inputs_quantizer l; _orig_input_dim := _orig_input_dim l; _is_quantized
  := x |}.

Definition matrix : Type := list (list Qc).

(** *** The state-and-exception monad

    A method takes the layer and returns its outcome, a raised exception or
    a value, together with the layer as the method left it. *)
Definition M (A : Type) : Type := Dense -> (exn + A) * Dense.

#[global] Instance M_ret : MRet M := fun A x l => (inr x, l).
#[global] Instance M_bind : MBind M := fun A B f m l =>
  match m l with
  | (inr x, l') => f x l'
  | (inl e, l') => (inl e, l')
  end.

Definition raise {A} (e : exn) : M A := fun l => (inl e, l).
Definition gets {A} (f : Dense -> A) : M A := fun l => (inr (f l), l).
Definition modify (f : Dense -> Dense) : M unit := fun l => (inr tt, f l).
Definition lift_opt {A} (e : exn) (o : option A) : M A :=
  match o with
  | Some x => mret x
  | None => raise e
  end.

(** The result of a tensor operation, a shape mismatch being raised. *)
Definition op {A} (opname : string) (o : option A) : M A :=
  lift_opt (ShapeError opname) o.

(** [self.<attr>] for an attribute that holds a variable. *)
Definition getattr (a : string) : M KerasVariable :=
  l ← gets variables; lift_opt (AttributeError a) (l !! a).

(** [self.<attr> = v]. *)
Definition setattr (a : string) (v : KerasVariable) : M unit :=
  modify (fun l => set_variables (<[a := v]> (variables l)) l).

(** The tracker files a new variable under the trainable or the
    non-trainable variables. *)
Definition track (nm : string) (trainable : bool) (l : Dense) : Dense :=
  if trainable
  then set__trainable_variables (_trainable_variables l ++ [nm]) l
  else set__non_trainable_variables (_non_trainable_variables l ++ [nm]) l.

(** [Layer.add_weight], whose body is not in [dense.py]: it creates the
    variable from its initializer and tracks it as trainable or
    non-trainable. *)
Definition add_weight (nm : string) (sh : list nat) (init : Initializer)
    (dt : dtype) (trainable : bool) : M KerasVariable :=
  modify (track nm trainable);;
  mret {| v_name := nm; v_shape := sh; v_dtype := dt;
          v_trainable := trainable; v_value := initial_value init dt sh |}.

(** [del self.<attr>]: the attribute goes and its variable is no longer
    tracked. *)
Definition delattr (a : string) : M unit :=
  v ← getattr a;
  modify (fun l =>
    set_variables (delete a (variables l))
      (set__trainable_variables
         (filter (fun n => n ≠ v_name v) (_trainable_variables l))
         (set__non_trainable_variables
            (filter (fun n => n ≠ v_name v) (_non_trainable_variables l))
            l))).

(** [Variable.assign], whose body is not in [dense.py]: the value must
    have the variable's shape and is converted to its dtype. *)
Definition assign (v : KerasVariable) (value : tensor)
  : exn + KerasVariable :=
  if decide (shape value = v_shape v)
  then inr (set_v_value (cast (v_dtype v) value) v)
  else inl (ShapeError "assign").

(** [self.<attr>.assign(value)]. *)
Definition assign_attr (a : string) (value : tensor) : M unit :=
  v ← getattr a;
  match assign v value with
  | inl e => raise e
  | inr v' => setattr a v'
  end.

(** The [quantization_mode] property of the base layer. *)
Definition quantization_mode (l : Dense) : option string :=
  quantization_mode_of (dtype_policy l).

(** [dtype_policies.get(f"{mode}_from_{name}")]. *)
Definition dtype_policies_get (mode : string) (old : DTypePolicy)
  : DTypePolicy :=
  {| policy_name := mode +:+ "_from_" +:+ policy_name old;
     quantization_mode_of := Some mode;
     compute_dtype := compute_dtype old;
     amax_history_length := amax_history_length old |}.

(** [Dense.__init__]. *)
Definition init (layer_name : string) (subclass : bool) (n_units : nat)
    (act : option (Qc -> Qc)) (with_bias : bool)
    (k_init b_init : Initializer) (k_constraint : option Constraint)
    (rank : option nat) (alpha : option Qc) (policy : DTypePolicy) : Dense :=
  {| name := layer_name; is_subclass := subclass; units := n_units;
     activation := act; use_bias := with_bias;
     kernel_initializer := k_init; bias_initializer := b_init;
     kernel_constraint := k_constraint;
     lora_rank := rank;
     lora_alpha :=
       match alpha with
       | Some a => Some a
       | None => (fun r => Qc_of_Z (Z.of_nat r)) <$> rank
       end;
     lora_enabled := false; built := false; dtype_policy := policy;
     tracker_locked := false;
     _trainable_variables := []; _non_trainable_variables := [];
     variables := ∅; inputs_quantizer := None;
     _orig_input_dim := None; _is_quantized := false |}.

(** *** Building the variables of the quantized modes *)

Definition _int8_build (kernel_shape : list nat) : M unit :=
  modify (set_inputs_quantizer (Some Quantizers.AxisLast));;
  k ← add_weight "kernel" kernel_shape Zeros Int8 false;
  setattr "_kernel" k;;
  u ← gets units;
  s ← add_weight "kernel_scale" [u] Ones Float32 false;
  setattr "kernel_scale" s.

Definition _int4_build (kernel_shape : list nat) : M unit :=
  modify (set_inputs_quantizer (Some Quantizers.AxisLast));;
  '(input_dim, output_dim) ←
    match kernel_shape with
    | [i; o] => mret (i, o)
    | _ => raise (ShapeError "unpack")
    end;
  let packed_rows := ((input_dim + 1) `div` 2)%nat in
  k ← add_weight "kernel" [packed_rows; output_dim] Zeros Int8 false;
  setattr "_kernel" k;;
  u ← gets units;
  s ← add_weight "kernel_scale" [u] Ones Float32 false;
  setattr "kernel_scale" s;;
  modify (set__orig_input_dim (Some input_dim)).

Definition _float8_build : M unit :=
  n ← gets (fun l => amax_history_length (dtype_policy l));
  let scale nm :=
    (v ← add_weight nm [] Ones Float32 true; setattr nm v) in
  let amax_history nm :=
    (v ← add_weight nm [n] Zeros Float32 true; setattr nm v) in
  scale "inputs_scale";;
  amax_history "inputs_amax_history";;
  scale "kernel_scale";;
  amax_history "kernel_amax_history";;
  scale "outputs_grad_scale";;
  amax_history "outputs_grad_amax_history".

Definition quantized_build (kernel_shape : list nat) (mode : string)
  : M unit :=
  (if decide (mode = "int8") then _int8_build kernel_shape
   else if decide (mode = "int4") then _int4_build kernel_shape
   else if decide (mode = "float8") then _float8_build
   else raise (QuantizationModeError mode));;
  modify (set__is_quantized true).

(** *** The effective kernel and LoRA *)

(** [self.lora_alpha / self.lora_rank], Python's true division. *)
Definition lora_scaling : M Qc :=
  alpha ← gets lora_alpha;
  rank ← gets lora_rank;
  match alpha, rank with
  | Some a, Some r =>
      if decide (r = 0%nat) then raise ZeroDivisionError
      else mret (a / Qc_of_Z (Z.of_nat r))%Qc
  | _, _ => raise TypeError
  end.

(** The [kernel] property returns the variable itself, or a tensor when
    the LoRA delta is added. *)
Inductive kernel_value :=
| KVar (v : KerasVariable)
| KTensor (t : tensor).

Definition kernel_shape_of (k : kernel_value) : list nat :=
  match k with
  | KVar v => v_shape v
  | KTensor t => shape t
  end.

Definition kernel_tensor (k : kernel_value) : tensor :=
  match k with
  | KVar v => v_value v
  | KTensor t => t
  end.

Definition kernel : M kernel_value :=
  b ← gets built;
  if negb b then raise KernelNotBuiltError
  else
    enabled ← gets lora_enabled;
    if (enabled : bool) then
      k ← getattr "_kernel";
      s ← lora_scaling;
      a ← getattr "lora_kernel_a";
      b ← getattr "lora_kernel_b";
      ab ← op "matmul"
             (Ops.matmulQ (float2 (v_value a)) (float2 (v_value b)));
      sum ← op "add" (Ops.addQ (float2 (v_value k)) (Ops.scale s ab));
      mret (KTensor (TF (D2 sum)))
    else
      k ← getattr "_kernel";
      mret (KVar k).

(** Truthiness of an attribute that is [None] or an object. *)
Definition is_some {A} (o : option A) : bool :=
  match o with
  | Some _ => true
  | None => false
  end.

(** [shape[i]] of a shape tuple. *)
Definition dim (i : nat) (sh : list nat) : M nat :=
  lift_opt IndexError (sh !! i).

Definition enable_lora (rank : nat) (alpha : option Qc)
    (a_initializer b_initializer : Initializer) : M unit :=
  constraint ← gets kernel_constraint;
  if is_some constraint then raise LoraKernelConstraintError
  else
    b ← gets built;
    if negb b then raise LoraNotBuiltError
    else
      enabled ← gets lora_enabled;
      if (enabled : bool) then raise LoraAlreadyEnabledError
      else
        modify (set_tracker_locked false);;
        mode ← gets quantization_mode;
        orig ← gets _orig_input_dim;
        input_dim_for_lora ←
          match orig with
          | Some d =>
              if bool_decide (mode = Some "int4") then mret d
              else (k ← kernel; dim 0 (kernel_shape_of k))
          | None => k ← kernel; dim 0 (kernel_shape_of k)
          end;
        a ← add_weight "lora_kernel_a" [input_dim_for_lora; rank]
              a_initializer Float32 true;
        setattr "lora_kernel_a" a;;
        k ← kernel;
        output_dim ← dim 1 (kernel_shape_of k);
        b ← add_weight "lora_kernel_b" [rank; output_dim]
              b_initializer Float32 true;
        setattr "lora_kernel_b" b;;
        kv ← getattr "_kernel";
        setattr "_kernel" (set_v_trainable false kv);;
        modify (set_tracker_locked true);;
        modify (set_lora_enabled true);;
        modify (set_lora_rank (Some rank));;
        modify (set_lora_alpha
                  (Some (default (Qc_of_Z (Z.of_nat rank)) alpha))).

(** *** build *)

(** [he_uniform] is the default [a_initializer] of [enable_lora], which
    [build] calls with its defaults. *)
Definition build (he_uniform : Initializer) (input_shape : list nat)
  : M unit :=
  input_dim ← lift_opt IndexError (last input_shape);
  u ← gets units;
  let kernel_shape := [input_dim; u] in
  mode ← gets quantization_mode;
  match mode with
  | Some m =>
      if decide (m = "") then mret tt else quantized_build kernel_shape m
  | None => mret tt
  end;;
  (if bool_decide (mode = Some "int8") || bool_decide (mode = Some "int4")
   then mret tt
   else
     initializer ← gets kernel_initializer;
     k ← add_weight "kernel" kernel_shape initializer Float32 true;
     setattr "_kernel" k);;
  with_bias ← gets use_bias;
  (if (with_bias : bool) then
     initializer ← gets bias_initializer;
     b ← add_weight "bias" [u] initializer Float32 true;
     setattr "bias" b
   else modify (fun l => set_variables (delete "bias" (variables l)) l));;
  modify (set_built true);;
  rank ← gets lora_rank;
  match rank with
  | Some r =>
      if decide (r = 0%nat) then mret tt
      else enable_lora r None he_uniform Zeros
  | None => mret tt
  end.

(** *** Forward passes *)

(** Bias addition and activation, the common tail of the forward passes. *)
Definition add_bias_and_activate (x : matrix) : M matrix :=
  b ← gets (fun l => variables l !! "bias");
  x ← match b with
      | Some bias => op "add" (Ops.addQ x (float2 (v_value bias)))
      | None => mret x
      end;
  act ← gets activation;
  mret match act with
       | Some f => map (map f) x
       | None => x
       end.

Definition call (inputs : matrix) : M matrix :=
  k ← kernel;
  x ← op "matmul" (Ops.matmulQ inputs (float2 (kernel_tensor k)));
  add_bias_and_activate x.

Definition compute_output_shape (input_shape : list nat) : M (list nat) :=
  u ← gets units;
  match input_shape with
  | [] => raise IndexError
  | _ => mret (<[pred (length input_shape) := u]> input_shape)
  end.

(** The gradients a backward function returns for the three arguments of
    its forward function; [None] is "not computed". *)
Definition grads : Type := matrix * option tensor * option tensor.

(** A backward function, from the upstream gradient. *)
Definition backward : Type := matrix -> M grads.

(** The LoRA term of the quantized forward passes. *)
Definition add_lora (inputs x : matrix) : M matrix :=
  enabled ← gets lora_enabled;
  if (enabled : bool) then
    a ← getattr "lora_kernel_a";
    lora_x ← op "matmul" (Ops.matmulQ inputs (float2 (v_value a)));
    b ← getattr "lora_kernel_b";
    lora_x ← op "matmul" (Ops.matmulQ lora_x (float2 (v_value b)));
    s ← lora_scaling;
    op "add" (Ops.addQ x (Ops.scale s lora_x))
  else mret x.

(** [grad_fn] of [_int8_call]. *)
Definition int8_grad_fn (kernel kernel_scale : tensor) : backward :=
  fun upstream =>
    float_kernel ← op "divide"
      (Ops.divideQ (float2 (cast Float32 kernel)) (float2 kernel_scale));
    inputs_grad ← op "matmul"
      (Ops.matmulQ upstream (Ops.transposeQ float_kernel));
    mret (inputs_grad, None, None).

(** The matrix product of int8 inputs with a kernel, in the integers when
    the kernel is an integer tensor. *)
Definition matmul_quantized (inputs : list (list Z)) (kernel : tensor)
  : option matrix :=
  match kernel with
  | TI d => Ops.cast_float <$> Ops.matmulZ inputs (lift2 d)
  | TF d => Ops.matmulQ (Ops.cast_float inputs) (lift2 d)
  end.

(** [self.inputs_quantizer(inputs)]. *)
Definition quantize_inputs (inputs : matrix)
  : M (list (list Z) * matrix) :=
  q ← gets inputs_quantizer;
  ax ← lift_opt (AttributeError "inputs_quantizer") q;
  mret (Quantizers.abs_max_quantize inputs ax
          Quantizers.default_value_range).

(** [matmul_with_inputs_gradient] of [_int8_call]: the forward value and
    the backward function that [ops.custom_gradient] registers. *)
Definition int8_matmul_with_inputs_gradient
    (inputs : matrix) (kernel kernel_scale : tensor)
  : M (matrix * backward) :=
  '(inputs_q, inputs_scale) ← quantize_inputs inputs;
  x ← op "matmul" (matmul_quantized inputs_q kernel);
  denominator ← op "multiply"
    (Ops.multiplyQ inputs_scale (float2 kernel_scale));
  x ← op "divide" (Ops.divideQ x denominator);
  mret (x, int8_grad_fn kernel kernel_scale).

(** [_int8_call]; next to the output it returns the backward function
    registered for the quantized product. *)
Definition _int8_call (inputs : matrix) : M (matrix * backward) :=
  k ← getattr "_kernel";
  s ← getattr "kernel_scale";
  '(x, grad_fn) ←
    int8_matmul_with_inputs_gradient inputs (v_value k) (v_value s);
  x ← add_lora inputs x;
  x ← add_bias_and_activate x;
  mret (x, grad_fn).

(** [grad_fn] of [_int4_call], closed over the unpacked kernel. *)
Definition int4_grad_fn (unpacked_kernel : list (list Z))
    (kernel_scale : tensor) : backward :=
  fun upstream =>
    float_kernel ← op "divide"
      (Ops.divideQ (Ops.cast_float unpacked_kernel) (float2 kernel_scale));
    inputs_grad ← op "matmul"
      (Ops.matmulQ upstream (Ops.transposeQ float_kernel));
    mret (inputs_grad, None, None).

Definition int4_matmul_with_inputs_gradient
    (inputs : matrix) (kernel kernel_scale : tensor)
  : M (matrix * backward) :=
  orig ← gets _orig_input_dim;
  orig_input_dim ← lift_opt (AttributeError "_orig_input_dim") orig;
  let unpacked_kernel :=
    Quantizers.unpack_int4 (int2 kernel) orig_input_dim in
  '(inputs_q, inputs_scale) ← quantize_inputs inputs;
  x ← op "matmul" (Ops.matmulZ inputs_q unpacked_kernel);
  let x := Ops.cast_float x in
  denominator ← op "multiply"
    (Ops.multiplyQ inputs_scale (float2 kernel_scale));
  x ← op "divide" (Ops.divideQ x denominator);
  mret (x, int4_grad_fn unpacked_kernel kernel_scale).

Definition _int4_call (inputs : matrix) : M (matrix * backward) :=
  k ← getattr "_kernel";
  s ← getattr "kernel_scale";
  '(x, grad_fn) ←
    int4_matmul_with_inputs_gradient inputs (v_value k) (v_value s);
  x ← add_lora inputs x;
  x ← add_bias_and_activate x;
  mret (x, grad_fn).

(** *** float8

    The float8 helpers of [keras.src.quantizers] and the bfloat16 cast act
    on floating-point encodings; the forward pass is stated over them. *)
Section Float8.
Variable quantize_and_dequantize : matrix -> tensor -> string -> matrix.
Variable compute_float8_scale : Qc -> tensor -> Qc -> tensor.
Variable compute_float8_amax_history : matrix -> tensor -> tensor.
Variable ops_max : tensor -> Qc.
Variable cast_bfloat16 : Qc -> Qc.

(** [ml_dtypes.finfo(...).max] of the two float8 formats. *)
Definition float8_e4m3fn_max : Qc := Qc_of_Z 448.
Definition float8_e5m2_max : Qc := Qc_of_Z 57344.

(** A backward function of the float8 path: the upstream gradient and
    the new scale and amax history, handed to the optimizer as the
    "gradients" of the scale and history variables. *)
Definition float8_backward : Type := matrix -> grads.

Definition quantized_dequantize_inputs (training : bool)
    (inputs : matrix) (scale amax_history : tensor)
  : matrix * float8_backward :=
  let '(new_scale, new_amax_history) :=
    if training then
      (Some (compute_float8_scale (ops_max amax_history) scale
               float8_e4m3fn_max),
       Some (compute_float8_amax_history inputs amax_history))
    else (None, None) in
  let qdq_inputs := quantize_and_dequantize inputs scale "float8_e4m3fn" in
  (qdq_inputs, fun upstream => (upstream, new_scale, new_amax_history)).

Definition quantized_dequantize_outputs
    (outputs : matrix) (scale amax_history : tensor)
  : matrix * float8_backward :=
  (outputs,
   fun upstream =>
     let new_scale :=
       compute_float8_scale (ops_max amax_history) scale float8_e5m2_max in
     let qdq_upstream :=
       quantize_and_dequantize upstream scale "float8_e5m2" in
     let new_amax_history :=
       compute_float8_amax_history upstream amax_history in
     (qdq_upstream, Some new_scale, Some new_amax_history)).

(** [_float8_call]; next to the output it returns the backward functions
    registered for the inputs, the kernel and the outputs. [training=None]
    is [false]. *)
Definition _float8_call (inputs : matrix) (training : bool)
  : M (matrix * (float8_backward * float8_backward * float8_backward)) :=
  enabled ← gets lora_enabled;
  if (enabled : bool) then raise Float8LoraNotImplementedError
  else
    i_scale ← getattr "inputs_scale";
    i_hist ← getattr "inputs_amax_history";
    let '(qdq_inputs, grad_inputs) :=
      quantized_dequantize_inputs training inputs
        (v_value i_scale) (v_value i_hist) in
    k ← getattr "_kernel";
    k_scale ← getattr "kernel_scale";
    k_hist ← getattr "kernel_amax_history";
    let '(qdq_kernel, grad_kernel) :=
      quantized_dequantize_inputs training (float2 (v_value k))
        (v_value k_scale) (v_value k_hist) in
    x ← op "matmul" (Ops.matmulQ qdq_inputs qdq_kernel);
    o_scale ← getattr "outputs_grad_scale";
    o_hist ← getattr "outputs_grad_amax_history";
    let '(x, grad_outputs) :=
      quantized_dequantize_outputs x (v_value o_scale) (v_value o_hist) in
    b ← gets (fun l => variables l !! "bias");
    x ← match b with
        | Some bias =>
            cd ← gets (fun l => compute_dtype (dtype_policy l));
            let bias :=
              if decide (cd = "float32")
              then map (map cast_bfloat16) (float2 (v_value bias))
              else float2 (v_value bias) in
            op "add" (Ops.addQ x bias)
        | None => mret x
        end;
    act ← gets activation;
    let x := match act with
             | Some f => map (map f) x
             | None => x
             end in
    mret (x, (grad_inputs, grad_kernel, grad_outputs)).
End Float8.

(** *** quantize *)

Definition quantize (mode : string) (type_check : bool) : M unit :=
  subclass ← gets is_subclass;
  if type_check && subclass then raise QuantizeNotImplementedError
  else
    k ← getattr "_kernel";
    let kernel_shape := v_shape k in
    (if decide (mode = "int8") then
       let '(kernel_value, kernel_scale) :=
         Quantizers.abs_max_quantize (float2 (v_value k)) Quantizers.Axis0
           Quantizers.default_value_range in
       kernel_scale ← op "squeeze" (Ops.squeeze0 kernel_scale);
       delattr "_kernel";;
       quantized_build kernel_shape mode;;
       assign_attr "_kernel" (TI (D2 kernel_value));;
       assign_attr "kernel_scale" (TF (D1 kernel_scale))
     else if decide (mode = "int4") then
       let '(kernel_value_int4, kernel_scale) :=
         Quantizers.abs_max_quantize (float2 (v_value k)) Quantizers.Axis0
           (-8, 7) in
       kernel_scale ← op "squeeze" (Ops.squeeze0 kernel_scale);
       let '(packed_kernel_value, _, _) :=
         Quantizers.pack_int4 kernel_value_int4 in
       delattr "_kernel";;
       quantized_build kernel_shape mode;;
       assign_attr "_kernel" (TI (D2 packed_kernel_value));;
       assign_attr "kernel_scale" (TF (D1 kernel_scale))
     else if decide (mode = "float8") then quantized_build kernel_shape mode
     else raise (QuantizationModeError mode));;
    policy ← gets dtype_policy;
    match quantization_mode_of policy with
    | None => modify (set_dtype_policy (dtype_policies_get mode policy))
    | Some _ => mret tt
    end.

(** *** Loading from the weight store *)

(** The store maps the positional keys "0", "1", ... to buffers. *)
Definition _check_load_own_variables (store : gmap string tensor)
  : M unit :=
  trainable ← gets _trainable_variables;
  non_trainable ← gets _non_trainable_variables;
  let all_vars := trainable ++ non_trainable in
  if decide (size store ≠ length all_vars) then
    b ← gets built;
    nm ← gets name;
    if Nat.eqb (length all_vars) 0 && negb b
    then raise (NeverBuiltError nm (size store))
    else raise (VariableCountError nm (length all_vars) (size store)
                  all_vars)
  else mret tt.

(** The attribute [a] once it has been read. *)
Definition target (a : string) : M (list string) :=
  _ ← getattr a; mret [a].

(** [target_variables] of [load_own_variables], as the attributes that
    hold them. *)
Definition target_variables : M (list string) :=
  k ← target "_kernel";
  with_bias ← gets use_bias;
  b ← (if (with_bias : bool) then target "bias" else mret []);
  mode ← gets quantization_mode;
  q ← match mode with
      | None => mret []
      | Some m =>
          if bool_decide (m = "int8") || bool_decide (m = "int4")
          then target "kernel_scale"
          else if decide (m = "float8") then
            v1 ← target "inputs_scale";
            v2 ← target "inputs_amax_history";
            v3 ← target "kernel_scale";
            v4 ← target "kernel_amax_history";
            v5 ← target "outputs_grad_scale";
            v6 ← target "outputs_grad_amax_history";
            mret (v1 ++ v2 ++ v3 ++ v4 ++ v5 ++ v6)
          else raise (QuantizationModeError m)
      end;
  mret (k ++ b ++ q).

(** [for i, variable in enumerate(target_variables):
       variable.assign(store[str(i)])], from index [i] on. *)
Fixpoint assign_from_store (store : gmap string tensor) (i : nat)
    (targets : list string) : M unit :=
  match targets with
  | [] => mret tt
  | a :: rest =>
      value ← lift_opt (KeyError (pretty i)) (store !! pretty i);
      assign_attr a value;;
      assign_from_store store (S i) rest
  end.

Definition load_own_variables (store : gmap string tensor) : M unit :=
  enabled ← gets lora_enabled;
  (if negb enabled then _check_load_own_variables store else mret tt);;
  b ← gets built;
  if negb b then mret tt
  else
    targets ← target_variables;
    assign_from_store store 0 targets;;
    if (enabled : bool) then
      a ← getattr "lora_kernel_a";
      assign_attr "lora_kernel_a" (Ops.zeros (v_shape a));;
      b ← getattr "lora_kernel_b";
      assign_attr "lora_kernel_b" (Ops.zeros (v_shape b))
    else mret tt.

(** *** Well-formed layers

    What [build] and [quantize] establish about the stored kernel, as
    boolean predicates. *)

(** The layer has a kernel variable of rank 2. *)
Definition has_kernel (l : Dense) : bool :=
  match variables l !! "_kernel" with
  | Some k => Nat.eqb (length (v_shape k)) 2
  | None => false
  end.

(** The variable holds a rectangular 2-D value of its declared shape
    [(d, u)], with [d] positive. *)
Definition matrix_variable (d u : nat) (v : KerasVariable) : bool :=
  bool_decide (v_shape v = [d; u]) && Nat.ltb 0 d
  && bool_decide (shape (v_value v) = [d; u])
  && rectb u (float2 (v_value v)).

(** The variable holds a vector of its declared length [u]. *)
Definition vector_variable (u : nat) (v : KerasVariable) : bool :=
  bool_decide (v_shape v = [u])
  && bool_decide (shape (v_value v) = [u]).

(** An optional vector variable, such as the bias. *)
Definition optional_vector (u : nat) (o : option KerasVariable) : bool :=
  match o with
  | Some v => vector_variable u v
  | None => true
  end.

(** The state of a layer quantized to int4 whose original kernel had [d]
    rows, before LoRA is enabled: the packed int8 kernel has [ceil(d/2)]
    rows, there is one scale per unit, and [d] is retained. *)
Definition int4_quantized (d : nat) (l : Dense) : bool :=
  built l && negb (lora_enabled l) && negb (is_some (kernel_constraint l))
  && bool_decide (quantization_mode l = Some "int4")
  && bool_decide (_orig_input_dim l = Some d)
  && bool_decide (inputs_quantizer l = Some Quantizers.AxisLast)
  && match variables l !! "_kernel" with
     | Some k => matrix_variable ((d + 1) `div` 2) (units l) k
     | None => false
     end
  && match variables l !! "kernel_scale" with
     | Some s => vector_variable (units l) s
     | None => false
     end
  && optional_vector (units l) (variables l !! "bias").

(** A matrix variable that holds integers. *)
Definition int8_matrix_variable (d u : nat) (v : KerasVariable) : bool :=
  matrix_variable d u v && bool_decide (tensor_dtype (v_value v) = Int8).

(** The entries of a per-channel scale of shape [(units,)]. *)
Definition scale_vector (s : KerasVariable) : list Qc :=
  default [] (head (float2 (v_value s))).

(** What a backward function of the integer modes has to return for the
    dequantized kernel [float_kernel]: the gradient of the inputs is
    [upstream @ transpose(float_kernel)], the gradients of the quantized
    kernel and of its scale are not computed. *)
Definition backward_result (upstream float_kernel : matrix) : exn + grads :=
  match Ops.matmulQ upstream (Ops.transposeQ float_kernel) with
  | Some inputs_grad => inr (inputs_grad, None, None)
  | None => inl (ShapeError "matmul")
  end.

(** A computation that leaves the layer as it found it, whatever its
    outcome. *)
Definition readonly {A} (m : M A) : Prop := forall l, (m l).2 = l.

(** The six rescaling buffers of the float8 mode. *)
Definition float8_buffers : list string :=
  ["inputs_scale"; "inputs_amax_history"; "kernel_scale";
   "kernel_amax_history"; "outputs_grad_scale";
   "outputs_grad_amax_history"].

(** The attributes [load_own_variables] assigns from the store. *)
Definition base_attributes : list string :=
  ["_kernel"; "bias"] ++ float8_buffers.

(** The stored kernel, when there is one, is a matrix with one column per
    unit; a layer without a kernel is not built. *)
Definition kernel_wf (l : Dense) : bool :=
  match variables l !! "_kernel" with
  | Some k => matrix_variable (hd 0%nat (v_shape k)) (units l) k
  | None => negb (built l)
  end.


(** *** Saving to the weight store *)

(** The exceptions of the saving path: those of the methods above and the
    [ValueError] that [_get_kernel_with_merged_lora] raises for a
    quantization mode it cannot merge. *)
Inductive save_exn :=
| Raised (e : exn)
| UnsupportedQuantizationModeError (mode : string).

Definition MSave (A : Type) : Type := Dense -> (save_exn + A) * Dense.

#[global] Instance MSave_ret : MRet MSave | 10 := fun A x l => (inr x, l).
#[global] Instance MSave_bind : MBind MSave | 10 := fun A B f m l =>
  match m l with
  | (inr x, l') => f x l'
  | (inl e, l') => (inl e, l')
  end.

(** A method of the layer run on the saving path. *)
Definition lift {A} (m : M A) : MSave A := fun l =>
  match m l with
  | (inr x, l') => (inr x, l')
  | (inl e, l') => (inl (Raised e), l')
  end.

Definition raise_save {A} (e : save_exn) : MSave A := fun l => (inl e, l).

(** [_get_kernel_with_merged_lora]: the kernel to serialize and its
    scale, [None] for a layer that is not quantized. *)
Definition _get_kernel_with_merged_lora : MSave (tensor * option tensor) :=
  policy ← lift (gets dtype_policy);
  match quantization_mode_of policy with
  | Some mode =>
      kernel_value ← lift (getattr "_kernel");
      kernel_scale ← lift (getattr "kernel_scale");
      enabled ← lift (gets lora_enabled);
      if (enabled : bool) then
        '(float_kernel, quant_range) ←
          (if decide (mode = "int4") then
             orig ← lift (gets _orig_input_dim);
             orig_input_dim ←
               lift (lift_opt (AttributeError "_orig_input_dim") orig);
             let unpacked_kernel :=
               Quantizers.unpack_int4 (int2 (v_value kernel_value))
                 orig_input_dim in
             float_kernel ← lift (op "divide"
               (Ops.divideQ (Ops.cast_float unpacked_kernel)
                  (float2 (v_value kernel_scale))));
             mret (float_kernel, (-8, 7))
           else if decide (mode = "int8") then
             float_kernel ← lift (op "divide"
               (Ops.divideQ (float2 (cast Float32 (v_value kernel_value)))
                  (float2 (v_value kernel_scale))));
             mret (float_kernel, (-127, 127))
           else raise_save (UnsupportedQuantizationModeError mode));
        s ← lift lora_scaling;
        a ← lift (getattr "lora_kernel_a");
        b ← lift (getattr "lora_kernel_b");
        ab ← lift (op "matmul"
                (Ops.matmulQ (float2 (v_value a)) (float2 (v_value b))));
        let lora_delta := Ops.scale s ab in
        merged_float_kernel ← lift (op "add"
                                (Ops.addQ float_kernel lora_delta));
        let '(requantized_kernel, kernel_scale) :=
          Quantizers.abs_max_quantize merged_float_kernel Quantizers.Axis0
            quant_range in
        kernel_scale ← lift (op "squeeze" (Ops.squeeze0 kernel_scale));
        let kernel_value :=
          if decide (mode = "int4")
          then (Quantizers.pack_int4 requantized_kernel).1.1
          else requantized_kernel in
        mret (TI (D2 kernel_value), Some (TF (D1 kernel_scale)))
      else mret (v_value kernel_value, Some (v_value kernel_scale))
  | None =>
      k ← lift kernel;
      mret (kernel_tensor k, None)
  end.

(** The value of the variable held by attribute [a], as a one-element
    list of targets. *)
Definition target_value (a : string) : MSave (list tensor) :=
  v ← lift (getattr a); mret [v_value v].

(** [for i, variable in enumerate(target_variables):
       store[str(i)] = variable], from index [i] on. *)
Fixpoint store_from (i : nat) (values : list tensor)
    (store : gmap string tensor) : gmap string tensor :=
  match values with
  | [] => store
  | value :: rest => store_from (S i) rest (<[pretty i := value]> store)
  end.

(** [save_own_variables]; the store it was handed is returned with the
    entries written to it. In the integer modes the scale that
    [_get_kernel_with_merged_lora] returned is not [None], both methods
    testing the same policy. *)
Definition save_own_variables (store : gmap string tensor)
  : MSave (gmap string tensor) :=
  b ← lift (gets built);
  if negb b then mret store
  else
    '(kernel_value, kernel_scale) ← _get_kernel_with_merged_lora;
    with_bias ← lift (gets use_bias);
    bias ← (if (with_bias : bool) then target_value "bias" else mret []);
    mode ← lift (gets quantization_mode);
    q ← match mode with
        | None => mret []
        | Some m =>
            if bool_decide (m = "int8") || bool_decide (m = "int4")
            then
              scale ← lift (lift_opt TypeError kernel_scale);
              mret [scale]
            else if decide (m = "float8") then
              v1 ← target_value "inputs_scale";
              v2 ← target_value "inputs_amax_history";
              v3 ← target_value "kernel_scale";
              v4 ← target_value "kernel_amax_history";
              v5 ← target_value "outputs_grad_scale";
              v6 ← target_value "outputs_grad_amax_history";
              mret (v1 ++ v2 ++ v3 ++ v4 ++ v5 ++ v6)
            else lift (raise (QuantizationModeError m))
        end;
    mret (store_from 0 ([kernel_value] ++ bias ++ q) store).

(** *** Vocabulary of the statements *)

(** A built layer without LoRA whose stored kernel is a [d] by [units]
    matrix and whose bias, if it has one, is a vector of [units]
    entries. *)
Definition forward_ready (d : nat) (l : Dense) : bool :=
  built l && negb (lora_enabled l)
  && match variables l !! "_kernel" with
     | Some k => matrix_variable d (units l) k
     | None => false
     end
  && optional_vector (units l) (variables l !! "bias").

(** Entry [j] of the bias, zero for a layer without bias. *)
Definition bias_entry (l : Dense) (j : nat) : Qc :=
  match variables l !! "bias" with
  | Some b => get 0%Qc (float2 (v_value b)) 0 j
  | None => 0%Qc
  end.

(** The activation of the layer, the identity when there is none. *)
Definition activate (l : Dense) (x : Qc) : Qc :=
  match activation l with
  | Some f => f x
  | None => x
  end.

(** The dot product of row [i] of [a] with column [j] of [b], both of
    extent [d]. *)
Definition dot (d : nat) (a b : matrix) (i j : nat) : Qc :=
  sum_upto 0%Qc Qcplus d (fun t => (get 0%Qc a i t * get 0%Qc b t j)%Qc).

(** A built layer with LoRA of rank [rank] enabled on a [d] by [units]
    kernel: the factors have the shapes [(d, rank)] and [(rank, units)]. *)
Definition lora_ready (d rank : nat) (l : Dense) : bool :=
  built l && lora_enabled l
  && bool_decide (lora_rank l = Some rank) && is_some (lora_alpha l)
  && match variables l !! "_kernel" with
     | Some k => matrix_variable d (units l) k
     | None => false
     end
  && match variables l !! "lora_kernel_a" with
     | Some a => matrix_variable d rank a
     | None => false
     end
  && match variables l !! "lora_kernel_b" with
     | Some b => matrix_variable rank (units l) b
     | None => false
     end
  && optional_vector (units l) (variables l !! "bias").

(** A built layer without LoRA that holds an int8 kernel of shape
    [(d, units)], one scale per unit and the quantizer of the inputs. *)
Definition int8_ready (d : nat) (l : Dense) : bool :=
  built l && negb (lora_enabled l)
  && bool_decide (inputs_quantizer l = Some Quantizers.AxisLast)
  && match variables l !! "_kernel" with
     | Some k => int8_matrix_variable d (units l) k
     | None => false
     end
  && match variables l !! "kernel_scale" with
     | Some s => vector_variable (units l) s
     | None => false
     end
  && optional_vector (units l) (variables l !! "bias").

(** The variable holds a value of its declared shape and dtype. *)
Definition variable_wf (v : KerasVariable) : bool :=
  bool_decide (shape (v_value v) = v_shape v)
  && bool_decide (tensor_dtype (v_value v) = v_dtype v).

(** The attributes whose variables [save_own_variables] and
    [load_own_variables] enumerate, in their order, for a layer in a
    supported mode. *)
Definition expected_targets (l : Dense) : list string :=
  ["_kernel"] ++ (if use_bias l then ["bias"] else [])
  ++ match quantization_mode l with
     | None => []
     | Some m =>
         if bool_decide (m = "int8") || bool_decide (m = "int4")
         then ["kernel_scale"]
         else float8_buffers
     end.

(** A built layer without LoRA, in a supported mode, whose enumerated
    variables exist and hold values of their declared shape and dtype, and
    which tracks as many variables as it enumerates. *)
Definition saveable (l : Dense) : bool :=
  built l && negb (lora_enabled l)
  && match quantization_mode l with
     | None => true
     | Some m =>
         bool_decide (m = "int8") || bool_decide (m = "int4")
         || bool_decide (m = "float8")
     end
  && forallb (fun a => match variables l !! a with
                       | Some v => variable_wf v
                       | None => false
                       end) (expected_targets l)
  && Nat.eqb (length (_trainable_variables l ++ _non_trainable_variables l))
       (length (expected_targets l)).




End Layer.

(** ** Concrete layers

    The layers and tensors at which the properties below are instantiated. *)

Module Examples.
Import Layer.

(** A tensor with three rows: packing pairs the last row with zeros. *)
Definition odd_rows : list (list Z) := [[-8; 7]; [3; -1]; [-5; 0]].

Definition float32_policy : DTypePolicy :=
  {| policy_name := "float32"; quantization_mode_of := None;
     compute_dtype := "float32"; amax_history_length := 4 |}.

(** Draws standing for the random initializers. *)
Definition glorot_uniform : Initializer :=
  Sampled (fun i j => Q2Qc ((Z.of_nat i - 2 * Z.of_nat j + 1) # 7)).
Definition he_uniform : Initializer :=
  Sampled (fun i j => Q2Qc ((Z.of_nat (i + j) - 1) # 3)).

(** The layer a method leaves behind. *)
Definition after {A} (m : M A) (l : Dense) : Dense := (m l).2.

(** [Dense(2)], not yet built. *)
Definition fresh : Dense :=
  init "dense" false 2 None true glorot_uniform Zeros None None None
    float32_policy.

(** [Dense(2)] built on inputs of shape [(3, 5)]. *)
Definition built_layer : Dense := after (build he_uniform [3; 5]%nat) fresh.

(** The same layer quantized to int4, then with LoRA of rank 2. *)
Definition int4_layer : Dense := after (quantize "int4" true) built_layer.
Definition int4_lora_layer : Dense :=
  after (enable_lora 2 None he_uniform Zeros) int4_layer.

(** A batch of shape [(3, 5)]. *)
Definition batch : matrix :=
  tabulate 3 5 (fun i j => Q2Qc ((Z.of_nat (i * j) - 3) # 2)).

(** [Dense(1)] built on three input features, quantized to int4, with
    LoRA of rank 1. *)
Definition small_int4_lora_layer : Dense :=
  after (build he_uniform [1; 3]%nat;;
         quantize "int4" true;;
         enable_lora 1 None he_uniform Zeros)
    (init "dense" false 1 None true glorot_uniform Zeros None None None
       float32_policy).

(** The built layer with LoRA of rank 2. *)
Definition lora_layer : Dense :=
  after (enable_lora 2 None he_uniform Zeros) built_layer.

(** The built layer quantized to int8. *)
Definition int8_layer : Dense := after (quantize "int8" true) built_layer.

(** [Dense(2, kernel_initializer="zeros")] built on inputs of shape
    [(3, 5)]: its kernel is all zeros. *)
Definition zero_layer : Dense :=
  after (build he_uniform [3; 5]%nat)
    (init "dense" false 2 None true Zeros Zeros None None None
       float32_policy).

(** A store with three entries: a kernel and a bias of the right shapes
    and one entry more. *)
Definition surplus_store : gmap string tensor :=
  <["0" := TF (D2 (replicate 5 (replicate 2 1%Qc)))]>
    (<["1" := TF (D1 (replicate 2 1%Qc))]>
       (<["2" := TF (D0 1%Qc)]> ∅)).

(** A store that holds a kernel but no bias. *)
Definition short_store : gmap string tensor :=
  <["0" := TF (D2 (replicate 5 (replicate 2 1%Qc)))]> ∅.

(** [Dense(2, kernel_constraint=..., lora_rank=2)], not yet built. *)
Definition constrained_lora_fresh : Dense :=
  init "dense" false 2 None true glorot_uniform Zeros (Some (fun t => t))
    (Some 2%nat) None float32_policy.

(** The variable stored under an attribute that exists. *)
Definition stored (a : string) (l : Dense) : KerasVariable :=
  default {| v_name := a; v_shape := []; v_dtype := Float32;
             v_trainable := false; v_value := TF (D0 0%Qc) |}
    (variables l !! a).

(** The output and the registered backward function of a forward call
    that returned. *)
Definition output_of (r : (exn + matrix * backward) * Dense) : matrix :=
  match r.1 with
  | inr (y, _) => y
  | inl _ => []
  end.
Definition backward_of (r : (exn + matrix * backward) * Dense) : backward :=
  match r.1 with
  | inr (_, grad_fn) => grad_fn
  | inl e => fun _ => raise e
  end.

(** [Dense(2, lora_rank=2, lora_alpha=8)], not yet built. *)
Definition lora_fresh : Dense :=
  init "dense" false 2 None true glorot_uniform Zeros None (Some 2%nat)
    (Some (Qc_of_Z 8)) float32_policy.

(** The built layer quantized to float8. *)
Definition float8_layer : Dense :=
  after (quantize "float8" true) built_layer.

(** The float8 layer with LoRA of rank 2. *)
Definition float8_lora_layer : Dense :=
  after (enable_lora 2 None he_uniform Zeros) float8_layer.


(** A store with two entries under the names of the variables instead of
    their positions. *)
Definition misnamed_store : gmap string tensor :=
  <["kernel" := TF (D2 (replicate 5 (replicate 2 1%Qc)))]>
    (<["bias" := TF (D1 (replicate 2 1%Qc))]> ∅).


End Examples.
(** * Properties *)

Lemma rectb_spec {A} c (m : list (list A)) : rectb c m = true <-> rect c m.
Proof.
  unfold rectb, rect. rewrite forallb_forall, Forall_forall.
  split; intros H r Hr; apply Nat.eqb_eq, H; by apply list_elem_of_In.
Qed.

(** Induction over a list of rows taken two at a time, the way the packer
    walks them. *)
Lemma rows_pair_ind {A} (P : list A -> Prop) :
  P [] -> (forall r, P [r]) ->
  (forall r0 r1 rest, P rest -> P (r0 :: r1 :: rest)) ->
  forall l, P l.
Proof.
  intros H0 H1 H2 l.
  enough (P l /\ forall r, P (r :: l)) by tauto.
  induction l as [|a l [IH1 IH2]]; split; auto.
Qed.

(** ** Shapes and entries of 2-D tensors *)

Section RowsFacts.
Context {A : Type} (zero : A).

Lemma length_tabulate r c (f : nat -> nat -> A) :
  length (tabulate r c f) = r.
Proof. unfold tabulate. by rewrite length_map, length_seq. Qed.

Lemma rect_tabulate r c (f : nat -> nat -> A) : rect c (tabulate r c f).
Proof.
  unfold rect, tabulate. apply Forall_forall. intros row Hrow.
  apply list_elem_of_In, in_map_iff in Hrow as (i & <- & _).
  by rewrite length_map, length_seq.
Qed.

Lemma ncols_rect c (m : list (list A)) :
  rect c m -> (0 < length m)%nat -> ncols m = c.
Proof.
  intros Hr Hl. destruct m as [|row m]; [simpl in Hl; lia|].
  by inversion_clear Hr.
Qed.

Lemma ncols_tabulate r c (f : nat -> nat -> A) :
  (0 < r)%nat -> ncols (tabulate r c f) = c.
Proof.
  intros Hr. apply ncols_rect; [apply rect_tabulate|].
  by rewrite length_tabulate.
Qed.

Lemma shape2_tabulate r c (f : nat -> nat -> A) :
  (0 < r)%nat -> shape2 (tabulate r c f) = (r, c).
Proof.
  intros Hr. unfold shape2. by rewrite length_tabulate, ncols_tabulate.
Qed.

Lemma nth_map_seq {B} (g : nat -> B) (d : B) n i :
  (i < n)%nat -> nth i (map g (seq 0 n)) d = g i.
Proof.
  intros Hi. rewrite (nth_indep _ d (g 0%nat))
    by (by rewrite length_map, length_seq).
  by rewrite (map_nth g), seq_nth.
Qed.

Lemma get_tabulate r c (f : nat -> nat -> A) i j :
  (i < r)%nat -> (j < c)%nat -> get zero (tabulate r c f) i j = f i j.
Proof.
  intros Hi Hj. unfold get, tabulate.
  rewrite (nth_map_seq _ [] r i Hi). by apply nth_map_seq.
Qed.

Lemma map_seq_ext {B} (g h : nat -> B) n :
  (forall i, (i < n)%nat -> g i = h i) -> map g (seq 0 n) = map h (seq 0 n).
Proof.
  intros H. apply map_ext_in. intros i Hi%in_seq. apply H. lia.
Qed.

Lemma tabulate_ext r c (f g : nat -> nat -> A) :
  (forall i j, (i < r)%nat -> (j < c)%nat -> f i j = g i j) ->
  tabulate r c f = tabulate r c g.
Proof.
  intros H. unfold tabulate. apply map_seq_ext. intros i Hi.
  apply map_seq_ext. intros j Hj. by apply H.
Qed.

Lemma map_nth_seq {B} (l : list B) d :
  map (fun i => nth i l d) (seq 0 (length l)) = l.
Proof.
  induction l as [|a l IH]; [done|]. cbn [length seq map nth].
  f_equal. rewrite <- seq_shift, map_map. exact IH.
Qed.

(** A rectangular tensor is the table of its entries. *)
Lemma tabulate_get c (m : list (list A)) :
  rect c m -> tabulate (length m) c (get zero m) = m.
Proof.
  intros Hr. unfold tabulate, get.
  transitivity (map (fun i => nth i m []) (seq 0 (length m)));
    [|apply map_nth_seq].
  apply map_seq_ext. intros i Hi.
  assert (Hrow : length (nth i m []) = c).
  { unfold rect in Hr. rewrite Forall_forall in Hr. apply Hr.
    apply list_elem_of_In, nth_In, Hi. }
  rewrite <- Hrow. apply map_nth_seq.
Qed.
End RowsFacts.

Module QuantizersFacts.
Import Quantizers.

Lemma int4_in_range v : int4 v -> v ∈ (seqZ (-8) 16).
Proof. unfold int4. rewrite elem_of_seqZ. lia. Qed.

Lemma nibbles_checked :
  forallb (fun v0 => forallb (fun v1 =>
    Z.eqb (low_nibble (pack_byte v0 v1)) v0
    && Z.eqb (high_nibble (pack_byte v0 v1)) v1) (seqZ (-8) 16))
    (seqZ (-8) 16) = true.
Proof. vm_compute. reflexivity. Qed.

(** Both nibbles of a packed byte give back the values packed into it. *)
Lemma nibbles_pack_byte v0 v1 :
  int4 v0 -> int4 v1 ->
  low_nibble (pack_byte v0 v1) = v0 /\ high_nibble (pack_byte v0 v1) = v1.
Proof.
  intros H0%int4_in_range H1%int4_in_range.
  pose proof nibbles_checked as Hc.
  rewrite forallb_forall in Hc.
  specialize (Hc v0 (proj1 (list_elem_of_In _ _) H0)).
  rewrite forallb_forall in Hc.
  specialize (Hc v1 (proj1 (list_elem_of_In _ _) H1)).
  apply andb_prop in Hc as [Ha Hb].
  split; by apply Z.eqb_eq.
Qed.

(** A packed byte is a signed 8-bit value. *)
Lemma pack_byte_int8 v0 v1 : int8 (pack_byte v0 v1).
Proof.
  unfold int8, pack_byte, to_int8.
  pose proof (Z.mod_pos_bound
    (Z.lor (Z.shiftl (Z.land v1 15) 4) (Z.land v0 15) + 128) 256).
  lia.
Qed.

Lemma low_row r0 r1 :
  length r0 = length r1 -> Forall int4 r0 -> Forall int4 r1 ->
  map low_nibble (zip_with pack_byte r0 r1) = r0.
Proof.
  revert r1. induction r0 as [|a r0 IH]; intros [|b r1] Hl H0 H1;
    simplify_eq/=; [done|].
  inversion_clear H0. inversion_clear H1.
  f_equal; [by apply nibbles_pack_byte | by apply IH].
Qed.

Lemma high_row r0 r1 :
  length r0 = length r1 -> Forall int4 r0 -> Forall int4 r1 ->
  map high_nibble (zip_with pack_byte r0 r1) = r1.
Proof.
  revert r1. induction r0 as [|a r0 IH]; intros [|b r1] Hl H0 H1;
    simplify_eq/=; [done|].
  inversion_clear H0. inversion_clear H1.
  f_equal; [by apply nibbles_pack_byte | by apply IH].
Qed.

Lemma zeros_int4 n : Forall int4 (replicate n 0).
Proof. apply Forall_replicate. unfold int4. lia. Qed.

(** Unpacking all packed rows gives the original rows, followed by the
    zero-filled partner when the row count is odd. *)
Lemma unpack_pack_rows x :
  Forall (Forall int4) x ->
  forall c, rect c x ->
  unpack_rows (pack_rows x)
  = x ++ (if Nat.odd (length x) then [replicate c 0] else []).
Proof.
  induction x as [|r|r0 r1 rest IH] using rows_pair_ind; intros Hv c Hc.
  - done.
  - inversion_clear Hv. inversion_clear Hc. subst c. cbn.
    rewrite low_row, high_row;
      auto using zeros_int4; by rewrite length_replicate.
  - inversion_clear Hv as [|? ? Hr0 Hv']. inversion_clear Hv' as [|? ? Hr1 Hv].
    inversion_clear Hc as [|? ? Hl0 Hc']. inversion_clear Hc' as [|? ? Hl1 Hc].
    cbn [pack_rows unpack_rows flat_map app].
    fold (unpack_rows (pack_rows rest)).
    rewrite low_row, high_row by congruence.
    rewrite (IH Hv c Hc). cbn [length]. rewrite Nat.odd_succ, Nat.even_succ.
    done.
Qed.

(** The packed tensor has [ceil(rows/2)] rows. *)
Lemma pack_rows_length x :
  length (pack_rows x) = Nat.div2 (S (length x)).
Proof.
  induction x as [|r|r0 r1 rest IH] using rows_pair_ind; [done..|].
  cbn [pack_rows length]. rewrite IH. done.
Qed.

Lemma pack_rows_rect c x : rect c x -> rect c (pack_rows x).
Proof.
  unfold rect.
  induction x as [|r|r0 r1 rest IH] using rows_pair_ind; intros Hc.
  - constructor.
  - inversion_clear Hc. repeat constructor.
    rewrite length_zip_with, length_replicate. lia.
  - inversion_clear Hc as [|? ? Hl0 Hc']. inversion_clear Hc' as [|? ? Hl1 Hc].
    cbn [pack_rows]. constructor; [|by apply IH].
    rewrite length_zip_with. lia.
Qed.

Lemma pack_rows_int8 x : Forall (Forall int8) (pack_rows x).
Proof.
  assert (Hz : forall r r', Forall int8 (zip_with pack_byte r r')).
  { induction r as [|a r IH]; intros [|b r']; cbn; constructor;
      auto using pack_byte_int8. }
  induction x as [|r|r0 r1 rest IH] using rows_pair_ind;
    cbn [pack_rows]; repeat constructor; auto.
Qed.

(** The round trip on the packed rows themselves. *)
Lemma unpack_pack_rows_take (c : nat) (x : list (list Z)) :
  rect c x ->
  Forall (Forall int4) x ->
  unpack_int4 (pack_rows x) (length x) = x.
Proof.
  intros Hc Hv. unfold unpack_int4.
  rewrite (unpack_pack_rows x Hv c Hc).
  by rewrite take_app_length.
Qed.

(** C1. Packing an int8 tensor whose values lie in [-8, 7] and unpacking
    the result with the original row count gives the tensor back, for even
    and for odd row counts alike. *)
Theorem unpack_pack_int4_roundtrip (c : nat) (x : list (list Z)) :
  rect c x ->
  Forall (Forall int4) x ->
  unpack_int4 (pack_int4 x).1.1 (length x) = x.
Proof.
  intros Hc Hv. unfold pack_int4. cbn [fst].
  by apply (unpack_pack_rows_take c).
Qed.

Lemma unpack_pack_int4_roundtrip_witness :
  rect 2 Examples.odd_rows /\ Forall (Forall int4) Examples.odd_rows /\
  unpack_int4 (pack_int4 Examples.odd_rows).1.1 3 = Examples.odd_rows.
Proof.
  assert (H1 : rect 2 Examples.odd_rows) by (by apply rectb_spec).
  assert (H2 : Forall (Forall int4) Examples.odd_rows).
  { repeat constructor; unfold int4; lia. }
  split; [exact H1|]. split; [exact H2|].
  exact (unpack_pack_int4_roundtrip 2 Examples.odd_rows H1 H2).
Defined.

End QuantizersFacts.

(** ** The layer *)

Module LayerFacts.
Import Layer.

(** *** Running monadic code step by step *)

Lemma run_bind_ok {A B} (m : M A) (k : A -> M B) l x l' :
  m l = (inr x, l') -> (m ≫= k) l = k x l'.
Proof. intros H. unfold mbind, M_bind. by rewrite H. Qed.

Lemma run_bind_err {A B} (m : M A) (k : A -> M B) l e l' :
  m l = (inl e, l') -> (m ≫= k) l = (inl e, l').
Proof. intros H. unfold mbind, M_bind. by rewrite H. Qed.

Lemma run_bind_assoc {A B C} (m : M A) (f : A -> M B) (g : B -> M C) l :
  ((m ≫= f) ≫= g) l = (m ≫= fun x => f x ≫= g) l.
Proof. unfold mbind, M_bind. by destruct (m l) as [[e|x] l']. Qed.

Lemma run_getattr a l v :
  variables l !! a = Some v -> getattr a l = (inr v, l).
Proof. intros H. unfold getattr, gets, mbind, M_bind. by rewrite H. Qed.

Lemma run_getattr_missing a l :
  variables l !! a = None -> getattr a l = (inl (AttributeError a), l).
Proof. intros H. unfold getattr, gets, mbind, M_bind. by rewrite H. Qed.

Lemma run_op {A} nm (o : option A) x l : o = Some x -> op nm o l = (inr x, l).
Proof. by intros ->. Qed.

(** Projections of updated layers. *)
Ltac proj_simpl_goal :=
  unfold quantization_mode;
  cbn [name is_subclass units activation use_bias kernel_initializer
       bias_initializer kernel_constraint lora_rank lora_alpha lora_enabled
       built dtype_policy tracker_locked _trainable_variables
       _non_trainable_variables variables inputs_quantizer _orig_input_dim
       _is_quantized
       set_lora_rank set_lora_alpha set_lora_enabled set_built
       set_dtype_policy set_tracker_locked set__trainable_variables
       set__non_trainable_variables set_variables set_inputs_quantizer
       set__orig_input_dim set__is_quantized track].

Ltac proj_simpl :=
  unfold quantization_mode in *;
  cbn [name is_subclass units activation use_bias kernel_initializer
       bias_initializer kernel_constraint lora_rank lora_alpha lora_enabled
       built dtype_policy tracker_locked _trainable_variables
       _non_trainable_variables variables inputs_quantizer _orig_input_dim
       _is_quantized
       set_lora_rank set_lora_alpha set_lora_enabled set_built
       set_dtype_policy set_tracker_locked set__trainable_variables
       set__non_trainable_variables set_variables set_inputs_quantizer
       set__orig_input_dim set__is_quantized track] in *.

(** Lookups of attributes in updated layers. *)
Ltac lookup_solve :=
  proj_simpl_goal;
  repeat first [ rewrite lookup_insert_eq
               | rewrite lookup_insert_ne by done
               | rewrite lookup_delete_eq
               | rewrite lookup_delete_ne by done ];
  first [ eassumption | reflexivity ].

Ltac run_base :=
  first [ reflexivity
        | apply run_getattr; lookup_solve
        | apply run_getattr_missing; lookup_solve
        | apply run_op; eassumption ].

Ltac mstep_with tac :=
  cbv beta iota;
  lazymatch goal with
  | |- context [mbind ?k (mbind ?f ?m) ?l] =>
      rewrite (run_bind_assoc m _ _ l)
  | |- context [mbind ?k ?m ?l] =>
      first [ erewrite (run_bind_ok m _ l) by tac
            | erewrite (run_bind_err m _ l) by tac ]
  end; cbv beta iota.

Ltac mstep := mstep_with run_base.

(** The [kernel] property of a built layer without LoRA is the stored
    variable. *)
Lemma run_kernel_var l k :
  built l = true -> lora_enabled l = false ->
  variables l !! "_kernel" = Some k -> kernel l = (inr (KVar k), l).
Proof.
  intros Hb He Hk. unfold kernel.
  mstep. rewrite Hb. cbn [negb]. mstep. rewrite He. mstep. reflexivity.
Qed.

Ltac run_kernel :=
  first [ run_base | apply run_kernel_var; lookup_solve ].

(** *** Zero deltas *)

Lemma map_tabulate {A B} (g : A -> B) r c (f : nat -> nat -> A) :
  map (map g) (tabulate r c f) = tabulate r c (fun i j => g (f i j)).
Proof.
  unfold tabulate. rewrite map_map. apply map_ext. intros i.
  by rewrite map_map.
Qed.

Lemma replicate_tabulate {A} r c (x : A) :
  replicate r (replicate c x) = tabulate r c (fun _ _ => x).
Proof.
  assert (H : forall {B} n (y : B), replicate n y = map (fun _ => y) (seq 0 n)).
  { intros B n y. generalize 0%nat. induction n as [|n IH]; intros s;
      [done|]. cbn. f_equal. apply IH. }
  unfold tabulate. rewrite H. apply map_ext. intros _. apply H.
Qed.

Lemma get_zeros r c i j :
  get 0%Qc (tabulate r c (fun _ _ => 0%Qc)) i j = 0%Qc.
Proof.
  unfold get, tabulate.
  destruct (decide (i < r)%nat) as [Hi|Hi].
  - rewrite (nth_map_seq _ [] r i Hi).
    destruct (decide (j < c)%nat) as [Hj|Hj].
    + by rewrite nth_map_seq.
    + apply nth_overflow. rewrite length_map, length_seq. lia.
  - rewrite (nth_overflow _ [] (n := i));
      [by destruct j | rewrite length_map, length_seq; lia].
Qed.

Lemma sum_upto_zero n (g : nat -> Qc) :
  (forall k, g k = 0%Qc) -> sum_upto 0%Qc Qcplus n g = 0%Qc.
Proof.
  intros Hg. unfold sum_upto. induction (seq 0 n) as [|k ks IH]; [done|].
  cbn. rewrite Hg, IH. ring.
Qed.

(** The product with an all-zero factor is all zero. *)
Lemma matmul_zeros (a : matrix) r c :
  ncols a = r -> (0 < r)%nat ->
  Ops.matmulQ a (tabulate r c (fun _ _ => 0%Qc))
  = Some (tabulate (length a) c (fun _ _ => 0%Qc)).
Proof.
  intros Ha Hr. unfold Ops.matmulQ, matmul.
  rewrite length_tabulate, ncols_tabulate by done.
  rewrite Ha, Nat.eqb_refl. f_equal. apply tabulate_ext. intros i j _ _.
  apply sum_upto_zero. intros k. rewrite get_zeros. ring.
Qed.

Lemma scale_zeros s r c :
  Ops.scale s (tabulate r c (fun _ _ => 0%Qc))
  = tabulate r c (fun _ _ => 0%Qc).
Proof.
  unfold Ops.scale. rewrite map_tabulate. apply tabulate_ext.
  intros. ring.
Qed.

Lemma bidx_lt n i : (i < n)%nat -> bidx n i = i.
Proof.
  intros Hi. unfold bidx. destruct (Nat.eqb_spec n 1); [lia|done].
Qed.

Lemma bdim_same n : bdim n n = Some n.
Proof. unfold bdim. by rewrite Nat.eqb_refl. Qed.

(** Adding an all-zero tensor of the same shape changes nothing. *)
Lemma add_zeros (k : matrix) d u :
  length k = d -> (0 < d)%nat -> rect u k ->
  Ops.addQ k (tabulate d u (fun _ _ => 0%Qc)) = Some k.
Proof.
  intros Hl Hd Hr. unfold Ops.addQ, ewise.
  rewrite length_tabulate, ncols_tabulate by done.
  rewrite (ncols_rect u k Hr) by lia.
  rewrite Hl, !bdim_same. cbn. f_equal.
  transitivity (tabulate d u (get 0%Qc k));
    [|rewrite <- Hl; by apply tabulate_get].
  apply tabulate_ext. intros i j Hi Hj.
  rewrite !bidx_lt, get_zeros by done. ring.
Qed.

(** *** enable_lora *)

(** The layer [enable_lora] leaves behind when its three checks pass. *)
Lemma run_enable_lora l k d u rank alpha a_init b_init :
  kernel_constraint l = None -> built l = true -> lora_enabled l = false ->
  variables l !! "_kernel" = Some k -> v_shape k = [d; u] ->
  exists l',
    enable_lora rank alpha a_init b_init l = (inr tt, l')
    /\ lora_enabled l' = true
    /\ lora_rank l' = Some rank
    /\ lora_alpha l' = Some (default (Qc_of_Z (Z.of_nat rank)) alpha)
    /\ variables l' !! "_kernel" = Some (set_v_trainable false k)
    /\ (exists a_rows,
          variables l' !! "lora_kernel_a"
          = Some {| v_name := "lora_kernel_a"; v_shape := [a_rows; rank];
                    v_dtype := Float32; v_trainable := true;
                    v_value := initial_value a_init Float32 [a_rows; rank] |}
          /\ a_rows = match _orig_input_dim l with
                      | Some orig =>
                          if bool_decide (quantization_mode l = Some "int4")
                          then orig else d
                      | None => d
                      end)
    /\ variables l' !! "lora_kernel_b"
       = Some {| v_name := "lora_kernel_b"; v_shape := [rank; u];
                 v_dtype := Float32; v_trainable := true;
                 v_value := initial_value b_init Float32 [rank; u] |}
    /\ (forall a, a ≠ "_kernel" -> a ≠ "lora_kernel_a" ->
          a ≠ "lora_kernel_b" -> variables l' !! a = variables l !! a)
    /\ _orig_input_dim l' = _orig_input_dim l
    /\ inputs_quantizer l' = inputs_quantizer l
    /\ quantization_mode l' = quantization_mode l
    /\ units l' = units l /\ activation l' = activation l
    /\ use_bias l' = use_bias l /\ built l' = true.
Proof.
  intros Hc Hb He Hk Hs.
  destruct (_orig_input_dim l) as [orig|] eqn:Eo;
    [destruct (bool_decide (quantization_mode l = Some "int4")) eqn:Em|];
    (eexists; split;
     [ unfold enable_lora; mstep; rewrite Hc; cbn [is_some];
       mstep; rewrite Hb; cbn [negb]; mstep; rewrite He;
       do 3 mstep; proj_simpl; rewrite Eo; try rewrite Em;
       repeat (mstep_with run_kernel);
       cbn [kernel_shape_of]; rewrite Hs;
       repeat (mstep_with run_kernel);
       cbn [kernel_shape_of]; try rewrite Hs;
       repeat (mstep_with run_kernel);
       reflexivity
     | cbn; simplify_map_eq; repeat split; try done;
       [ eexists; split; reflexivity
       | intros a H1 H2 H3; by simplify_map_eq ] ]).
Qed.

(** *** C8 *)

Lemma run_enable_lora_constraint l rank alpha a_init b_init :
  is_Some (kernel_constraint l) ->
  enable_lora rank alpha a_init b_init l = (inl LoraKernelConstraintError, l).
Proof.
  intros [c Hc]. unfold enable_lora. mstep. by rewrite Hc.
Qed.

Lemma run_enable_lora_not_built l rank alpha a_init b_init :
  kernel_constraint l = None -> built l = false ->
  enable_lora rank alpha a_init b_init l = (inl LoraNotBuiltError, l).
Proof.
  intros Hc Hb. unfold enable_lora. mstep. rewrite Hc. cbn [is_some].
  mstep. by rewrite Hb.
Qed.

Lemma run_enable_lora_twice l rank alpha a_init b_init :
  kernel_constraint l = None -> built l = true -> lora_enabled l = true ->
  enable_lora rank alpha a_init b_init l = (inl LoraAlreadyEnabledError, l).
Proof.
  intros Hc Hb He. unfold enable_lora. mstep. rewrite Hc. cbn [is_some].
  mstep. rewrite Hb. cbn [negb]. mstep. by rewrite He.
Qed.

(** C8. On a layer whose kernel exists once it is built, [enable_lora]
    raises exactly when a kernel constraint is configured, the layer is not
    built, or LoRA is already enabled; each of these errors leaves the layer
    as it was. Otherwise the call succeeds, LoRA is enabled and the base
    kernel is marked non-trainable. *)
Theorem enable_lora_raises_iff_precondition_violated
    (l : Dense) (rank : nat) (alpha : option Qc)
    (a_init b_init : Initializer) :
  (built l = true -> has_kernel l = true) ->
  let r := enable_lora rank alpha a_init b_init l in
  ((exists e, r.1 = inl e) <->
     is_Some (kernel_constraint l) \/ built l = false
     \/ lora_enabled l = true)
  /\ (is_Some (kernel_constraint l) ->
      r = (inl LoraKernelConstraintError, l))
  /\ (kernel_constraint l = None -> built l = false ->
      r = (inl LoraNotBuiltError, l))
  /\ (kernel_constraint l = None -> built l = true ->
      lora_enabled l = true ->
      r = (inl LoraAlreadyEnabledError, l))
  /\ (kernel_constraint l = None -> built l = true ->
      lora_enabled l = false ->
      exists l', r = (inr tt, l') /\ lora_enabled l' = true
        /\ v_trainable <$> variables l' !! "_kernel" = Some false).
Proof.
  intros Hwf r.
  assert (Hok : kernel_constraint l = None -> built l = true ->
    lora_enabled l = false ->
    exists l', r = (inr tt, l') /\ lora_enabled l' = true
      /\ v_trainable <$> variables l' !! "_kernel" = Some false).
  { intros Hc Hb He. specialize (Hwf Hb). unfold has_kernel in Hwf.
    destruct (variables l !! "_kernel") as [k|] eqn:Hk; [|done].
    destruct (v_shape k) as [|d [|u [|? ?]]] eqn:Hs; try done.
    destruct (run_enable_lora l k d u rank alpha a_init b_init
                Hc Hb He Hk Hs) as (l' & Hrun & Hen & _ & _ & Hk' & _).
    exists l'. split; [exact Hrun|]. split; [exact Hen|].
    by rewrite Hk'. }
  split; [|split; [|split; [|split]]]; [| | | |exact Hok].
  2: { intros H. by apply run_enable_lora_constraint. }
  2: { intros Hc Hb. by apply run_enable_lora_not_built. }
  2: { intros Hc Hb He. by apply run_enable_lora_twice. }
  split.
  - intros [e He].
    destruct (kernel_constraint l) as [c|] eqn:Hc; [by left|].
    destruct (built l) eqn:Hb; [|by right; left].
    destruct (lora_enabled l) eqn:Hl; [by right; right|].
    destruct Hok as (l' & Hr & _); try done.
    rewrite Hr in He. discriminate.
  - intros [Hc|[Hb|Hl]].
    + eexists. unfold r. by rewrite run_enable_lora_constraint.
    + destruct (kernel_constraint l) as [c|] eqn:Hc.
      * eexists. unfold r. by rewrite run_enable_lora_constraint.
      * eexists. unfold r. by rewrite run_enable_lora_not_built.
    + destruct (kernel_constraint l) as [c|] eqn:Hc.
      { eexists. unfold r. by rewrite run_enable_lora_constraint. }
      destruct (built l) eqn:Hb.
      * eexists. unfold r. by rewrite run_enable_lora_twice.
      * eexists. unfold r. by rewrite run_enable_lora_not_built.
Qed.

Lemma enable_lora_raises_iff_precondition_violated_witness :
  exists l', enable_lora 2 None Examples.he_uniform Zeros Examples.built_layer
             = (inr tt, l')
    /\ lora_enabled l' = true
    /\ v_trainable <$> variables l' !! "_kernel" = Some false.
Proof.
  assert (Hwf : built Examples.built_layer = true ->
                has_kernel Examples.built_layer = true)
    by (intros _; vm_compute; reflexivity).
  pose proof (enable_lora_raises_iff_precondition_violated
    Examples.built_layer 2 None Examples.he_uniform Zeros Hwf) as H.
  cbv zeta in H. destruct H as (_ & _ & _ & _ & H).
  apply H; reflexivity.
Defined.

(** *** The kernel property with LoRA *)

Lemma float2_initial_value init r c :
  exists f, float2 (initial_value init Float32 [r; c]) = tabulate r c f.
Proof.
  destruct init as [| |f]; cbn.
  - eexists. apply replicate_tabulate.
  - eexists. apply replicate_tabulate.
  - by eexists.
Qed.

Lemma float2_zeros r c :
  float2 (initial_value Zeros Float32 [r; c])
  = tabulate r c (fun _ _ => 0%Qc).
Proof. cbn. apply replicate_tabulate. Qed.

Lemma length_float2 t d u : shape t = [d; u] -> length (float2 t) = d.
Proof.
  destruct t as [[x|v|m]|[x|v|m]]; cbn; intros H; simplify_eq; try done.
  by rewrite length_map.
Qed.

Lemma matrix_variable_spec d u k :
  matrix_variable d u k = true ->
  v_shape k = [d; u] /\ (0 < d)%nat /\ length (float2 (v_value k)) = d
  /\ rect u (float2 (v_value k)).
Proof.
  unfold matrix_variable. rewrite !andb_true_iff, !bool_decide_eq_true.
  intros [[[Hs Hd] Hv] Hr]. apply Nat.ltb_lt in Hd.
  apply rectb_spec in Hr. eauto using length_float2.
Qed.

Lemma run_lora_scaling l a r :
  lora_alpha l = Some a -> lora_rank l = Some r -> r ≠ 0%nat ->
  lora_scaling l = (inr (a / Qc_of_Z (Z.of_nat r))%Qc, l).
Proof.
  intros Ha Hr Hn. unfold lora_scaling. do 2 mstep. rewrite Ha, Hr.
  by destruct (decide (r = 0%nat)).
Qed.

(** Right after [enable_lora] with the default zero initializer for factor
    B, the [kernel] property of a layer whose stored kernel has as many
    rows as factor A returns the values of the stored kernel. *)
Lemma kernel_after_enable_lora l k d u rank alpha a_init :
  kernel_constraint l = None -> built l = true -> lora_enabled l = false ->
  variables l !! "_kernel" = Some k -> matrix_variable d u k = true ->
  (quantization_mode l = Some "int4" -> _orig_input_dim l = None) ->
  rank ≠ 0%nat ->
  exists l',
    enable_lora rank alpha a_init Zeros l = (inr tt, l')
    /\ kernel l' = (inr (KTensor (TF (D2 (float2 (v_value k))))), l').
Proof.
  intros Hc Hb He Hk Hm Hq Hrank.
  apply matrix_variable_spec in Hm as (Hs & Hd & Hlen & Hrect).
  destruct (run_enable_lora l k d u rank alpha a_init Zeros Hc Hb He Hk Hs)
    as (l' & Hrun & Hen & Hr & Ha & Hk' & (a_rows & HA & Hrows) & HB
        & _ & _ & _ & _ & _ & _ & _ & Hb').
  assert (a_rows = d) as ->.
  { rewrite Hrows. destruct (_orig_input_dim l) as [orig|]; [|done].
    case_bool_decide as Hmode; [|done]. by specialize (Hq Hmode). }
  exists l'. split; [exact Hrun|].
  destruct (float2_initial_value a_init d rank) as [fa Hfa].
  unfold kernel. mstep. rewrite Hb'. cbn [negb]. mstep. rewrite Hen.
  mstep. erewrite run_bind_ok by (by apply run_lora_scaling).
  do 2 mstep. cbn [v_value set_v_trainable].
  rewrite Hfa, float2_zeros.
  rewrite matmul_zeros;
    [|apply ncols_tabulate, Hd | lia].
  mstep. rewrite length_tabulate, scale_zeros, add_zeros by done.
  mstep. reflexivity.
Qed.

(** C3. On a layer built for three input features, quantized to int4 and
    given LoRA of rank 1 with the default zero-initialized factor B,
    [enable_lora] has succeeded but reading the [kernel] property raises:
    the stored kernel is the packed buffer with two rows, the LoRA product
    has three. *)
Theorem kernel_after_enable_lora_on_int4_raises :
  lora_enabled Examples.small_int4_lora_layer = true
  /\ v_shape <$> variables Examples.small_int4_lora_layer !! "_kernel"
     = Some [2; 1]%nat
  /\ v_shape <$> variables Examples.small_int4_lora_layer !! "lora_kernel_a"
     = Some [3; 1]%nat
  /\ (kernel Examples.small_int4_lora_layer).1 = inl (ShapeError "add").
Proof. vm_compute. repeat split; reflexivity. Qed.

(** *** Shapes of results *)

Lemma has_shape_tabulate {A} r c (f : nat -> nat -> A) :
  has_shape r c (tabulate r c f).
Proof. split; [apply length_tabulate | apply rect_tabulate]. Qed.

Lemma has_shape_map {A B} (f : A -> B) r c (m : list (list A)) :
  has_shape r c m -> has_shape r c (map (map f) m).
Proof.
  intros [Hl Hr]. split; [by rewrite length_map|].
  unfold rect in *. rewrite Forall_map. eapply Forall_impl; [exact Hr|].
  intros row Hrow. cbn. by rewrite length_map.
Qed.

Lemma has_shape_map_inv {A B} (f : A -> B) r c (m : list (list A)) :
  has_shape r c (map (map f) m) -> has_shape r c m.
Proof.
  intros [Hl Hr]. split; [by rewrite length_map in Hl|].
  unfold rect in *. rewrite Forall_map in Hr.
  eapply Forall_impl; [exact Hr|].
  intros row Hrow. cbn in Hrow. by rewrite length_map in Hrow.
Qed.

Lemma has_shape_ncols {A} r c (m : list (list A)) :
  has_shape r c m -> (0 < r)%nat -> ncols m = c.
Proof. intros [Hl Hr] H. apply ncols_rect; [done|lia]. Qed.

Lemma has_shape_shape2 {A} r c (m : list (list A)) :
  has_shape r c m -> (0 < r)%nat -> shape2 m = (r, c).
Proof.
  intros Hm H. unfold shape2. rewrite (has_shape_ncols r c m Hm H).
  by destruct Hm as [-> _].
Qed.

Lemma ewise_has_shape {A} (zero : A) f ra ca rb cb r c (a b : list (list A)) :
  has_shape ra ca a -> has_shape rb cb b ->
  (0 < ra)%nat -> (0 < rb)%nat ->
  bdim ra rb = Some r -> bdim ca cb = Some c ->
  exists m, ewise zero f a b = Some m /\ has_shape r c m.
Proof.
  intros Ha Hb Hra Hrb Hr Hc. unfold ewise.
  rewrite (has_shape_ncols ra ca a Ha Hra), (has_shape_ncols rb cb b Hb Hrb).
  destruct Ha as [-> _], Hb as [-> _]. rewrite Hr, Hc. cbn.
  eexists. split; [reflexivity|]. apply has_shape_tabulate.
Qed.

Lemma matmul_has_shape {A} (zero : A) add mul r k c (a b : list (list A)) :
  has_shape r k a -> has_shape k c b -> (0 < r)%nat -> (0 < k)%nat ->
  exists m, matmul zero add mul a b = Some m /\ has_shape r c m.
Proof.
  intros Ha Hb Hr Hk. unfold matmul.
  rewrite (has_shape_ncols r k a Ha Hr), (has_shape_ncols k c b Hb Hk).
  destruct Ha as [-> _], Hb as [-> _]. rewrite Nat.eqb_refl.
  eexists. split; [reflexivity|]. apply has_shape_tabulate.
Qed.

Lemma bdim_one_r n : bdim n 1 = Some n.
Proof. unfold bdim. destruct (Nat.eqb_spec n 1); by subst. Qed.

Lemma bdim_one_l n : bdim 1 n = Some n.
Proof. unfold bdim. destruct (Nat.eqb_spec 1 n); by subst. Qed.

(** A tensor of shape [(u,)] broadcasts as one row. *)
Lemma has_shape_float2_vector t u :
  shape t = [u] -> has_shape 1 u (float2 t).
Proof.
  destruct t as [[x|v|m]|[x|v|m]]; cbn; intros H; simplify_eq;
    split; try done; repeat constructor. by rewrite length_map.
Qed.

Lemma vector_variable_spec u v :
  vector_variable u v = true ->
  v_shape v = [u] /\ has_shape 1 u (float2 (v_value v)).
Proof.
  unfold vector_variable. rewrite andb_true_iff, !bool_decide_eq_true.
  intros [Hs Hv]. auto using has_shape_float2_vector.
Qed.

Lemma has_shape_int2 t d u :
  shape t = [d; u] -> rect u (float2 t) -> has_shape d u (int2 t).
Proof.
  destruct t as [[x|v|m]|[x|v|m]]; cbn; intros H Hr; simplify_eq.
  - apply (has_shape_map_inv Qc_of_Z). split; [by rewrite length_map|done].
  - apply has_shape_map. by split.
Qed.

(** Unpacking [ceil(d/2)] packed rows to [d] rows. *)
Lemma has_shape_unpack_int4 packed d u :
  has_shape ((d + 1) `div` 2) u packed ->
  has_shape d u (Quantizers.unpack_int4 packed d).
Proof.
  intros [Hl Hr]. unfold Quantizers.unpack_int4, Quantizers.unpack_rows.
  assert (Hlen : length (flat_map
    (fun row => [map Quantizers.low_nibble row;
                 map Quantizers.high_nibble row]) packed)
    = (2 * length packed)%nat).
  { clear. induction packed as [|row packed IH]; cbn in *; lia. }
  split.
  - rewrite length_take, Hlen, Hl.
    pose proof (Nat.div_mod_eq (d + 1) 2).
    pose proof (Nat.mod_upper_bound (d + 1) 2). lia.
  - unfold rect in *. apply Forall_take.
    clear Hl Hlen. induction Hr as [|row packed Hrow Hr IH]; cbn.
    + constructor.
    + repeat constructor; try by rewrite length_map. exact IH.
Qed.

(** Quantizing per row keeps the shape and gives one scale per row. *)
Lemma abs_max_quantize_rows_shape inputs n d vr :
  has_shape n d inputs ->
  has_shape n d (Quantizers.abs_max_quantize inputs Quantizers.AxisLast vr).1
  /\ has_shape n 1
       (Quantizers.abs_max_quantize inputs Quantizers.AxisLast vr).2.
Proof.
  intros [Hl Hr]. cbn. split; split.
  - rewrite length_zip_with, length_map. lia.
  - unfold rect in *. clear Hl.
    induction Hr as [|row inputs Hrow Hr IH]; cbn; constructor;
      [by rewrite length_map | exact IH].
  - by rewrite !length_map.
  - unfold rect. rewrite !Forall_map. by apply Forall_true.
Qed.

(** *** C4 *)

Lemma int4_quantized_spec d l :
  int4_quantized d l = true ->
  built l = true /\ lora_enabled l = false /\ kernel_constraint l = None
  /\ quantization_mode l = Some "int4" /\ _orig_input_dim l = Some d
  /\ inputs_quantizer l = Some Quantizers.AxisLast
  /\ (exists k, variables l !! "_kernel" = Some k
        /\ matrix_variable ((d + 1) `div` 2) (units l) k = true)
  /\ (exists s, variables l !! "kernel_scale" = Some s
        /\ vector_variable (units l) s = true)
  /\ optional_vector (units l) (variables l !! "bias") = true.
Proof.
  unfold int4_quantized.
  rewrite !andb_true_iff, !bool_decide_eq_true, !negb_true_iff.
  intros [[[[[[[[Hb He] Hc] Hm] Ho] Hq] Hk] Hs] Hbias].
  repeat split; try done.
  - by destruct (kernel_constraint l).
  - destruct (variables l !! "_kernel") as [k|]; [eauto|done].
  - destruct (variables l !! "kernel_scale") as [s|]; [eauto|done].
Qed.

Lemma run_add_bias_and_activate l x n :
  optional_vector (units l) (variables l !! "bias") = true ->
  has_shape n (units l) x -> (0 < n)%nat ->
  exists y, add_bias_and_activate x l = (inr y, l)
            /\ has_shape n (units l) y.
Proof.
  intros Hbias Hx Hn. unfold add_bias_and_activate. mstep.
  destruct (variables l !! "bias") as [b|] eqn:Hb.
  - cbn in Hbias. apply vector_variable_spec in Hbias as [_ Hbv].
    destruct (ewise_has_shape 0%Qc Qcplus n (units l) 1 (units l)
                n (units l) x (float2 (v_value b)))
      as (y & Hy & Sy); auto using bdim_one_r, bdim_same with lia.
    mstep. mstep. destruct (activation l) as [f|].
    + eexists. split; [reflexivity|]. by apply has_shape_map.
    + eexists. split; [reflexivity|done].
  - do 2 mstep. destruct (activation l) as [f|].
    + eexists. split; [reflexivity|]. by apply has_shape_map.
    + eexists. split; [reflexivity|done].
Qed.

Lemma has_shape_initial_value init r c :
  has_shape r c (float2 (initial_value init Float32 [r; c])).
Proof.
  destruct (float2_initial_value init r c) as [f ->].
  apply has_shape_tabulate.
Qed.

Lemma run_add_lora l inputs x n d u rank a b alpha :
  lora_enabled l = true ->
  variables l !! "lora_kernel_a" = Some a ->
  variables l !! "lora_kernel_b" = Some b ->
  has_shape d rank (float2 (v_value a)) ->
  has_shape rank u (float2 (v_value b)) ->
  lora_alpha l = Some alpha -> lora_rank l = Some rank ->
  (0 < rank)%nat -> (0 < d)%nat -> (0 < n)%nat ->
  has_shape n d inputs -> has_shape n u x ->
  exists y, add_lora inputs x l = (inr y, l) /\ has_shape n u y.
Proof.
  intros He Ha Hb Sa Sb Halpha Hrank Hr Hd Hn Si Sx.
  unfold add_lora. mstep. rewrite He. mstep.
  destruct (matmul_has_shape 0%Qc Qcplus Qcmult n d rank inputs
              (float2 (v_value a))) as (x1 & Hx1 & S1); try done.
  mstep. mstep.
  destruct (matmul_has_shape 0%Qc Qcplus Qcmult n rank u x1
              (float2 (v_value b))) as (x2 & Hx2 & S2); try done.
  mstep.
  erewrite run_bind_ok by (apply run_lora_scaling; eauto with lia).
  cbv beta.
  destruct (ewise_has_shape 0%Qc Qcplus n u n u n u x
              (Ops.scale (alpha / Qc_of_Z (Z.of_nat rank))%Qc x2))
    as (y & Hy & Sy); auto using bdim_same.
  { by apply has_shape_map. }
  exists y. split; [|done]. by apply run_op.
Qed.

(** The quantized product of [_int4_call] on a batch of [n] rows. *)
Lemma run_int4_matmul l inputs n d k s :
  _orig_input_dim l = Some d ->
  inputs_quantizer l = Some Quantizers.AxisLast ->
  matrix_variable ((d + 1) `div` 2) (units l) k = true ->
  vector_variable (units l) s = true ->
  has_shape n d inputs -> (0 < n)%nat ->
  exists x,
    int4_matmul_with_inputs_gradient inputs (v_value k) (v_value s) l
    = (inr (x, int4_grad_fn
                 (Quantizers.unpack_int4 (int2 (v_value k)) d) (v_value s)),
       l)
    /\ has_shape n (units l) x.
Proof.
  intros Ho Hq Hk Hs Si Hn.
  unfold matrix_variable in Hk.
  rewrite !andb_true_iff, !bool_decide_eq_true in Hk.
  destruct Hk as [[[Hks Hp] Hkv] Hkr].
  apply Nat.ltb_lt in Hp. apply rectb_spec in Hkr.
  assert (Hd : (0 < d)%nat).
  { destruct d; [|lia]. cbn in Hp. lia. }
  apply vector_variable_spec in Hs as [_ Ss].
  pose proof (has_shape_unpack_int4 _ d (units l)
                (has_shape_int2 _ _ _ Hkv Hkr)) as Su.
  unfold int4_matmul_with_inputs_gradient. mstep. rewrite Ho. mstep.
  unfold quantize_inputs. do 2 mstep. rewrite Hq. do 3 mstep.
  destruct (abs_max_quantize_rows_shape inputs n d
              Quantizers.default_value_range Si) as [Sq Sc].
  destruct (Quantizers.abs_max_quantize inputs Quantizers.AxisLast
              Quantizers.default_value_range) as [inputs_q inputs_scale].
  cbn [fst snd] in Sq, Sc.
  destruct (matmul_has_shape 0 Z.add Z.mul n d (units l) inputs_q
              (Quantizers.unpack_int4 (int2 (v_value k)) d))
    as (x1 & Hx1 & S1); try done.
  mstep.
  destruct (ewise_has_shape 0%Qc Qcmult n 1 1 (units l) n (units l)
              inputs_scale (float2 (v_value s)))
    as (den & Hden & Sden); auto using bdim_one_r, bdim_one_l with lia.
  mstep.
  destruct (ewise_has_shape 0%Qc Qcdiv n (units l) n (units l) n (units l)
              (Ops.cast_float x1) den)
    as (x2 & Hx2 & S2); auto using bdim_same.
  { by apply has_shape_map. }
  mstep. eexists. split; [reflexivity|done].
Qed.

(** C4. On a layer quantized to int4 that retains the original input
    dimension [d], [enable_lora] gives factor A the shape [(d, rank)], not
    the [ceil(d/2)] rows of the packed kernel, and the forward pass on a
    batch of shape [(n, d)] then returns an output of shape [(n, units)],
    for odd and for even [d]. *)
Theorem int4_lora_uses_original_input_dim
    (l : Dense) (d rank n : nat) (alpha : option Qc)
    (a_init b_init : Initializer) (inputs : matrix) :
  int4_quantized d l = true ->
  (0 < rank)%nat -> (0 < n)%nat -> has_shape n d inputs ->
  exists l',
    enable_lora rank alpha a_init b_init l = (inr tt, l')
    /\ v_shape <$> variables l' !! "lora_kernel_a" = Some [d; rank]
    /\ exists y grad_fn,
         _int4_call inputs l' = (inr (y, grad_fn), l')
         /\ shape2 y = (n, units l).
Proof.
  intros Hinv Hrank Hn Si.
  apply int4_quantized_spec in Hinv
    as (Hb & He & Hc & Hm & Ho & Hq & (k & Hk & Hkm) & (s & Hs & Hsv)
        & Hbias).
  pose proof Hkm as Hkm'.
  apply matrix_variable_spec in Hkm' as (Hks & Hp & _ & _).
  assert (Hd : (0 < d)%nat).
  { destruct d; [|lia]. cbn in Hp. lia. }
  destruct (run_enable_lora l k _ _ rank alpha a_init b_init Hc Hb He Hk Hks)
    as (l' & Hrun & Hen & Hr & Ha & Hk' & (a_rows & HA & Hrows) & HB
        & Hother & Ho' & Hq' & Hm' & Hu' & Hact' & Hub' & Hb').
  rewrite Ho, Hm, bool_decide_eq_true_2 in Hrows by done. subst a_rows.
  exists l'. split; [exact Hrun|]. split; [by rewrite HA|].
  assert (Hs' : variables l' !! "kernel_scale" = Some s)
    by (by rewrite Hother).
  assert (Hbias' : optional_vector (units l') (variables l' !! "bias") = true)
    by (by rewrite Hu', Hother).
  assert (Hkm2 : matrix_variable ((d + 1) `div` 2) (units l')
                   (set_v_trainable false k) = true)
    by (by rewrite Hu').
  assert (Hsv2 : vector_variable (units l') s = true) by (by rewrite Hu').
  assert (Ho2 : _orig_input_dim l' = Some d) by congruence.
  assert (Hq2 : inputs_quantizer l' = Some Quantizers.AxisLast)
    by congruence.
  destruct (run_int4_matmul l' inputs n d (set_v_trainable false k) s
              Ho2 Hq2 Hkm2 Hsv2 Si Hn) as (x1 & Hx1 & S1).
  rewrite Hu' in S1.
  destruct (run_add_lora l' inputs x1 n d (units l) rank _ _
              (default (Qc_of_Z (Z.of_nat rank)) alpha) Hen HA HB
              (has_shape_initial_value a_init d rank)
              (has_shape_initial_value b_init rank (units l))
              Ha Hr Hrank Hd Hn Si S1)
    as (x2 & Hx2 & S2).
  rewrite <- Hu' in S2.
  destruct (run_add_bias_and_activate l' x2 n Hbias' S2 Hn)
    as (y & Hy & Sy).
  exists y. eexists. split.
  - unfold _int4_call. do 2 mstep.
    erewrite run_bind_ok by exact Hx1. cbv beta iota.
    erewrite run_bind_ok by exact Hx2. cbv beta.
    erewrite run_bind_ok by exact Hy. reflexivity.
  - rewrite <- Hu'. by apply has_shape_shape2.
Qed.

Lemma int4_lora_uses_original_input_dim_witness :
  exists l',
    enable_lora 2 None Examples.he_uniform Zeros Examples.int4_layer
    = (inr tt, l')
    /\ v_shape <$> variables l' !! "lora_kernel_a" = Some [5; 2]%nat
    /\ exists y grad_fn,
         _int4_call Examples.batch l' = (inr (y, grad_fn), l')
         /\ shape2 y = (3, 2)%nat.
Proof.
  apply (int4_lora_uses_original_input_dim Examples.int4_layer 5 2 3 None
           Examples.he_uniform Zeros Examples.batch).
  - vm_compute. reflexivity.
  - lia.
  - lia.
  - split; [reflexivity|]. apply rectb_spec. reflexivity.
Defined.

(** *** C7 *)

Lemma run_bind_inv {A B} (m : M A) (k : A -> M B) l y l' :
  (m ≫= k) l = (inr y, l') ->
  exists x l1, m l = (inr x, l1) /\ k x l1 = (inr y, l').
Proof.
  unfold mbind, M_bind. destruct (m l) as [[e|x] l1]; [done|]. eauto.
Qed.

Lemma run_getattr_inv a l v l' :
  getattr a l = (inr v, l') -> variables l !! a = Some v /\ l' = l.
Proof.
  unfold getattr. intros (x & l1 & H1 & H2)%run_bind_inv.
  unfold gets in H1. simplify_eq.
  destruct (variables l1 !! a); cbv in H2; by simplify_eq.
Qed.

Lemma nth_map_lt {A B} (f : A -> B) l i da db :
  (i < length l)%nat -> nth i (map f l) db = f (nth i l da).
Proof.
  revert i. induction l as [|x l IH]; intros [|i] Hi; cbn in *;
    try lia; [done|]. apply IH. lia.
Qed.

Lemma nth_zip_with {A B C} (f : A -> B -> C) a b j da db dc :
  (j < length a)%nat -> (j < length b)%nat ->
  nth j (zip_with f a b) dc = f (nth j a da) (nth j b db).
Proof.
  revert b j. induction a as [|x a IH]; intros [|y b] [|j] Ha Hb;
    cbn in *; try lia; [done|]. apply IH; lia.
Qed.

Lemma has_shape_dequantize K sv p u :
  has_shape p u K -> length sv = u ->
  has_shape p u (Quantizers.dequantize K sv).
Proof.
  intros [Hl Hr] Hs. split; [unfold Quantizers.dequantize;
                             by rewrite length_map|].
  unfold rect, Quantizers.dequantize in *. rewrite Forall_map.
  eapply Forall_impl; [exact Hr|]. intros row Hrow. cbn in *.
  rewrite length_zip_with, length_map. lia.
Qed.

Lemma has_shape_row {A} p u (K : list (list A)) i :
  has_shape p u K -> (i < p)%nat -> length (nth i K []) = u.
Proof.
  intros [Hl Hr] Hi. unfold rect in Hr. rewrite Forall_forall in Hr.
  apply Hr, list_elem_of_In, nth_In. lia.
Qed.

(** Dividing the cast kernel by the broadcast scale is the dequantized
    kernel: entry [(i, j)] is the integer over the scale of channel [j]. *)
Lemma divide_dequantize K sv p u :
  has_shape p u K -> (0 < p)%nat -> length sv = u ->
  Ops.divideQ (Ops.cast_float K) [sv] = Some (Quantizers.dequantize K sv).
Proof.
  intros HK Hp Hs.
  pose proof (has_shape_map Qc_of_Z p u K HK) as HcK.
  pose proof (has_shape_dequantize K sv p u HK Hs) as HdK.
  unfold Ops.divideQ, ewise, Ops.cast_float.
  rewrite (has_shape_ncols p u _ HcK Hp).
  destruct HcK as [HcKl _]. rewrite HcKl.
  change (ncols [sv]) with (length sv). change (length [sv]) with 1%nat.
  rewrite Hs, bdim_one_r, bdim_same.
  cbn. f_equal.
  transitivity (tabulate p u (get 0%Qc (Quantizers.dequantize K sv))).
  2: { destruct HdK as [Hl Hr]. rewrite <- Hl. by apply tabulate_get. }
  apply tabulate_ext. intros i j Hi Hj.
  rewrite !bidx_lt by done.
  pose proof (has_shape_row p u K i HK Hi) as Hrow.
  unfold get, Quantizers.dequantize. cbn [nth].
  destruct HK as [HKl HKr].
  rewrite (nth_map_lt (map Qc_of_Z) K i [] []) by lia.
  rewrite (nth_map_lt (fun row => zip_with Qcdiv (map Qc_of_Z row) sv)
             K i [] []) by lia.
  symmetry. apply nth_zip_with; [rewrite length_map|]; lia.
Qed.

Lemma float2_scale_vector u s :
  vector_variable u s = true ->
  float2 (v_value s) = [scale_vector s] /\ length (scale_vector s) = u.
Proof.
  intros [_ [Hl Hr]]%vector_variable_spec. unfold scale_vector.
  destruct (float2 (v_value s)) as [|row [|? ?]]; try done.
  cbn. by inversion_clear Hr.
Qed.

Lemma int8_matrix_variable_spec p u k :
  int8_matrix_variable p u k = true ->
  (0 < p)%nat /\ has_shape p u (int2 (v_value k))
  /\ float2 (cast Float32 (v_value k)) = Ops.cast_float (int2 (v_value k)).
Proof.
  unfold int8_matrix_variable, matrix_variable.
  rewrite !andb_true_iff, !bool_decide_eq_true.
  intros [[[[Hs Hp] Hv] Hr] Hd]. apply Nat.ltb_lt in Hp.
  apply rectb_spec in Hr. split; [done|].
  split; [by apply has_shape_int2|].
  by destruct (v_value k) as [[x|v|m]|[x|v|m]].
Qed.

Lemma run_backward upstream (K : list (list Z)) sv p u st
    (grad_fn : backward) scale_tensor :
  has_shape p u K -> (0 < p)%nat -> length sv = u ->
  float2 scale_tensor = [sv] ->
  grad_fn = int4_grad_fn K scale_tensor ->
  grad_fn upstream st
  = (backward_result upstream (Quantizers.dequantize K sv), st).
Proof.
  intros HK Hp Hs Hf ->. unfold int4_grad_fn, backward_result.
  rewrite Hf, (divide_dequantize K sv p u HK Hp Hs). mstep.
  destruct (Ops.matmulQ upstream _) as [g|]; reflexivity.
Qed.

(** The backward function [_int8_call] registers. *)
Lemma int8_call_grad_fn l inputs y grad_fn l' k s :
  variables l !! "_kernel" = Some k ->
  variables l !! "kernel_scale" = Some s ->
  _int8_call inputs l = (inr (y, grad_fn), l') ->
  grad_fn = int8_grad_fn (v_value k) (v_value s).
Proof.
  intros Hk Hs. unfold _int8_call. do 2 mstep.
  intros (xg & l1 & H1 & H)%run_bind_inv. destruct xg as [x g].
  apply run_bind_inv in H as (x2 & l2 & _ & H).
  apply run_bind_inv in H as (x3 & l3 & _ & H).
  unfold mret, M_ret in H. simplify_eq.
  unfold int8_matmul_with_inputs_gradient in H1.
  apply run_bind_inv in H1 as ([iq isc] & l4 & _ & H1).
  apply run_bind_inv in H1 as (x5 & l5 & _ & H1).
  apply run_bind_inv in H1 as (x6 & l6 & _ & H1).
  apply run_bind_inv in H1 as (x7 & l7 & _ & H1).
  unfold mret, M_ret in H1. by simplify_eq.
Qed.

(** The backward function [_int4_call] registers. *)
Lemma int4_call_grad_fn l inputs y grad_fn l' k s d :
  variables l !! "_kernel" = Some k ->
  variables l !! "kernel_scale" = Some s ->
  _orig_input_dim l = Some d ->
  _int4_call inputs l = (inr (y, grad_fn), l') ->
  grad_fn
  = int4_grad_fn (Quantizers.unpack_int4 (int2 (v_value k)) d) (v_value s).
Proof.
  intros Hk Hs Ho. unfold _int4_call. do 2 mstep.
  intros (xg & l1 & H1 & H)%run_bind_inv. destruct xg as [x g].
  apply run_bind_inv in H as (x2 & l2 & _ & H).
  apply run_bind_inv in H as (x3 & l3 & _ & H).
  unfold mret, M_ret in H. simplify_eq.
  unfold int4_matmul_with_inputs_gradient in H1.
  revert H1. mstep. rewrite Ho. mstep. intros H1.
  apply run_bind_inv in H1 as ([iq isc] & l4 & _ & H1).
  apply run_bind_inv in H1 as (x5 & l5 & _ & H1).
  apply run_bind_inv in H1 as (x6 & l6 & _ & H1).
  apply run_bind_inv in H1 as (x7 & l7 & _ & H1).
  unfold mret, M_ret in H1. by simplify_eq.
Qed.

Lemma run_int8_backward upstream k sv p u st scale_tensor :
  int8_matrix_variable p u k = true -> length sv = u ->
  float2 scale_tensor = [sv] ->
  int8_grad_fn (v_value k) scale_tensor upstream st
  = (backward_result upstream
       (Quantizers.dequantize (int2 (v_value k)) sv), st).
Proof.
  intros (Hp & HK & Hcast)%int8_matrix_variable_spec Hs Hf.
  unfold int8_grad_fn, backward_result.
  rewrite Hcast, Hf, (divide_dequantize _ sv p u HK Hp Hs). mstep.
  destruct (Ops.matmulQ upstream _) as [g|]; reflexivity.
Qed.

(** C7. The backward function registered by a forward call of the int8
    or the int4 path returns, for every upstream gradient,
    [upstream @ transpose(float_kernel)] as the gradient of the inputs,
    where [float_kernel] is the integer kernel (unpacked first for int4)
    cast to float and divided entry by entry by the scale of its output
    channel, and [None] for the gradients of the kernel and of its scale. *)
Theorem quantized_backward_uses_dequantized_kernel
    (l l' : Dense) (k s : KerasVariable) (p u : nat) (inputs y : matrix)
    (grad_fn : backward) (K : list (list Z)) :
  variables l !! "_kernel" = Some k ->
  variables l !! "kernel_scale" = Some s ->
  int8_matrix_variable p u k = true ->
  vector_variable u s = true ->
  (_int8_call inputs l = (inr (y, grad_fn), l') /\ K = int2 (v_value k))
  \/ (exists d, _orig_input_dim l = Some d /\ p = ((d + 1) `div` 2)%nat
        /\ _int4_call inputs l = (inr (y, grad_fn), l')
        /\ K = Quantizers.unpack_int4 (int2 (v_value k)) d) ->
  forall upstream st,
    grad_fn upstream st
    = (backward_result upstream
         (Quantizers.dequantize K (scale_vector s)), st).
Proof.
  intros Hk Hs Hkm Hsv Hcall upstream st.
  destruct (float2_scale_vector u s Hsv) as [Hf Hlen].
  destruct Hcall as [[Hcall ->]|(d & Ho & -> & Hcall & ->)].
  - rewrite (int8_call_grad_fn l inputs y grad_fn l' k s Hk Hs Hcall).
    by apply (run_int8_backward upstream k _ p u).
  - apply int8_matrix_variable_spec in Hkm as (Hp & HK & _).
    assert (Hd : (0 < d)%nat).
    { destruct d; [|lia]. cbn in Hp. lia. }
    eapply (run_backward upstream _ _ d u);
      eauto using has_shape_unpack_int4, int4_call_grad_fn.
Qed.

Lemma call_returned (r : (exn + matrix * backward) * Dense) :
  match r.1 with inr _ => true | inl _ => false end = true ->
  r = (inr (Examples.output_of r, Examples.backward_of r), r.2).
Proof.
  unfold Examples.output_of, Examples.backward_of.
  by destruct r as [[e|[y g]] l'].
Qed.

Lemma quantized_backward_uses_dequantized_kernel_witness :
  (forall upstream st,
     Examples.backward_of
       (_int8_call Examples.batch Examples.int8_layer) upstream st
     = (backward_result upstream
          (Quantizers.dequantize
             (int2 (v_value (Examples.stored "_kernel" Examples.int8_layer)))
             (scale_vector
                (Examples.stored "kernel_scale" Examples.int8_layer))),
        st))
  /\ (forall upstream st,
        Examples.backward_of
          (_int4_call Examples.batch Examples.int4_lora_layer) upstream st
        = (backward_result upstream
             (Quantizers.dequantize
                (Quantizers.unpack_int4
                   (int2 (v_value (Examples.stored "_kernel"
                                     Examples.int4_lora_layer))) 5)
                (scale_vector
                   (Examples.stored "kernel_scale"
                      Examples.int4_lora_layer))),
           st)).
Proof.
  split.
  - apply (quantized_backward_uses_dequantized_kernel
      Examples.int8_layer
      (_int8_call Examples.batch Examples.int8_layer).2
      (Examples.stored "_kernel" Examples.int8_layer)
      (Examples.stored "kernel_scale" Examples.int8_layer)
      5 2 Examples.batch
      (Examples.output_of (_int8_call Examples.batch Examples.int8_layer))).
    + (vm_compute; reflexivity).
    + (vm_compute; reflexivity).
    + (vm_compute; reflexivity).
    + (vm_compute; reflexivity).
    + left. split; [|reflexivity].
      (apply call_returned; vm_compute; reflexivity).
  - apply (quantized_backward_uses_dequantized_kernel
      Examples.int4_lora_layer
      (_int4_call Examples.batch Examples.int4_lora_layer).2
      (Examples.stored "_kernel" Examples.int4_lora_layer)
      (Examples.stored "kernel_scale" Examples.int4_lora_layer)
      3 2 Examples.batch
      (Examples.output_of
         (_int4_call Examples.batch Examples.int4_lora_layer))).
    + vm_compute; reflexivity.
    + vm_compute; reflexivity.
    + vm_compute; reflexivity.
    + vm_compute; reflexivity.
    + right. exists 5%nat. split; [vm_compute; reflexivity|].
      split; [reflexivity|]. split; [|reflexivity].
      apply call_returned; vm_compute; reflexivity.
Defined.

(** *** C6: read-only computations *)

Lemma readonly_ret {A} (x : A) : readonly (mret x).
Proof. by intros l. Qed.

Lemma readonly_raise {A} e : readonly (raise (A := A) e).
Proof. by intros l. Qed.

Lemma readonly_gets {A} (f : Dense -> A) : readonly (gets f).
Proof. by intros l. Qed.

Lemma readonly_lift_opt {A} e (o : option A) : readonly (lift_opt e o).
Proof. by destruct o. Qed.

Lemma readonly_op {A} nm (o : option A) : readonly (op nm o).
Proof. apply readonly_lift_opt. Qed.

Lemma readonly_bind {A B} (m : M A) (k : A -> M B) :
  readonly m -> (forall x, readonly (k x)) -> readonly (m ≫= k).
Proof.
  intros Hm Hk l. unfold mbind, M_bind. specialize (Hm l).
  destruct (m l) as [[e|x] l1]; cbn in *; subst; [done|]. apply Hk.
Qed.

Lemma readonly_getattr a : readonly (getattr a).
Proof.
  apply readonly_bind; [apply readonly_gets|].
  intros x. apply readonly_lift_opt.
Qed.

Ltac readonly_step :=
  first [ apply readonly_bind; [|intros ?]
        | apply readonly_getattr
        | apply readonly_gets
        | apply readonly_raise
        | apply readonly_ret
        | apply readonly_op
        | apply readonly_lift_opt
        | match goal with
          | |- readonly (if ?b then _ else _) => destruct b
          | |- readonly (match ?o with Some _ => _ | None => _ end) =>
              destruct o
          | |- readonly (let '(_, _) := ?p in _) => destruct p
          end ].

Section Float8Facts.
Variable quantize_and_dequantize : matrix -> tensor -> string -> matrix.
Variable compute_float8_scale : Qc -> tensor -> Qc -> tensor.
Variable compute_float8_amax_history : matrix -> tensor -> tensor.
Variable ops_max : tensor -> Qc.
Variable cast_bfloat16 : Qc -> Qc.

Let float8_call :=
  _float8_call quantize_and_dequantize compute_float8_scale
    compute_float8_amax_history ops_max cast_bfloat16.

Lemma readonly_float8_call inputs training :
  readonly (float8_call inputs training).
Proof.
  unfold float8_call, _float8_call. repeat readonly_step.
Qed.

(** At inference the backward function of a quantize-dequantize of the
    inputs or of the kernel passes the upstream gradient on and returns
    [None] for the new scale and the new amax history. *)
Lemma inference_backward inputs scale amax_history upstream :
  (quantized_dequantize_inputs quantize_and_dequantize
     compute_float8_scale compute_float8_amax_history ops_max
     false inputs scale amax_history).2 upstream
  = (upstream, None, None).
Proof. reflexivity. Qed.

Lemma float8_call_backward inputs l y gi gk go l' :
  float8_call inputs false l = (inr (y, (gi, gk, go)), l') ->
  forall upstream,
    gi upstream = (upstream, None, None)
    /\ gk upstream = (upstream, None, None).
Proof.
  unfold float8_call, _float8_call.
  intros (en & l1 & _ & H)%run_bind_inv.
  destruct en; [done|].
  apply run_bind_inv in H as (i_scale & l2 & _ & H).
  apply run_bind_inv in H as (i_hist & l3 & _ & H).
  cbn [quantized_dequantize_inputs] in H.
  apply run_bind_inv in H as (k & l4 & _ & H).
  apply run_bind_inv in H as (k_scale & l5 & _ & H).
  apply run_bind_inv in H as (k_hist & l6 & _ & H).
  apply run_bind_inv in H as (x & l7 & _ & H).
  apply run_bind_inv in H as (o_scale & l8 & _ & H).
  apply run_bind_inv in H as (o_hist & l9 & _ & H).
  cbn [quantized_dequantize_outputs] in H.
  apply run_bind_inv in H as (b & l10 & _ & H).
  apply run_bind_inv in H as (x' & l11 & _ & H).
  apply run_bind_inv in H as (act & l12 & _ & H).
  unfold mret, M_ret in H. simplify_eq. done.
Qed.

(** The backward function of the outputs has no test on [training]:
    whenever it is invoked it computes a new scale and a new amax
    history from the [outputs_grad] buffers. *)
Lemma float8_call_outputs_backward inputs training l y gi gk go l' :
  float8_call inputs training l = (inr (y, (gi, gk, go)), l') ->
  exists o_scale o_hist,
    variables l !! "outputs_grad_scale" = Some o_scale
    /\ variables l !! "outputs_grad_amax_history" = Some o_hist
    /\ forall upstream,
         go upstream
         = (quantize_and_dequantize upstream (v_value o_scale)
              "float8_e5m2",
            Some (compute_float8_scale (ops_max (v_value o_hist))
                    (v_value o_scale) float8_e5m2_max),
            Some (compute_float8_amax_history upstream
                    (v_value o_hist))).
Proof.
  unfold float8_call, _float8_call. intros H.
  assert (Hro : forall nm (o : option matrix) x (l0 l1 : Dense),
            op nm o l0 = (inr x, l1) -> l1 = l0).
  { intros nm o x l0 l1 Ho. pose proof (readonly_op nm o l0) as R.
    by rewrite Ho in R. }
  destruct training;
    (apply run_bind_inv in H as (en & l1 & Hen & H);
     unfold gets in Hen; simplify_eq;
     destruct (lora_enabled l1); [done|];
     apply run_bind_inv in H
       as (i_scale & l2 & [_ ->]%run_getattr_inv & H);
     apply run_bind_inv in H
       as (i_hist & l3 & [_ ->]%run_getattr_inv & H);
     cbn [quantized_dequantize_inputs] in H;
     apply run_bind_inv in H as (k & l4 & [_ ->]%run_getattr_inv & H);
     apply run_bind_inv in H
       as (k_scale & l5 & [_ ->]%run_getattr_inv & H);
     apply run_bind_inv in H
       as (k_hist & l6 & [_ ->]%run_getattr_inv & H);
     apply run_bind_inv in H as (x & l7 & ->%Hro & H);
     apply run_bind_inv in H
       as (o_scale & l8 & [Hs ->]%run_getattr_inv & H);
     apply run_bind_inv in H
       as (o_hist & l9 & [Hh ->]%run_getattr_inv & H);
     cbn [quantized_dequantize_outputs] in H;
     apply run_bind_inv in H as (b & l10 & _ & H);
     apply run_bind_inv in H as (x' & l11 & _ & H);
     apply run_bind_inv in H as (act & l12 & _ & H);
     unfold mret, M_ret in H; simplify_eq;
     by exists o_scale, o_hist).
Qed.

(** C6. A float8 forward call with [training] false leaves the layer,
    and with it the six scale and amax-history buffers, exactly as it
    found them, whether it returns or raises, and a second inference
    call starts from the very same state. The backward functions it
    registers for the inputs and for the kernel return [None] in place
    of a new scale and a new history; the one it registers for the
    outputs has no test on [training] and, if the gradient is ever
    propagated through it, computes a new scale and a new history from
    the [outputs_grad] buffers. *)
Theorem float8_inference_leaves_rescaling_state_unchanged
    (inputs inputs' : matrix) (l : Dense) :
  let r := float8_call inputs false l in
  r.2 = l
  /\ (forall a, a ∈ float8_buffers ->
        variables r.2 !! a = variables l !! a)
  /\ (forall y gi gk go,
        r.1 = inr (y, (gi, gk, go)) ->
        (forall upstream,
           gi upstream = (upstream, None, None)
           /\ gk upstream = (upstream, None, None))
        /\ exists o_scale o_hist,
             variables l !! "outputs_grad_scale" = Some o_scale
             /\ variables l !! "outputs_grad_amax_history" = Some o_hist
             /\ forall upstream,
                  go upstream
                  = (quantize_and_dequantize upstream (v_value o_scale)
                       "float8_e5m2",
                     Some (compute_float8_scale
                             (ops_max (v_value o_hist))
                             (v_value o_scale) float8_e5m2_max),
                     Some (compute_float8_amax_history upstream
                             (v_value o_hist))))
  /\ float8_call inputs' false r.2 = float8_call inputs' false l
  /\ (float8_call inputs' false r.2).2 = l.
Proof.
  intros r.
  assert (Hr : r.2 = l) by apply readonly_float8_call.
  split; [exact Hr|]. split; [intros a _; by rewrite Hr|]. split.
  - intros y gi gk go Hy.
    assert (Hrun : float8_call inputs false l
                   = (inr (y, (gi, gk, go)), r.2)).
    { rewrite <- Hy. apply surjective_pairing. }
    split.
    + by apply (float8_call_backward inputs l y gi gk go r.2).
    + by apply (float8_call_outputs_backward inputs false l y gi gk go
                  r.2).
  - rewrite Hr. split; [done|]. apply readonly_float8_call.
Qed.
End Float8Facts.

(** C6 does not hold of the outputs: on a layer quantized to float8, an
    inference call registers for the outputs a backward function that
    returns a new scale and a new amax history, not [None]. The float8
    helpers are instantiated by functions that hand their arguments on. *)
Lemma float8_outputs_backward_computes_at_inference :
  match (_float8_call (fun x _ _ => x) (fun _ scale _ => scale)
           (fun _ history => history) (fun _ => 0%Qc) (fun q => q)
           Examples.batch false Examples.float8_layer).1 with
  | inr (_, (_, _, grad_outputs)) =>
      grad_outputs [[1%Qc; 1%Qc]]
      = ([[1%Qc; 1%Qc]], Some (TF (D0 1%Qc)),
         Some (TF (D1 (replicate 4 0%Qc))))
  | inl _ => False
  end.
Proof. vm_compute. reflexivity. Qed.

(** *** quantize *)

(** Shapes of the results of quantizing per column. *)
Lemma abs_max_quantize_columns_shape inputs d u vr :
  has_shape d u inputs -> (0 < d)%nat ->
  exists kv scales,
    Quantizers.abs_max_quantize inputs Quantizers.Axis0 vr = (kv, [scales])
    /\ scales = map (Quantizers.abs_max_scale vr.2) (Ops.transposeQ inputs)
    /\ kv = map (fun row =>
                   zip_with (Quantizers.quantize_value vr) scales row) inputs
    /\ length scales = u /\ has_shape d u kv.
Proof.
  intros Hi Hd. eexists _, _. split; [reflexivity|].
  split; [reflexivity|]. split; [reflexivity|].
  assert (Hl : length (map (Quantizers.abs_max_scale vr.2)
                         (Ops.transposeQ inputs)) = u).
  { rewrite length_map. unfold Ops.transposeQ, transpose.
    rewrite length_tabulate. by apply (has_shape_ncols d). }
  split; [exact Hl|]. destruct Hi as [Hlen Hr].
  split; [by rewrite length_map|].
  unfold rect in *. rewrite Forall_map.
  eapply Forall_impl; [exact Hr|]. intros row Hrow. cbn in *.
  rewrite length_zip_with. lia.
Qed.

Lemma run_assign v t :
  shape t = v_shape v ->
  assign v t = inr (set_v_value (cast (v_dtype v) t) v).
Proof. intros H. unfold assign. by rewrite decide_True. Qed.

Lemma shape_of_matrix {A} d u (m : list (list A)) :
  has_shape d u m -> (0 < d)%nat -> [length m; ncols m] = [d; u].
Proof.
  intros Hm Hd. rewrite (has_shape_ncols d u m Hm Hd).
  by destruct Hm as [-> _].
Qed.

(** [quantize("int8")] on a layer whose kernel is a [d] by [units]
    matrix: the kernel is replaced by its quantized values, stored as
    int8, and the scales of the columns are stored next to it. *)
Lemma run_quantize_int8 l k d tc :
  (tc && is_subclass l) = false ->
  variables l !! "_kernel" = Some k ->
  matrix_variable d (units l) k = true ->
  exists l' kv scales,
    quantize "int8" tc l = (inr tt, l')
    /\ Quantizers.abs_max_quantize (float2 (v_value k)) Quantizers.Axis0
         Quantizers.default_value_range = (kv, [scales])
    /\ variables l' !! "_kernel"
       = Some {| v_name := "kernel"; v_shape := [d; units l];
                 v_dtype := Int8; v_trainable := false;
                 v_value := TI (D2 kv) |}
    /\ variables l' !! "kernel_scale"
       = Some {| v_name := "kernel_scale"; v_shape := [units l];
                 v_dtype := Float32; v_trainable := false;
                 v_value := TF (D1 scales) |}
    /\ (forall a, a ≠ "_kernel" -> a ≠ "kernel_scale" ->
          variables l' !! a = variables l !! a)
    /\ quantization_mode l'
       = Some (default "int8" (quantization_mode l))
    /\ inputs_quantizer l' = Some Quantizers.AxisLast
    /\ units l' = units l /\ built l' = built l
    /\ lora_enabled l' = lora_enabled l
    /\ kernel_constraint l' = kernel_constraint l.
Proof.
  intros Htc Hk Hm.
  apply matrix_variable_spec in Hm as (Hs & Hd & Hlen & Hrect).
  destruct (abs_max_quantize_columns_shape (float2 (v_value k)) d (units l)
              Quantizers.default_value_range (conj Hlen Hrect) Hd)
    as (kv & scales & Hq & _ & _ & Hsl & Skv).
  destruct (quantization_mode l) as [m|] eqn:Hmode;
    (eexists _, kv, scales; split;
     [ unfold quantize; mstep; rewrite Htc; mstep;
       rewrite decide_True by done; rewrite Hq;
       unfold delattr, quantized_build, _int8_build, add_weight,
         assign_attr;
       rewrite decide_True by done;
       repeat mstep;
       rewrite run_assign
         by (cbn [shape dshape v_shape]; rewrite Hs;
             by apply shape_of_matrix);
       repeat mstep;
       rewrite run_assign by (cbn; by rewrite Hsl);
       repeat mstep; proj_simpl; rewrite Hmode; reflexivity
     | split; [exact Hq|]; cbn; rewrite Hs;
       repeat split; try done; try (by simplify_map_eq);
       intros a H1 H2; by simplify_map_eq ]).
Qed.

(** *** C2 *)

Lemma Qcmax_ge_r a b : (b <= Quantizers.Qcmax a b)%Qc.
Proof.
  unfold Quantizers.Qcmax.
  destruct (Qclt_le_dec a b) as [H|H]; [apply Qcle_refl|done].
Qed.

Lemma max_abs_nonneg slice : (0 <= Quantizers.max_abs slice)%Qc.
Proof.
  induction slice as [|x slice IH]; [apply Qcle_refl|].
  cbn [Quantizers.max_abs foldr].
  eapply Qcle_trans; [exact IH|apply Qcmax_ge_r].
Qed.

(** The divisor of the quantizer is positive, whatever the slice. *)
Lemma abs_max_divisor_positive slice :
  (0 < Quantizers.max_abs slice + Quantizers.epsilon)%Qc.
Proof.
  apply Qclt_le_trans with Quantizers.epsilon; [reflexivity|].
  rewrite <- (Qcplus_0_l Quantizers.epsilon) at 1.
  apply Qcplus_le_compat; [apply max_abs_nonneg|apply Qcle_refl].
Qed.

(** The scale is a true quotient: multiplied by its divisor it gives the
    upper end of the value range back. *)
Lemma abs_max_scale_times_divisor vmax slice :
  (Quantizers.abs_max_scale vmax slice
   * (Quantizers.max_abs slice + Quantizers.epsilon))%Qc = Qc_of_Z vmax.
Proof.
  unfold Quantizers.abs_max_scale. rewrite Qcmult_comm.
  apply Qcmult_div_r. intros H.
  pose proof (abs_max_divisor_positive slice) as Hpos.
  rewrite H in Hpos. apply Qclt_not_le in Hpos. apply Hpos, Qcle_refl.
Qed.

Lemma abs_max_scale_zero vmax slice :
  Quantizers.max_abs slice = 0%Qc ->
  Quantizers.abs_max_scale vmax slice
  = (Qc_of_Z vmax / Quantizers.epsilon)%Qc.
Proof.
  intros H. unfold Quantizers.abs_max_scale.
  by rewrite H, Qcplus_0_l.
Qed.

(** For int8 the scale of an all-zero slice is 1.27e9. *)
Lemma int8_scale_of_zero_slice :
  (Qc_of_Z 127 / Quantizers.epsilon)%Qc = Qc_of_Z 1270000000
  /\ Qc_of_Z 1270000000 ≠ 1%Qc.
Proof.
  split; [by apply Qc_is_canon|].
  intros H. apply (f_equal (fun q => Qnum (this q))) in H.
  vm_compute in H. discriminate.
Qed.

Lemma max_abs_zeros n : Quantizers.max_abs (replicate n 0%Qc) = 0%Qc.
Proof.
  induction n as [|n IH]; [done|].
  change (Quantizers.max_abs (replicate (S n) 0%Qc))
    with (Quantizers.Qcmax (Qcabs 0%Qc)
            (Quantizers.max_abs (replicate n 0%Qc))).
  rewrite IH. unfold Quantizers.Qcmax.
  destruct (Qclt_le_dec _ _); [done|].
  apply Qcabs_pos, Qcle_refl.
Qed.

Lemma quantize_value_zero scale :
  Quantizers.quantize_value Quantizers.default_value_range scale 0%Qc = 0.
Proof.
  unfold Quantizers.quantize_value.
  replace (0 * scale)%Qc with 0%Qc by ring. reflexivity.
Qed.

Lemma transpose_zeros d u :
  (0 < d)%nat ->
  Ops.transposeQ (replicate d (replicate u 0%Qc))
  = replicate u (replicate d 0%Qc).
Proof.
  intros Hd. rewrite !replicate_tabulate.
  unfold Ops.transposeQ, transpose.
  rewrite length_tabulate, ncols_tabulate by done.
  apply tabulate_ext. intros i j _ _. apply get_zeros.
Qed.

(** Quantizing an all-zero matrix per column: all-zero values, and for
    every column the scale of an all-zero slice. *)
Lemma abs_max_quantize_zeros d u :
  (0 < d)%nat ->
  Quantizers.abs_max_quantize (replicate d (replicate u 0%Qc))
    Quantizers.Axis0 Quantizers.default_value_range
  = (replicate d (replicate u 0),
     [replicate u (Qc_of_Z 127 / Quantizers.epsilon)%Qc]).
Proof.
  intros Hd. cbn [Quantizers.abs_max_quantize].
  rewrite transpose_zeros by done.
  assert (Hs : map (Quantizers.abs_max_scale
                      Quantizers.default_value_range.2)
                 (replicate u (replicate d 0%Qc))
               = replicate u (Qc_of_Z 127 / Quantizers.epsilon)%Qc).
  { induction u as [|u IH]; [done|]. cbn [replicate map].
    rewrite IH. f_equal. apply abs_max_scale_zero, max_abs_zeros. }
  rewrite Hs. f_equal.
  assert (Hrow : forall scale, zip_with
            (Quantizers.quantize_value Quantizers.default_value_range)
            (replicate u scale) (replicate u 0%Qc) = replicate u 0).
  { clear. intros scale. induction u as [|u IH]; [done|].
    cbn [replicate zip_with]. by rewrite IH, quantize_value_zero. }
  clear Hs Hd. induction d as [|d IH]; [done|]. cbn [replicate map].
  by rewrite IH, Hrow.
Qed.

Lemma has_shape_replicate {A} d u (x : A) :
  has_shape d u (replicate d (replicate u x)).
Proof. rewrite replicate_tabulate. apply has_shape_tabulate. Qed.

Lemma matrix_variable_intro d u k :
  v_shape k = [d; u] -> (0 < d)%nat -> shape (v_value k) = [d; u] ->
  rect u (float2 (v_value k)) -> matrix_variable d u k = true.
Proof.
  intros Hs Hd Hv Hr. unfold matrix_variable.
  rewrite !andb_true_iff, !bool_decide_eq_true.
  repeat split; try done; [by apply Nat.ltb_lt | by apply rectb_spec].
Qed.

Lemma scale_of_column inputs vr j :
  (j < ncols inputs)%nat ->
  get 0%Qc
    (Quantizers.abs_max_quantize inputs Quantizers.Axis0 vr).2 0 j
  = Quantizers.abs_max_scale vr.2 (nth j (Ops.transposeQ inputs) []).
Proof.
  intros Hj. cbn [Quantizers.abs_max_quantize snd]. unfold get.
  cbn [nth]. apply nth_map_lt.
  unfold Ops.transposeQ, transpose. by rewrite length_tabulate.
Qed.

Lemma scale_of_row inputs vr i :
  (i < length inputs)%nat ->
  get 0%Qc
    (Quantizers.abs_max_quantize inputs Quantizers.AxisLast vr).2 i 0
  = Quantizers.abs_max_scale vr.2 (nth i inputs []).
Proof.
  intros Hi. cbn [Quantizers.abs_max_quantize snd]. unfold get.
  rewrite map_map.
  by rewrite (nth_map_lt
    (fun s => [Quantizers.abs_max_scale vr.2 s]) inputs i [] []).
Qed.

(** C2 does not hold as stated: the kernel of [Examples.zero_layer] is
    all zeros, and [quantize("int8")] stores 1.27e9, not 1, as the scale of
    each of its two channels. *)
Lemma zero_kernel_scale_is_not_one :
  Quantizers.max_abs [0%Qc; 0%Qc] = 0%Qc
  /\ this (Quantizers.abs_max_scale 127 [0%Qc; 0%Qc]) = 1270000000 # 1
  /\ (fun s => map this (scale_vector s))
       <$> variables (quantize "int8" true Examples.zero_layer).2
             !! "kernel_scale"
     = Some [1270000000 # 1; 1270000000 # 1].
Proof.
  split; [apply (max_abs_zeros 2)|].
  split; vm_compute; reflexivity.
Qed.

(** C2. The abs-max quantizer never divides by zero: its divisor, the
    maximum absolute value of the slice plus [epsilon], is positive for
    every slice, and the scale times the divisor is the upper end of the
    value range. A slice whose maximum absolute value is 0 therefore gets
    the scale value_range_max / epsilon, along either axis; and
    [quantize("int8")] of a layer whose kernel is all zeros stores an
    all-zero int8 kernel with every per-channel scale equal to
    127 / epsilon, which is 1.27e9. *)
Theorem abs_max_scale_never_divides_by_zero
    (l : Dense) (k : KerasVariable) (d : nat) (type_check : bool) :
  (type_check && is_subclass l) = false ->
  variables l !! "_kernel" = Some k ->
  v_shape k = [d; units l] -> (0 < d)%nat ->
  v_value k = TF (D2 (replicate d (replicate (units l) 0%Qc))) ->
  (forall slice,
     (0 < Quantizers.max_abs slice + Quantizers.epsilon)%Qc)
  /\ (forall vmax slice,
        (Quantizers.abs_max_scale vmax slice
         * (Quantizers.max_abs slice + Quantizers.epsilon))%Qc
        = Qc_of_Z vmax)
  /\ (forall inputs vr j,
        (j < ncols inputs)%nat ->
        Quantizers.max_abs (nth j (Ops.transposeQ inputs) []) = 0%Qc ->
        get 0%Qc
          (Quantizers.abs_max_quantize inputs Quantizers.Axis0 vr).2 0 j
        = (Qc_of_Z vr.2 / Quantizers.epsilon)%Qc)
  /\ (forall inputs vr i,
        (i < length inputs)%nat ->
        Quantizers.max_abs (nth i inputs []) = 0%Qc ->
        get 0%Qc
          (Quantizers.abs_max_quantize inputs Quantizers.AxisLast vr).2 i 0
        = (Qc_of_Z vr.2 / Quantizers.epsilon)%Qc)
  /\ exists l',
       quantize "int8" type_check l = (inr tt, l')
       /\ v_value <$> variables l' !! "_kernel"
          = Some (TI (D2 (replicate d (replicate (units l) 0))))
       /\ v_value <$> variables l' !! "kernel_scale"
          = Some (TF (D1 (replicate (units l) (Qc_of_Z 1270000000)))).
Proof.
  intros Htc Hk Hs Hd Hv.
  split; [exact abs_max_divisor_positive|].
  split; [exact abs_max_scale_times_divisor|].
  split.
  { intros inputs vr j Hj H0.
    rewrite scale_of_column by done. by apply abs_max_scale_zero. }
  split.
  { intros inputs vr i Hi H0.
    rewrite scale_of_row by done. by apply abs_max_scale_zero. }
  assert (Hm : matrix_variable d (units l) k = true).
  { apply matrix_variable_intro; try done; rewrite Hv; cbn.
    - f_equal; [apply length_replicate|]. f_equal.
      apply (has_shape_ncols d); [apply has_shape_replicate|done].
    - apply has_shape_replicate. }
  destruct (run_quantize_int8 l k d type_check Htc Hk Hm)
    as (l' & kv & scales & Hrun & Hq & Hk' & Hs' & _).
  rewrite Hv in Hq. cbn [float2 lift2] in Hq.
  rewrite abs_max_quantize_zeros in Hq by done. simplify_eq.
  exists l'. split; [exact Hrun|]. rewrite Hk', Hs'.
  by destruct int8_scale_of_zero_slice as [-> _].
Qed.

Lemma abs_max_scale_never_divides_by_zero_witness :
  exists l',
    quantize "int8" true Examples.zero_layer = (inr tt, l')
    /\ v_value <$> variables l' !! "_kernel"
       = Some (TI (D2 (replicate 5 (replicate 2 0))))
    /\ v_value <$> variables l' !! "kernel_scale"
       = Some (TF (D1 (replicate 2 (Qc_of_Z 1270000000)))).
Proof.
  apply (abs_max_scale_never_divides_by_zero Examples.zero_layer
           (Examples.stored "_kernel" Examples.zero_layer) 5 true).
  - reflexivity.
  - vm_compute; reflexivity.
  - reflexivity.
  - lia.
  - vm_compute; reflexivity.
Defined.

(** *** Loading from the store *)

(** The count check raises whenever the store and the layer disagree on
    the number of variables, and leaves the layer alone. *)
Lemma run_check_mismatch l (store : gmap string tensor) :
  size store ≠ length (_trainable_variables l ++ _non_trainable_variables l)
  ->
  _check_load_own_variables store l
  = (inl (if Nat.eqb (length (_trainable_variables l
                                ++ _non_trainable_variables l)) 0
             && negb (built l)
          then NeverBuiltError (name l) (size store)
          else VariableCountError (name l)
                 (length (_trainable_variables l
                            ++ _non_trainable_variables l))
                 (size store)
                 (_trainable_variables l ++ _non_trainable_variables l)),
     l).
Proof.
  intros Hne. unfold _check_load_own_variables. do 2 mstep.
  rewrite decide_True by done. do 2 mstep.
  by destruct (_ && _).
Qed.

Lemma run_check_match l (store : gmap string tensor) :
  size store = length (_trainable_variables l ++ _non_trainable_variables l)
  -> _check_load_own_variables store l = (inr tt, l).
Proof.
  intros He. unfold _check_load_own_variables. do 2 mstep.
  by rewrite decide_False by (intros H; by apply H).
Qed.

(** C9. While LoRA is not enabled, a store whose number of entries
    differs from the number of variables the layer tracks makes
    [load_own_variables] raise before anything is assigned: the error
    names the expected and the received count, or, for a layer that was
    never built and has no variables, says so and names the received
    count. *)
Theorem load_count_mismatch_raises
    (l : Dense) (store : gmap string tensor) :
  lora_enabled l = false ->
  size store ≠ length (_trainable_variables l ++ _non_trainable_variables l)
  ->
  load_own_variables store l
  = (inl (if Nat.eqb (length (_trainable_variables l
                                ++ _non_trainable_variables l)) 0
             && negb (built l)
          then NeverBuiltError (name l) (size store)
          else VariableCountError (name l)
                 (length (_trainable_variables l
                            ++ _non_trainable_variables l))
                 (size store)
                 (_trainable_variables l ++ _non_trainable_variables l)),
     l).
Proof.
  intros He Hne. unfold load_own_variables. mstep. rewrite He.
  cbn [negb]. erewrite run_bind_err; [reflexivity|].
  by apply run_check_mismatch.
Qed.

Lemma load_count_mismatch_raises_witness :
  load_own_variables Examples.short_store Examples.built_layer
  = (inl (VariableCountError "dense" 2 1 ["kernel"; "bias"]),
     Examples.built_layer).
Proof.
  apply (load_count_mismatch_raises Examples.built_layer
           Examples.short_store).
  - reflexivity.
  - vm_compute. lia.
Defined.

(** With LoRA enabled the count is not checked: a store with three
    entries is loaded into a layer that tracks four variables and reads
    two of them. *)
Lemma load_with_lora_ignores_count_mismatch :
  size Examples.surplus_store = 3%nat
  /\ length (_trainable_variables Examples.lora_layer
             ++ _non_trainable_variables Examples.lora_layer) = 4%nat
  /\ (target_variables Examples.lora_layer).1 = inr ["_kernel"; "bias"]
  /\ (load_own_variables Examples.surplus_store Examples.lora_layer).1
     = inr tt.
Proof. vm_compute. repeat split; reflexivity. Qed.

(** *** C10 *)

Ltac run_inv H :=
  cbv [raise setattr modify mret M_ret lift_opt] in H; simplify_eq.

(** An assignment to one attribute leaves the others alone, whether it
    succeeds or raises. *)
Lemma assign_attr_other a value l r l' b :
  assign_attr a value l = (r, l') -> b ≠ a ->
  variables l' !! b = variables l !! b.
Proof.
  unfold assign_attr, getattr. intros H Hb. revert H. do 2 mstep.
  destruct (variables l !! a) as [v|] eqn:Hv.
  - mstep. destruct (assign v value) as [e|v']; intros H; run_inv H;
      try done. cbn. by rewrite lookup_insert_ne.
  - erewrite run_bind_err by reflexivity. intros H. by run_inv H.
Qed.

Lemma assign_from_store_other store ts : forall i l r l' b,
  assign_from_store store i ts l = (r, l') -> b ∉ ts ->
  variables l' !! b = variables l !! b.
Proof.
  induction ts as [|a ts IH]; intros i l r l' b H Hb.
  - cbn [assign_from_store] in H. by run_inv H.
  - apply not_elem_of_cons in Hb as [Hba Hbts].
    cbn [assign_from_store] in H. revert H.
    destruct (store !! pretty i) as [value|].
    + mstep.
      destruct (assign_attr a value l) as [[e|[]] l1] eqn:Ha.
      * erewrite run_bind_err by exact Ha. intros H. run_inv H.
        by eapply assign_attr_other.
      * erewrite run_bind_ok by exact Ha. intros H.
        rewrite (IH _ _ _ _ _ H Hbts). by eapply assign_attr_other.
    + erewrite run_bind_err by reflexivity.
      intros H. by run_inv H.
Qed.

Lemma run_assign_attr_inv a value l l' :
  assign_attr a value l = (inr tt, l') ->
  exists v, variables l !! a = Some v
    /\ variables l' !! a = Some (set_v_value (cast (v_dtype v) value) v)
    /\ forall b, b ≠ a -> variables l' !! b = variables l !! b.
Proof.
  unfold assign_attr, getattr. do 2 mstep.
  destruct (variables l !! a) as [v|] eqn:Hv.
  - mstep. unfold assign. case_decide as Hs; intros H; run_inv H.
    exists v. split; [done|]. cbn.
    split; [by rewrite lookup_insert_eq|].
    intros b Hb. by rewrite lookup_insert_ne.
  - erewrite run_bind_err by reflexivity. intros H. by run_inv H.
Qed.

Lemma target_inv a l ts l' :
  target a l = (inr ts, l') -> ts = [a] /\ l' = l.
Proof.
  unfold target. intros (v & l1 & [_ ->]%run_getattr_inv & H)%run_bind_inv.
  by run_inv H.
Qed.

Lemma gets_inv {A} (f : Dense -> A) l x l' :
  gets f l = (inr x, l') -> x = f l /\ l' = l.
Proof. unfold gets. intros H. by simplify_eq. Qed.

(** Membership in a list of attribute names, by evaluation. *)
Ltac by_decision := apply (bool_decide_unpack _); vm_compute; exact I.

Lemma lora_kernel_a_not_base : "lora_kernel_a" ∉ base_attributes.
Proof. by_decision. Qed.

Lemma lora_kernel_b_not_base : "lora_kernel_b" ∉ base_attributes.
Proof. by_decision. Qed.

Lemma targets_subseteq (b q : list string) :
  b ⊆ ["bias"] -> q ⊆ float8_buffers ->
  ["_kernel"] ++ b ++ q ⊆ base_attributes.
Proof.
  intros Hb Hq x. rewrite !elem_of_app. intros [H|[H|H]].
  - apply list_elem_of_singleton in H as ->. by_decision.
  - apply Hb, list_elem_of_singleton in H as ->. by_decision.
  - apply elem_of_app. right. by apply Hq.
Qed.

Lemma nil_subseteq {A} (l : list A) : [] ⊆ l.
Proof. intros x Hx. by apply elem_of_nil in Hx. Qed.

(** The targets are read without changing the layer and are among the
    base attributes. *)
Lemma target_variables_inv l ts l' :
  target_variables l = (inr ts, l') -> l' = l /\ ts ⊆ base_attributes.
Proof.
  unfold target_variables.
  intros (k & l1 & [-> ->]%target_inv & H)%run_bind_inv.
  apply run_bind_inv in H as (ub & l2 & [-> ->]%gets_inv & H).
  apply run_bind_inv in H as (b & l3 & Hb & H).
  assert (l3 = l /\ b ⊆ ["bias"]) as [-> Hbs].
  { destruct (use_bias l); [apply target_inv in Hb as [-> ->]|run_inv Hb];
      (split; [done|]); [by intros x|apply nil_subseteq]. }
  apply run_bind_inv in H as (m & l4 & [-> ->]%gets_inv & H).
  apply run_bind_inv in H as (q & l5 & Hq & H).
  run_inv H.
  assert (l' = l /\ q ⊆ float8_buffers) as [-> Hqs].
  { destruct (quantization_mode l) as [m|];
      [|run_inv Hq; split; [done|apply nil_subseteq]].
    destruct (bool_decide (m = "int8") || bool_decide (m = "int4")).
    { apply target_inv in Hq as [-> ->]. split; [done|].
      intros x ->%list_elem_of_singleton. by_decision. }
    destruct (decide (m = "float8")); [|by run_inv Hq].
    apply run_bind_inv in Hq as (v1 & l1 & [-> ->]%target_inv & Hq).
    apply run_bind_inv in Hq as (v2 & l2 & [-> ->]%target_inv & Hq).
    apply run_bind_inv in Hq as (v3 & l3 & [-> ->]%target_inv & Hq).
    apply run_bind_inv in Hq as (v4 & l4 & [-> ->]%target_inv & Hq).
    apply run_bind_inv in Hq as (v5 & l5 & [-> ->]%target_inv & Hq).
    apply run_bind_inv in Hq as (v6 & l6 & [-> ->]%target_inv & Hq).
    run_inv Hq. split; [done|]. by intros x. }
  split; [done|]. by apply targets_subseteq.
Qed.

(** C10. When [load_own_variables] returns on a built layer with LoRA
    enabled, both LoRA factors hold all-zero tensors of their own shapes,
    whatever the store contained and whatever the factors held before. *)
Theorem load_zeroes_lora_factors
    (l l' : Dense) (store : gmap string tensor) (a b : KerasVariable) :
  built l = true -> lora_enabled l = true ->
  variables l !! "lora_kernel_a" = Some a ->
  variables l !! "lora_kernel_b" = Some b ->
  load_own_variables store l = (inr tt, l') ->
  variables l' !! "lora_kernel_a"
  = Some (set_v_value (cast (v_dtype a) (Ops.zeros (v_shape a))) a)
  /\ variables l' !! "lora_kernel_b"
     = Some (set_v_value (cast (v_dtype b) (Ops.zeros (v_shape b))) b).
Proof.
  intros Hb He Ha Hbv. unfold load_own_variables. mstep. rewrite He.
  cbn [negb]. do 2 mstep. rewrite Hb. cbn [negb].
  intros (ts & l1 & [-> Hts]%target_variables_inv & H)%run_bind_inv.
  apply run_bind_inv in H as ([] & l2 & Hload & H).
  assert (Hother : forall x, x ∉ base_attributes ->
            variables l2 !! x = variables l !! x).
  { intros x Hx. eapply assign_from_store_other; [exact Hload|].
    intros Hin. by apply Hx, Hts. }
  pose proof lora_kernel_a_not_base as Hna.
  pose proof lora_kernel_b_not_base as Hnb.
  apply run_bind_inv in H as (a' & l3 & [Ha' ->]%run_getattr_inv & H).
  apply run_bind_inv in H as ([] & l4 & HA & H).
  apply run_bind_inv in H as (b' & l5 & [Hb' ->]%run_getattr_inv & H).
  apply run_assign_attr_inv in HA as (va & Hva & HA' & HAo).
  apply run_assign_attr_inv in H as (vb & Hvb & HB' & HBo).
  rewrite Hother in Hva by done.
  rewrite HAo, Hother in Hvb by done.
  rewrite Hother in Ha' by done.
  rewrite HAo, Hother in Hb' by done.
  simplify_eq. split; [|exact HB'].
  rewrite HBo by done. exact HA'.
Qed.

Lemma load_zeroes_lora_factors_witness :
  v_value <$> variables
    (load_own_variables Examples.surplus_store Examples.lora_layer).2
    !! "lora_kernel_a"
  = Some (TF (D2 (replicate 5 (replicate 2 0%Qc)))).
Proof.
  destruct (load_zeroes_lora_factors Examples.lora_layer
    (load_own_variables Examples.surplus_store Examples.lora_layer).2
    Examples.surplus_store
    (Examples.stored "lora_kernel_a" Examples.lora_layer)
    (Examples.stored "lora_kernel_b" Examples.lora_layer)) as [HA _].
  - reflexivity.
  - reflexivity.
  - vm_compute; reflexivity.
  - vm_compute; reflexivity.
  - vm_compute; reflexivity.
  - rewrite HA. reflexivity.
Defined.

(** *** quantize to int4 and float8 *)

Lemma quantize_value_int4 scale x :
  Quantizers.int4 (Quantizers.quantize_value (-8, 7) scale x).
Proof.
  unfold Quantizers.quantize_value, Quantizers.clip, to_int8,
    Quantizers.int4. cbn [fst snd].
  set (z := Quantizers.round_half_even (x * scale)%Qc).
  assert (-8 <= Z.max (-8) (Z.min 7 z) <= 7) by lia.
  rewrite Z.mod_small by lia. lia.
Qed.

Lemma quantize_row_int4 ss row :
  Forall Quantizers.int4
    (zip_with (Quantizers.quantize_value (-8, 7)) ss row).
Proof.
  revert row.
  induction ss as [|s ss IH]; intros [|x row]; cbn; constructor;
    auto using quantize_value_int4.
Qed.

Lemma abs_max_quantize_int4_range inputs kv scales :
  Quantizers.abs_max_quantize inputs Quantizers.Axis0 (-8, 7)
  = (kv, scales) ->
  Forall (Forall Quantizers.int4) kv.
Proof.
  cbn [Quantizers.abs_max_quantize]. intros [= <- _].
  apply Forall_map, Forall_true. intros row. apply quantize_row_int4.
Qed.

Lemma has_shape_pack_rows kv d u :
  has_shape d u kv -> has_shape ((d + 1) `div` 2) u (Quantizers.pack_rows kv).
Proof.
  intros [Hl Hr]. split; [|by apply QuantizersFacts.pack_rows_rect].
  rewrite QuantizersFacts.pack_rows_length, Hl, Nat.div2_div.
  by rewrite Nat.add_1_r.
Qed.

(** [quantize("int4")] on a layer whose kernel is a [d] by [units]
    matrix: the quantized values are stored packed, [d] is retained, and
    unpacking the stored kernel with [d] gives the quantized values
    back. *)
Lemma run_quantize_int4 l k d tc :
  (tc && is_subclass l) = false ->
  variables l !! "_kernel" = Some k ->
  matrix_variable d (units l) k = true ->
  exists l' kv scales,
    quantize "int4" tc l = (inr tt, l')
    /\ Quantizers.abs_max_quantize (float2 (v_value k)) Quantizers.Axis0
         (-8, 7) = (kv, [scales])
    /\ variables l' !! "_kernel"
       = Some {| v_name := "kernel";
                 v_shape := [((d + 1) `div` 2)%nat; units l];
                 v_dtype := Int8; v_trainable := false;
                 v_value := TI (D2 (Quantizers.pack_rows kv)) |}
    /\ variables l' !! "kernel_scale"
       = Some {| v_name := "kernel_scale"; v_shape := [units l];
                 v_dtype := Float32; v_trainable := false;
                 v_value := TF (D1 scales) |}
    /\ _orig_input_dim l' = Some d
    /\ Quantizers.unpack_int4 (Quantizers.pack_rows kv) d = kv
    /\ (forall a, a ≠ "_kernel" -> a ≠ "kernel_scale" ->
          variables l' !! a = variables l !! a)
    /\ quantization_mode l'
       = Some (default "int4" (quantization_mode l))
    /\ inputs_quantizer l' = Some Quantizers.AxisLast
    /\ units l' = units l /\ built l' = built l
    /\ lora_enabled l' = lora_enabled l
    /\ kernel_constraint l' = kernel_constraint l.
Proof.
  intros Htc Hk Hm.
  apply matrix_variable_spec in Hm as (Hs & Hd & Hlen & Hrect).
  destruct (abs_max_quantize_columns_shape (float2 (v_value k)) d (units l)
              (-8, 7) (conj Hlen Hrect) Hd)
    as (kv & scales & Hq & _ & _ & Hsl & Skv).
  pose proof (has_shape_pack_rows kv d (units l) Skv) as Sp.
  assert (Hd2 : (0 < (d + 1) `div` 2)%nat).
  { pose proof (Nat.div_mod_eq (d + 1) 2).
    pose proof (Nat.mod_upper_bound (d + 1) 2). lia. }
  assert (Hround : Quantizers.unpack_int4 (Quantizers.pack_rows kv) d = kv).
  { destruct Skv as [Hkl Hkr]. rewrite <- Hkl.
    apply (QuantizersFacts.unpack_pack_rows_take (units l)); [done|].
    by eapply abs_max_quantize_int4_range. }
  destruct (quantization_mode l) as [m|] eqn:Hmode;
    (eexists _, kv, scales; split;
     [ unfold quantize; mstep; rewrite Htc; mstep;
       rewrite decide_False by done; rewrite decide_True by done;
       rewrite Hq; unfold Quantizers.pack_int4; cbv zeta;
       unfold delattr, quantized_build, _int4_build, add_weight,
         assign_attr;
       rewrite decide_False by done; rewrite decide_True by done;
       rewrite Hs;
       repeat mstep;
       rewrite run_assign
         by (cbn [shape dshape v_shape]; by apply shape_of_matrix);
       repeat mstep;
       rewrite run_assign by (cbn; by rewrite Hsl);
       repeat mstep; proj_simpl; rewrite Hmode; reflexivity
     | split; [exact Hq|]; cbn;
       repeat split; try done; try (by simplify_map_eq);
       intros a H1 H2; by simplify_map_eq ]).
Qed.

(** *** C5 *)

Lemma run_quantize_float8 l k tc :
  (tc && is_subclass l) = false ->
  variables l !! "_kernel" = Some k ->
  exists l', quantize "float8" tc l = (inr tt, l').
Proof.
  intros Htc Hk.
  destruct (quantization_mode l) as [m|] eqn:Hmode;
    (eexists; unfold quantize; mstep; rewrite Htc; mstep;
     do 2 rewrite decide_False by done; rewrite decide_True by done;
     unfold quantized_build, _float8_build, add_weight;
     do 2 rewrite decide_False by done; rewrite decide_True by done;
     cbv zeta; repeat mstep; proj_simpl; rewrite Hmode; reflexivity).
Qed.

Lemma run_quantize_unsupported l k mode tc :
  (tc && is_subclass l) = false ->
  variables l !! "_kernel" = Some k ->
  mode ≠ "int8" -> mode ≠ "int4" -> mode ≠ "float8" ->
  quantize mode tc l = (inl (QuantizationModeError mode), l).
Proof.
  intros Htc Hk H8 H4 Hf. unfold quantize. mstep. rewrite Htc. mstep.
  rewrite !decide_False by done. by erewrite run_bind_err by reflexivity.
Qed.

Lemma run_quantize_subclass l mode tc :
  (tc && is_subclass l) = true ->
  quantize mode tc l = (inl QuantizeNotImplementedError, l).
Proof. intros Htc. unfold quantize. mstep. by rewrite Htc. Qed.

Lemma run_quantize_no_kernel l mode tc :
  (tc && is_subclass l) = false ->
  variables l !! "_kernel" = None ->
  quantize mode tc l = (inl (AttributeError "_kernel"), l).
Proof.
  intros Htc Hk. unfold quantize. mstep. rewrite Htc.
  by erewrite run_bind_err by run_base.
Qed.

Lemma kernel_wf_spec l :
  kernel_wf l = true ->
  (variables l !! "_kernel" = None /\ built l = false)
  \/ exists k d, variables l !! "_kernel" = Some k
       /\ matrix_variable d (units l) k = true
       /\ v_shape k = [d; units l].
Proof.
  unfold kernel_wf. destruct (variables l !! "_kernel") as [k|].
  - intros H. right. exists k, (hd 0%nat (v_shape k)).
    split; [done|]. split; [done|].
    by apply matrix_variable_spec in H as [? _].
  - intros H%negb_true_iff. by left.
Qed.

(** C5. On a layer whose stored kernel is well formed, a call of
    [quantize] or of [enable_lora] that raises leaves the layer exactly
    as it was: every error of the two methods is raised before their first
    assignment, and once [quantize] has deleted the old kernel nothing in
    it can fail any more. *)
Theorem failing_quantize_or_enable_lora_leaves_layer_unchanged
    (l l' : Dense) (e : exn) :
  kernel_wf l = true ->
  (exists mode type_check, quantize mode type_check l = (inl e, l'))
  \/ (exists rank alpha a_init b_init,
        enable_lora rank alpha a_init b_init l = (inl e, l')) ->
  l' = l.
Proof.
  intros Hwf%kernel_wf_spec [(mode & tc & H)|(rank & alpha & ai & bi & H)].
  - destruct (tc && is_subclass l) eqn:Htc.
    { rewrite run_quantize_subclass in H by done. by simplify_eq. }
    destruct Hwf as [[Hk _]|(k & d & Hk & Hm & _)].
    { rewrite run_quantize_no_kernel in H by done. by simplify_eq. }
    destruct (decide (mode = "int8")) as [->|H8].
    { destruct (run_quantize_int8 l k d tc Htc Hk Hm)
        as (l1 & ? & ? & Hrun & _). congruence. }
    destruct (decide (mode = "int4")) as [->|H4].
    { destruct (run_quantize_int4 l k d tc Htc Hk Hm)
        as (l1 & ? & ? & Hrun & _). congruence. }
    destruct (decide (mode = "float8")) as [->|Hf].
    { destruct (run_quantize_float8 l k tc Htc Hk) as (l1 & Hrun).
      congruence. }
    rewrite (run_quantize_unsupported l k mode tc) in H by done.
    by simplify_eq.
  - destruct (kernel_constraint l) as [c|] eqn:Hc.
    { rewrite run_enable_lora_constraint in H by (by rewrite Hc).
      by simplify_eq. }
    destruct (built l) eqn:Hb.
    2: { rewrite run_enable_lora_not_built in H by done. by simplify_eq. }
    destruct (lora_enabled l) eqn:He.
    { rewrite run_enable_lora_twice in H by done. by simplify_eq. }
    destruct Hwf as [[_ ?]|(k & d & Hk & _ & Hs)]; [congruence|].
    destruct (run_enable_lora l k d (units l) rank alpha ai bi Hc Hb He Hk Hs)
      as (l1 & Hrun & _). congruence.
Qed.

Lemma failing_quantize_or_enable_lora_leaves_layer_unchanged_witness :
  (quantize "int2" true Examples.built_layer).2 = Examples.built_layer
  /\ (enable_lora 2 None Examples.he_uniform Zeros Examples.lora_layer).2
     = Examples.lora_layer.
Proof.
  split.
  - apply (failing_quantize_or_enable_lora_leaves_layer_unchanged
             Examples.built_layer _ (QuantizationModeError "int2")).
    + vm_compute; reflexivity.
    + left. exists "int2", true. vm_compute; reflexivity.
  - apply (failing_quantize_or_enable_lora_leaves_layer_unchanged
             Examples.lora_layer _ LoraAlreadyEnabledError).
    + vm_compute; reflexivity.
    + right. exists 2%nat, None, Examples.he_uniform, Zeros.
      vm_compute; reflexivity.
Defined.

(** C5 does not hold of [load_own_variables]: with LoRA enabled and a
    store that lacks the bias, the kernel has been overwritten by the time
    the missing key raises. *)
Lemma load_own_variables_is_not_atomic :
  (load_own_variables Examples.short_store Examples.lora_layer).1
  = inl (KeyError "1")
  /\ (load_own_variables Examples.short_store Examples.lora_layer).2
     ≠ Examples.lora_layer.
Proof.
  split; [vm_compute; reflexivity|]. intros H.
  apply (f_equal (fun l =>
    (fun v => Qden (this (get 0%Qc (float2 (v_value v)) 0 0)))
      <$> variables l !! "_kernel")) in H.
  vm_compute in H. discriminate.
Qed.

(** Nor of [build]: with a kernel constraint and a LoRA rank configured,
    [build] raises from [enable_lora] after the weights have been created
    and the layer marked as built. *)
Lemma build_is_not_atomic :
  build Examples.he_uniform [3; 5]%nat Examples.constrained_lora_fresh
  = (inl LoraKernelConstraintError,
     (build Examples.he_uniform [3; 5]%nat
        Examples.constrained_lora_fresh).2)
  /\ built Examples.constrained_lora_fresh = false
  /\ built (build Examples.he_uniform [3; 5]%nat
              Examples.constrained_lora_fresh).2 = true.
Proof. vm_compute. repeat split; reflexivity. Qed.

(** *** Reaching the well-formed states *)

Lemma matrix_variable_packed kv d u nm tr :
  has_shape d u kv -> (0 < d)%nat ->
  matrix_variable ((d + 1) `div` 2) u
    {| v_name := nm; v_shape := [((d + 1) `div` 2)%nat; u];
       v_dtype := Int8; v_trainable := tr;
       v_value := TI (D2 (Quantizers.pack_rows kv)) |} = true.
Proof.
  intros Skv Hd. pose proof (has_shape_pack_rows kv d u Skv) as Sp.
  assert (Hd2 : (0 < (d + 1) `div` 2)%nat).
  { pose proof (Nat.div_mod_eq (d + 1) 2).
    pose proof (Nat.mod_upper_bound (d + 1) 2). lia. }
  apply matrix_variable_intro; cbn; try done.
  - by apply shape_of_matrix.
  - by destruct (has_shape_map Qc_of_Z _ _ _ Sp).
Qed.

(** [quantize("int4")] of a built full-precision layer without LoRA
    leaves a layer in the state [int4_quantized]. *)
Lemma quantize_int4_establishes_invariant l k d tc :
  (tc && is_subclass l) = false ->
  built l = true -> lora_enabled l = false -> kernel_constraint l = None ->
  quantization_mode l = None ->
  variables l !! "_kernel" = Some k ->
  matrix_variable d (units l) k = true ->
  optional_vector (units l) (variables l !! "bias") = true ->
  exists l', quantize "int4" tc l = (inr tt, l')
             /\ int4_quantized d l' = true.
Proof.
  intros Htc Hb He Hc Hmode Hk Hm Hbias.
  destruct (run_quantize_int4 l k d tc Htc Hk Hm)
    as (l' & kv & scales & Hrun & Hq & Hk' & Hs' & Ho' & _ & Hother & Hm'
        & Hiq' & Hu' & Hb' & He' & Hc').
  apply matrix_variable_spec in Hm as (Hs & Hd & Hlen & Hrect).
  destruct (abs_max_quantize_columns_shape (float2 (v_value k)) d (units l)
              (-8, 7) (conj Hlen Hrect) Hd)
    as (kv0 & scales0 & Hq0 & _ & _ & Hsl & Skv).
  rewrite Hq in Hq0. simplify_eq.
  exists l'. split; [exact Hrun|]. unfold int4_quantized.
  rewrite Hb', Hb, He', He, Hc', Hc, Hm', Hmode, Ho', Hiq', Hk', Hs', Hu'.
  rewrite Hother by done. rewrite Hbias.
  rewrite matrix_variable_packed by done.
  unfold vector_variable. cbn. rewrite Hsl.
  by rewrite !bool_decide_eq_true_2.
Qed.

(** [build] of a layer without quantization policy and without LoRA rank
    on inputs with [d] features: kernel and bias are created with the
    shapes [(d, units)] and [(units,)] and the layer is built. *)
Lemma run_build l he input_shape d :
  quantization_mode l = None -> lora_rank l = None ->
  last input_shape = Some d -> (0 < d)%nat ->
  exists l' k,
    build he input_shape l = (inr tt, l')
    /\ built l' = true
    /\ variables l' !! "_kernel" = Some k
    /\ matrix_variable d (units l) k = true
    /\ optional_vector (units l) (variables l' !! "bias") = true
    /\ units l' = units l /\ lora_enabled l' = lora_enabled l
    /\ kernel_constraint l' = kernel_constraint l
    /\ quantization_mode l' = None
    /\ is_subclass l' = is_subclass l
    /\ kernel_wf l' = true.
Proof.
  intros Hmode Hrank Hlast Hd.
  assert (Hmv : matrix_variable d (units l)
            {| v_name := "kernel"; v_shape := [d; units l];
               v_dtype := Float32; v_trainable := true;
               v_value := initial_value (kernel_initializer l) Float32
                            [d; units l] |} = true).
  { pose proof (has_shape_initial_value (kernel_initializer l) d (units l))
      as Hsh.
    apply matrix_variable_intro; cbn [v_shape v_value]; try done;
      [|by destruct Hsh].
    destruct (kernel_initializer l); cbn;
      rewrite ?replicate_tabulate;
      by rewrite (shape_of_matrix d (units l)) by
        (done || apply has_shape_tabulate). }
  assert (Hbv : vector_variable (units l)
            {| v_name := "bias"; v_shape := [units l];
               v_dtype := Float32; v_trainable := true;
               v_value := initial_value (bias_initializer l) Float32
                            [units l] |} = true).
  { unfold vector_variable. cbn [v_shape v_value].
    rewrite !bool_decide_eq_true_2; [done| |done].
    destruct (bias_initializer l); cbn;
      by rewrite ?length_replicate, ?length_map, ?length_seq. }
  destruct (use_bias l) eqn:Hub;
    (eexists _, _; split;
     [ unfold build; rewrite Hlast; repeat mstep; proj_simpl;
       rewrite Hmode; unfold add_weight;
       repeat mstep; proj_simpl; rewrite Hub; repeat mstep; proj_simpl;
       rewrite Hrank; reflexivity
     | unfold kernel_wf; cbn; simplify_map_eq;
       repeat split; try done ]).
Qed.

(** *** The kernel stays well formed *)

Lemma kernel_wf_has_kernel l :
  kernel_wf l = true -> built l = true -> has_kernel l = true.
Proof.
  intros [[_ ?]|(k & d & Hk & _ & Hs)]%kernel_wf_spec Hb; [congruence|].
  unfold has_kernel. by rewrite Hk, Hs.
Qed.

Lemma matrix_variable_hd d u k :
  matrix_variable d u k = true ->
  matrix_variable (hd 0%nat (v_shape k)) u k = true.
Proof.
  intros H. pose proof H as (Hs & _)%matrix_variable_spec. by rewrite Hs.
Qed.

Lemma matrix_variable_set_trainable d u k b :
  matrix_variable d u (set_v_trainable b k) = matrix_variable d u k.
Proof. reflexivity. Qed.

Lemma enable_lora_preserves_kernel_wf l l' rank alpha a_init b_init :
  kernel_wf l = true ->
  enable_lora rank alpha a_init b_init l = (inr tt, l') ->
  kernel_wf l' = true.
Proof.
  intros Hwf Hrun.
  destruct (kernel_constraint l) as [c|] eqn:Hc.
  { rewrite run_enable_lora_constraint in Hrun by (by rewrite Hc). done. }
  destruct (built l) eqn:Hb.
  2: { rewrite run_enable_lora_not_built in Hrun by done. done. }
  destruct (lora_enabled l) eqn:He.
  { rewrite run_enable_lora_twice in Hrun by done. done. }
  apply kernel_wf_spec in Hwf as [[_ ?]|(k & d & Hk & Hm & Hs)];
    [congruence|].
  destruct (run_enable_lora l k d (units l) rank alpha a_init b_init
              Hc Hb He Hk Hs)
    as (l1 & Hrun1 & _ & _ & _ & Hk1 & _ & _ & _ & _ & _ & _ & Hu1 & _).
  rewrite Hrun1 in Hrun. simplify_eq.
  unfold kernel_wf. rewrite Hk1, Hu1. cbn [v_shape set_v_trainable].
  rewrite matrix_variable_set_trainable. by eapply matrix_variable_hd.
Qed.

Lemma quantize_preserves_kernel_wf l l' mode tc :
  kernel_wf l = true ->
  quantize mode tc l = (inr tt, l') ->
  kernel_wf l' = true.
Proof.
  intros Hwf Hrun.
  destruct (tc && is_subclass l) eqn:Htc.
  { rewrite run_quantize_subclass in Hrun by done. done. }
  apply kernel_wf_spec in Hwf as [[Hk _]|(k & d & Hk & Hm & Hs)].
  { rewrite run_quantize_no_kernel in Hrun by done. done. }
  pose proof Hm as (_ & Hd & Hlen & Hrect)%matrix_variable_spec.
  destruct (decide (mode = "int8")) as [->|H8].
  { destruct (run_quantize_int8 l k d tc Htc Hk Hm)
      as (l1 & kv & scales & Hrun1 & Hq & Hk1 & _ & _ & _ & _ & Hu1 & _).
    rewrite Hrun1 in Hrun. simplify_eq.
    destruct (abs_max_quantize_columns_shape (float2 (v_value k)) _
                (units l) Quantizers.default_value_range
                (conj eq_refl Hrect) Hd)
      as (kv0 & scales0 & Hq0 & _ & _ & _ & Skv).
    rewrite Hq in Hq0. simplify_eq.
    unfold kernel_wf. rewrite Hk1, Hu1. cbn [v_shape hd].
    apply matrix_variable_intro; cbn; try done.
    - by apply shape_of_matrix.
    - by destruct (has_shape_map Qc_of_Z _ _ _ Skv). }
  destruct (decide (mode = "int4")) as [->|H4].
  { destruct (run_quantize_int4 l k d tc Htc Hk Hm)
      as (l1 & kv & scales & Hrun1 & Hq & Hk1 & _ & _ & _ & _ & _ & _
          & Hu1 & _).
    rewrite Hrun1 in Hrun. simplify_eq.
    destruct (abs_max_quantize_columns_shape (float2 (v_value k)) _
                (units l) (-8, 7) (conj eq_refl Hrect) Hd)
      as (kv0 & scales0 & Hq0 & _ & _ & _ & Skv).
    rewrite Hq in Hq0. simplify_eq.
    unfold kernel_wf. rewrite Hk1, Hu1. cbn [v_shape hd].
    by apply matrix_variable_packed. }
  destruct (decide (mode = "float8")) as [->|Hf].
  2: { rewrite (run_quantize_unsupported l k mode tc) in Hrun by done.
       done. }
  revert Hrun. unfold quantize. mstep. rewrite Htc. mstep.
  do 2 rewrite decide_False by done. rewrite decide_True by done.
  unfold quantized_build, _float8_build, add_weight.
  do 2 rewrite decide_False by done. rewrite decide_True by done.
  cbv zeta. repeat mstep. proj_simpl.
  destruct (quantization_mode_of (dtype_policy l));
    intros Hrun; run_inv Hrun; unfold kernel_wf; cbn;
    simplify_map_eq; by eapply matrix_variable_hd.
Qed.

(** *** The int8 forward pass returns *)

Lemma run_add_lora_disabled l inputs x :
  lora_enabled l = false -> add_lora inputs x l = (inr x, l).
Proof. intros He. unfold add_lora. mstep. by rewrite He. Qed.

Lemma matmul_quantized_int8 inputs_q k n d u :
  int8_matrix_variable d u k = true ->
  has_shape n d inputs_q -> (0 < n)%nat ->
  exists x, matmul_quantized inputs_q (v_value k) = Some x
            /\ has_shape n u x.
Proof.
  intros Hk Si Hn. pose proof Hk as (Hd & Sk & _)%int8_matrix_variable_spec.
  unfold int8_matrix_variable in Hk.
  apply andb_true_iff in Hk as [_ Hdt%bool_decide_eq_true].
  destruct (v_value k) as [dk|dk]; [|done]. cbn [matmul_quantized].
  cbn [int2] in Sk.
  destruct (matmul_has_shape 0 Z.add Z.mul n d u inputs_q (lift2 dk))
    as (x & Hx & Sx); try done.
  exists (Ops.cast_float x). unfold Ops.matmulZ. rewrite Hx.
  split; [done|]. by apply has_shape_map.
Qed.

(** On a layer holding an int8 kernel of shape [(d, units)] with its
    scales and the input quantizer, without LoRA, [_int8_call] on a batch
    of shape [(n, d)] returns an output of shape [(n, units)] and leaves
    the layer as it was. *)
Lemma run_int8_call l k s inputs n d :
  variables l !! "_kernel" = Some k ->
  variables l !! "kernel_scale" = Some s ->
  int8_matrix_variable d (units l) k = true ->
  vector_variable (units l) s = true ->
  optional_vector (units l) (variables l !! "bias") = true ->
  inputs_quantizer l = Some Quantizers.AxisLast ->
  lora_enabled l = false ->
  has_shape n d inputs -> (0 < n)%nat ->
  exists y,
    _int8_call inputs l
    = (inr (y, int8_grad_fn (v_value k) (v_value s)), l)
    /\ shape2 y = (n, units l).
Proof.
  intros Hk Hs Hkm Hsv Hbias Hq He Si Hn.
  pose proof Hsv as [_ Ss]%vector_variable_spec.
  destruct (abs_max_quantize_rows_shape inputs n d
              Quantizers.default_value_range Si) as [Sq Sc].
  destruct (Quantizers.abs_max_quantize inputs Quantizers.AxisLast
              Quantizers.default_value_range)
    as [inputs_q inputs_scale] eqn:Hquant.
  cbn [fst snd] in Sq, Sc.
  destruct (matmul_quantized_int8 inputs_q k n d (units l) Hkm Sq Hn)
    as (x1 & Hx1 & S1).
  destruct (ewise_has_shape 0%Qc Qcmult n 1 1 (units l) n (units l)
              inputs_scale (float2 (v_value s)))
    as (den & Hden & Sden); auto using bdim_one_r, bdim_one_l with lia.
  destruct (ewise_has_shape 0%Qc Qcdiv n (units l) n (units l) n (units l)
              x1 den)
    as (x2 & Hx2 & S2); auto using bdim_same.
  destruct (run_add_bias_and_activate l x2 n Hbias S2 Hn) as (y & Hy & Sy).
  exists y. split; [|by apply has_shape_shape2].
  unfold _int8_call, int8_matmul_with_inputs_gradient, quantize_inputs.
  do 5 mstep. rewrite Hq. repeat mstep. rewrite Hquant. repeat mstep.
  erewrite run_bind_ok by (by apply run_add_lora_disabled). cbv beta.
  erewrite run_bind_ok by exact Hy. reflexivity.
Qed.

(** *** Entries of results *)

Lemma get_ewise_row (f : Qc -> Qc -> Qc) (x b y : matrix) n u i j :
  has_shape n u x -> has_shape 1 u b -> (0 < n)%nat ->
  ewise 0%Qc f x b = Some y -> (i < n)%nat -> (j < u)%nat ->
  get 0%Qc y i j = f (get 0%Qc x i j) (get 0%Qc b 0 j).
Proof.
  intros Sx Sb Hn Hy Hi Hj. unfold ewise in Hy.
  rewrite (has_shape_ncols n u x Sx Hn) in Hy.
  rewrite (has_shape_ncols 1 u b Sb) in Hy by lia.
  destruct Sx as [Lx _], Sb as [Lb _]. rewrite Lx, Lb in Hy.
  rewrite bdim_one_r, bdim_same in Hy. cbn in Hy. simplify_eq.
  rewrite get_tabulate by done.
  rewrite !bidx_lt by done. reflexivity.
Qed.

Lemma get_matmul (a b y : matrix) n d u i j :
  has_shape n d a -> has_shape d u b -> (0 < n)%nat -> (0 < d)%nat ->
  Ops.matmulQ a b = Some y -> (i < n)%nat -> (j < u)%nat ->
  get 0%Qc y i j = dot d a b i j.
Proof.
  intros Sa Sb Hn Hd Hy Hi Hj. unfold Ops.matmulQ, matmul in Hy.
  rewrite (has_shape_ncols n d a Sa Hn), (has_shape_ncols d u b Sb Hd) in Hy.
  destruct Sa as [La _], Sb as [Lb _]. rewrite La, Lb, Nat.eqb_refl in Hy.
  simplify_eq. by rewrite get_tabulate.
Qed.

Lemma get_map_map (f : Qc -> Qc) (m : matrix) n u i j :
  has_shape n u m -> (i < n)%nat -> (j < u)%nat ->
  get 0%Qc (map (map f) m) i j = f (get 0%Qc m i j).
Proof.
  intros Sm Hi Hj. pose proof (has_shape_row n u m i Sm Hi) as Hrow.
  destruct Sm as [Lm _]. unfold get.
  rewrite (nth_map_lt (map f) m i [] []) by lia.
  by rewrite (nth_map_lt f _ j 0%Qc 0%Qc) by lia.
Qed.

Lemma forward_ready_spec d l :
  forward_ready d l = true ->
  built l = true /\ lora_enabled l = false
  /\ (exists k, variables l !! "_kernel" = Some k
        /\ matrix_variable d (units l) k = true)
  /\ optional_vector (units l) (variables l !! "bias") = true.
Proof.
  unfold forward_ready. rewrite !andb_true_iff, negb_true_iff.
  intros [[[Hb He] Hk] Hbias]. repeat split; try done.
  destruct (variables l !! "_kernel") as [k|]; [eauto|done].
Qed.

(** The output of the common tail of the forward passes, entry by
    entry. *)
Lemma run_add_bias_and_activate_entries l x n :
  optional_vector (units l) (variables l !! "bias") = true ->
  has_shape n (units l) x -> (0 < n)%nat ->
  exists y, add_bias_and_activate x l = (inr y, l)
    /\ has_shape n (units l) y
    /\ forall i j, (i < n)%nat -> (j < units l)%nat ->
         get 0%Qc y i j = activate l (get 0%Qc x i j + bias_entry l j)%Qc.
Proof.
  intros Hbias Sx Hn. unfold add_bias_and_activate, activate, bias_entry.
  mstep.
  destruct (variables l !! "bias") as [b|] eqn:Hb.
  - cbn in Hbias. apply vector_variable_spec in Hbias as [_ Sb].
    destruct (ewise_has_shape 0%Qc Qcplus n (units l) 1 (units l)
                n (units l) x (float2 (v_value b)))
      as (y & Hy & Sy); auto using bdim_one_r, bdim_same with lia.
    do 2 mstep.
    pose proof (fun i j => get_ewise_row Qcplus x _ y n (units l) i j
                             Sx Sb Hn Hy) as Hget.
    destruct (activation l) as [f|]; eexists; (split; [reflexivity|]).
    + split; [by apply has_shape_map|]. intros i j Hi Hj.
      rewrite (get_map_map f y n (units l)) by done. by rewrite Hget.
    + split; [done|]. intros i j Hi Hj. by apply Hget.
  - do 2 mstep.
    destruct (activation l) as [f|]; eexists; (split; [reflexivity|]).
    + split; [by apply has_shape_map|]. intros i j Hi Hj.
      rewrite (get_map_map f x n (units l)) by done.
      by rewrite Qcplus_0_r.
    + split; [done|]. intros i j Hi Hj. by rewrite Qcplus_0_r.
Qed.

(** *** The full-precision forward pass *)

(** X1. [call] on a batch of shape [(n, d)] returns
    [activation(inputs @ kernel + bias)]: the output has shape
    [(n, units)], its entry [(i, j)] is the activation of the dot
    product of row [i] of the inputs with column [j] of the kernel plus
    entry [j] of the bias, and the layer is left as it was. *)
Theorem call_is_activation_of_affine_map
    (l : Dense) (k : KerasVariable) (d n : nat) (inputs : matrix) :
  forward_ready d l = true ->
  variables l !! "_kernel" = Some k ->
  has_shape n d inputs -> (0 < n)%nat ->
  exists y,
    call inputs l = (inr y, l)
    /\ has_shape n (units l) y
    /\ forall i j, (i < n)%nat -> (j < units l)%nat ->
         get 0%Qc y i j
         = activate l
             (dot d inputs (float2 (v_value k)) i j + bias_entry l j)%Qc.
Proof.
  intros (Hb & He & (k' & Hk' & Hm) & Hbias)%forward_ready_spec Hk Si Hn.
  rewrite Hk in Hk'. simplify_eq.
  apply matrix_variable_spec in Hm as (Hs & Hd & Hlen & Hrect).
  destruct (matmul_has_shape 0%Qc Qcplus Qcmult n d (units l) inputs
              (float2 (v_value k'))) as (x & Hx & Sx); try done.
  destruct (run_add_bias_and_activate_entries l x n Hbias Sx Hn)
    as (y & Hy & Sy & Hget).
  exists y. split; [|split; [done|]].
  - unfold call. erewrite run_bind_ok by (by apply run_kernel_var).
    cbn [kernel_tensor]. mstep. exact Hy.
  - intros i j Hi Hj. rewrite Hget by done. f_equal. f_equal.
    by apply (get_matmul inputs (float2 (v_value k')) x n d (units l)).
Qed.

Lemma call_is_activation_of_affine_map_witness :
  exists y,
    call Examples.batch Examples.built_layer
    = (inr y, Examples.built_layer)
    /\ has_shape 3 (units Examples.built_layer) y
    /\ forall i j, (i < 3)%nat -> (j < units Examples.built_layer)%nat ->
         get 0%Qc y i j
         = activate Examples.built_layer
             (dot 5 Examples.batch
                (float2 (v_value (Examples.stored "_kernel"
                                    Examples.built_layer))) i j
              + bias_entry Examples.built_layer j)%Qc.
Proof.
  apply (call_is_activation_of_affine_map Examples.built_layer
           (Examples.stored "_kernel" Examples.built_layer) 5 3
           Examples.batch).
  - vm_compute. reflexivity.
  - vm_compute. reflexivity.
  - split; [reflexivity|]. apply rectb_spec. reflexivity.
  - lia.
Defined.

Lemma run_call_shape l k d n inputs :
  forward_ready d l = true ->
  variables l !! "_kernel" = Some k ->
  has_shape n d inputs -> (0 < n)%nat ->
  exists x y,
    Ops.matmulQ inputs (float2 (v_value k)) = Some x
    /\ add_bias_and_activate x l = (inr y, l)
    /\ call inputs l = (inr y, l)
    /\ has_shape n (units l) y.
Proof.
  intros (Hb & He & (k' & Hk' & Hm) & Hbias)%forward_ready_spec Hk Si Hn.
  rewrite Hk in Hk'. simplify_eq.
  apply matrix_variable_spec in Hm as (Hs & Hd & Hlen & Hrect).
  destruct (matmul_has_shape 0%Qc Qcplus Qcmult n d (units l) inputs
              (float2 (v_value k'))) as (x & Hx & Sx); try done.
  destruct (run_add_bias_and_activate l x n Hbias Sx Hn) as (y & Hy & Sy).
  exists x, y. split; [done|]. split; [done|]. split; [|done].
  unfold call. erewrite run_bind_ok by (by apply run_kernel_var).
  cbn [kernel_tensor]. mstep. exact Hy.
Qed.

(** The tail of the forward passes reads the bias and the activation
    only. *)
Lemma add_bias_and_activate_ext l l' x r :
  variables l' !! "bias" = variables l !! "bias" ->
  activation l' = activation l ->
  add_bias_and_activate x l = (r, l) ->
  add_bias_and_activate x l' = (r, l').
Proof.
  intros Hb Ha. cbv [add_bias_and_activate mbind M_bind gets].
  rewrite Hb.
  destruct (variables l !! "bias") as [b|].
  - unfold op, lift_opt.
    destruct (Ops.addQ _ _); cbv [raise mret M_ret]; rewrite ?Ha;
      intros H; by simplify_eq.
  - cbv [mret M_ret]. rewrite Ha. intros H; by simplify_eq.
Qed.

(** X2. [compute_output_shape] keeps the leading dimensions and puts
    [units] in place of the last one; on the empty shape it raises
    [IndexError]. The layer is not touched. *)
Theorem compute_output_shape_replaces_last_dimension (l : Dense) :
  compute_output_shape [] l = (inl IndexError, l)
  /\ forall (batch_dims : list nat) (input_dim : nat),
       compute_output_shape (batch_dims ++ [input_dim]) l
       = (inr (batch_dims ++ [units l]), l).
Proof.
  split; [reflexivity|]. intros s x. unfold compute_output_shape. mstep.
  destruct (s ++ [x]) as [|y r] eqn:E.
  { by destruct s. }
  rewrite <- E. rewrite length_app. cbn [length].
  replace (pred (length s + 1)) with (length s + 0)%nat by lia.
  by rewrite insert_app_r.
Qed.

(** X3. The shape of the output of [call] on a batch of shape [(n, d)]
    is the shape [compute_output_shape] announces for it. *)
Theorem call_output_has_computed_shape
    (l : Dense) (d n : nat) (inputs : matrix) :
  forward_ready d l = true -> has_shape n d inputs -> (0 < n)%nat ->
  exists y,
    call inputs l = (inr y, l)
    /\ compute_output_shape [length inputs; ncols inputs] l
       = (inr [length y; ncols y], l).
Proof.
  intros Hl Si Hn.
  pose proof Hl as (_ & _ & (k & Hk & Hm) & _)%forward_ready_spec.
  destruct (run_call_shape l k d n inputs Hl Hk Si Hn)
    as (x & y & _ & _ & Hy & Sy).
  exists y. split; [exact Hy|].
  rewrite (shape_of_matrix n (units l) y Sy Hn).
  destruct Si as [-> _]. reflexivity.
Qed.

Lemma call_output_has_computed_shape_witness :
  exists y,
    call Examples.batch Examples.built_layer
    = (inr y, Examples.built_layer)
    /\ compute_output_shape
         [length Examples.batch; ncols Examples.batch]
         Examples.built_layer
       = (inr [length y; ncols y], Examples.built_layer).
Proof.
  apply (call_output_has_computed_shape Examples.built_layer 5 3
           Examples.batch).
  - vm_compute. reflexivity.
  - split; [reflexivity|]. apply rectb_spec. reflexivity.
  - lia.
Defined.

(** X4. Enabling LoRA with the default all-zero factor B does not change
    what the layer computes: [call] returns the same output on the layer
    [enable_lora] leaves behind as on the layer before. *)
Theorem enable_lora_keeps_call_output
    (l : Dense) (d rank n : nat) (alpha : option Qc)
    (a_init : Initializer) (inputs : matrix) :
  forward_ready d l = true -> kernel_constraint l = None ->
  quantization_mode l = None -> rank ≠ 0%nat ->
  has_shape n d inputs -> (0 < n)%nat ->
  exists l' y,
    enable_lora rank alpha a_init Zeros l = (inr tt, l')
    /\ lora_enabled l' = true
    /\ call inputs l = (inr y, l)
    /\ call inputs l' = (inr y, l').
Proof.
  intros Hl Hc Hmode Hrank Si Hn.
  pose proof Hl as (Hb & He & (k & Hk & Hm) & Hbias)%forward_ready_spec.
  destruct (run_call_shape l k d n inputs Hl Hk Si Hn)
    as (x & y & Hx & Htail & Hy & _).
  destruct (kernel_after_enable_lora l k d (units l) rank alpha a_init
              Hc Hb He Hk Hm) as (l' & Hrun & Hker); [by rewrite Hmode|done|].
  pose proof Hm as (Hs & _)%matrix_variable_spec.
  destruct (run_enable_lora l k d (units l) rank alpha a_init Zeros
              Hc Hb He Hk Hs)
    as (l1 & Hrun1 & Hen & _ & _ & _ & _ & _ & Hother & _ & _ & _ & _
        & Hact & _).
  rewrite Hrun in Hrun1. simplify_eq.
  exists l1, y. split; [done|]. split; [done|]. split; [done|].
  unfold call. erewrite run_bind_ok by exact Hker.
  cbn [kernel_tensor float2 lift2]. mstep.
  apply (add_bias_and_activate_ext l); [by apply Hother|done|done].
Qed.

Lemma enable_lora_keeps_call_output_witness :
  exists l' y,
    enable_lora 2 None Examples.he_uniform Zeros Examples.built_layer
    = (inr tt, l')
    /\ lora_enabled l' = true
    /\ call Examples.batch Examples.built_layer
       = (inr y, Examples.built_layer)
    /\ call Examples.batch l' = (inr y, l').
Proof.
  apply (enable_lora_keeps_call_output Examples.built_layer 5 2 3 None
           Examples.he_uniform Examples.batch).
  - vm_compute. reflexivity.
  - reflexivity.
  - reflexivity.
  - lia.
  - split; [reflexivity|]. apply rectb_spec. reflexivity.
  - lia.
Defined.

(** X5. No forward pass assigns to the layer: the [kernel] property,
    [call], [compute_output_shape], the int8 and int4 forward passes and
    the backward functions they register leave every attribute as it was,
    whether they return or raise. *)
Theorem forward_passes_leave_layer_unchanged :
  readonly kernel
  /\ (forall inputs, readonly (call inputs))
  /\ (forall input_shape, readonly (compute_output_shape input_shape))
  /\ (forall inputs, readonly (_int8_call inputs))
  /\ (forall inputs, readonly (_int4_call inputs))
  /\ (forall kernel kernel_scale upstream,
        readonly (int8_grad_fn kernel kernel_scale upstream))
  /\ (forall unpacked_kernel kernel_scale upstream,
        readonly (int4_grad_fn unpacked_kernel kernel_scale upstream)).
Proof.
  assert (Hs : readonly lora_scaling).
  { unfold lora_scaling. repeat readonly_step. }
  assert (Hk : readonly kernel).
  { unfold kernel. repeat (readonly_step || apply Hs). }
  assert (Ht : forall x, readonly (add_bias_and_activate x)).
  { intros x. unfold add_bias_and_activate. repeat readonly_step. }
  assert (Hl : forall i x, readonly (add_lora i x)).
  { intros i x. unfold add_lora. repeat (readonly_step || apply Hs). }
  assert (Hq : forall i, readonly (quantize_inputs i)).
  { intros i. unfold quantize_inputs. repeat readonly_step. }
  split; [exact Hk|]. split.
  { intros x. unfold call. repeat (readonly_step || apply Hk || apply Ht). }
  split.
  { intros s. unfold compute_output_shape.
    apply readonly_bind; [apply readonly_gets|]. intros u.
    destruct s; [apply readonly_raise|apply readonly_ret]. }
  split.
  { intros x. unfold _int8_call, int8_matmul_with_inputs_gradient.
    repeat (readonly_step || apply Ht || apply Hl || apply Hq). }
  split.
  { intros x. unfold _int4_call, int4_matmul_with_inputs_gradient.
    repeat (readonly_step || apply Ht || apply Hl || apply Hq). }
  split.
  - intros k s u. unfold int8_grad_fn. repeat readonly_step.
  - intros k s u. unfold int4_grad_fn. repeat readonly_step.
Qed.

Lemma run_lora_scaling_zero l a :
  lora_alpha l = Some a -> lora_rank l = Some 0%nat ->
  lora_scaling l = (inl ZeroDivisionError, l).
Proof.
  intros Ha Hr. unfold lora_scaling. do 2 mstep. by rewrite Ha, Hr.
Qed.

(** X6. [enable_lora] does not reject rank 0: the call succeeds, and from
    then on reading the [kernel] property, hence [call], raises
    [ZeroDivisionError] from [lora_alpha / lora_rank]. *)
Theorem enable_lora_accepts_rank_zero
    (l : Dense) (d : nat) (alpha : option Qc)
    (a_init b_init : Initializer) :
  forward_ready d l = true -> kernel_constraint l = None ->
  exists l',
    enable_lora 0 alpha a_init b_init l = (inr tt, l')
    /\ lora_rank l' = Some 0%nat
    /\ kernel l' = (inl ZeroDivisionError, l')
    /\ forall inputs, call inputs l' = (inl ZeroDivisionError, l').
Proof.
  intros (Hb & He & (k & Hk & Hm) & Hbias)%forward_ready_spec Hc.
  pose proof Hm as (Hs & _)%matrix_variable_spec.
  destruct (run_enable_lora l k d (units l) 0 alpha a_init b_init
              Hc Hb He Hk Hs)
    as (l' & Hrun & Hen & Hr & Ha & Hk' & _ & _ & _ & _ & _ & _ & _ & _
        & _ & Hb').
  assert (Hker : kernel l' = (inl ZeroDivisionError, l')).
  { unfold kernel. mstep. rewrite Hb'. cbn [negb]. mstep. rewrite Hen.
    mstep.
    by erewrite run_bind_err by (by eapply run_lora_scaling_zero). }
  exists l'. split; [done|]. split; [done|]. split; [done|].
  intros inputs. unfold call. by erewrite run_bind_err by exact Hker.
Qed.

Lemma enable_lora_accepts_rank_zero_witness :
  exists l',
    enable_lora 0 None Examples.he_uniform Zeros Examples.built_layer
    = (inr tt, l')
    /\ lora_rank l' = Some 0%nat
    /\ kernel l' = (inl ZeroDivisionError, l')
    /\ forall inputs, call inputs l' = (inl ZeroDivisionError, l').
Proof.
  apply (enable_lora_accepts_rank_zero Examples.built_layer 5 None
           Examples.he_uniform Zeros).
  - vm_compute. reflexivity.
  - reflexivity.
Defined.

Lemma get_ewise_same (f : Qc -> Qc -> Qc) (x b y : matrix) n u i j :
  has_shape n u x -> has_shape n u b -> (0 < n)%nat ->
  ewise 0%Qc f x b = Some y -> (i < n)%nat -> (j < u)%nat ->
  get 0%Qc y i j = f (get 0%Qc x i j) (get 0%Qc b i j).
Proof.
  intros Sx Sb Hn Hy Hi Hj. unfold ewise in Hy.
  rewrite (has_shape_ncols n u x Sx Hn) in Hy.
  rewrite (has_shape_ncols n u b Sb Hn) in Hy.
  destruct Sx as [Lx _], Sb as [Lb _]. rewrite Lx, Lb in Hy.
  rewrite !bdim_same in Hy. cbn in Hy. simplify_eq.
  rewrite get_tabulate by done.
  rewrite !bidx_lt by done. reflexivity.
Qed.

Lemma lora_ready_spec d rank l :
  lora_ready d rank l = true ->
  built l = true /\ lora_enabled l = true /\ lora_rank l = Some rank
  /\ (exists alpha, lora_alpha l = Some alpha)
  /\ (exists k, variables l !! "_kernel" = Some k
        /\ matrix_variable d (units l) k = true)
  /\ (exists a, variables l !! "lora_kernel_a" = Some a
        /\ matrix_variable d rank a = true)
  /\ (exists b, variables l !! "lora_kernel_b" = Some b
        /\ matrix_variable rank (units l) b = true)
  /\ optional_vector (units l) (variables l !! "bias") = true.
Proof.
  unfold lora_ready. rewrite !andb_true_iff, !bool_decide_eq_true.
  intros [[[[[[[Hb He] Hr] Ha] Hk] HA] HB] Hbias].
  repeat split; try done.
  - destruct (lora_alpha l); [eauto|done].
  - destruct (variables l !! "_kernel") as [k|]; [eauto|done].
  - destruct (variables l !! "lora_kernel_a") as [a|]; [eauto|done].
  - destruct (variables l !! "lora_kernel_b") as [b|]; [eauto|done].
Qed.

Lemma matrix_variable_has_shape d u k :
  matrix_variable d u k = true ->
  has_shape d u (float2 (v_value k)) /\ (0 < d)%nat.
Proof. intros (_ & Hd & Hl & Hr)%matrix_variable_spec. by repeat split. Qed.

(** X7. With LoRA enabled the [kernel] property returns the stored kernel
    plus the product of the two factors scaled by [lora_alpha / lora_rank]:
    a tensor of the shape of the kernel whose entry [(i, j)] is
    [kernel[i][j] + (alpha / rank) * sum_t a[i][t] * b[t][j]]. Neither
    the kernel nor the factors are modified. *)
Theorem kernel_adds_scaled_lora_product
    (l : Dense) (d rank : nat) (alpha : Qc) (k a b : KerasVariable) :
  lora_ready d rank l = true ->
  lora_alpha l = Some alpha ->
  variables l !! "_kernel" = Some k ->
  variables l !! "lora_kernel_a" = Some a ->
  variables l !! "lora_kernel_b" = Some b ->
  exists t,
    kernel l = (inr (KTensor (TF (D2 t))), l)
    /\ has_shape d (units l) t
    /\ forall i j, (i < d)%nat -> (j < units l)%nat ->
         get 0%Qc t i j
         = (get 0%Qc (float2 (v_value k)) i j
            + alpha / Qc_of_Z (Z.of_nat rank)
              * dot rank (float2 (v_value a)) (float2 (v_value b)) i j)%Qc.
Proof.
  intros (Hb & He & Hr & _ & (k' & Hk' & Hkm) & (a' & Ha' & Ham)
          & (b' & Hb' & Hbm) & _)%lora_ready_spec Halpha Hk Ha Hbv.
  rewrite Hk in Hk'. rewrite Ha in Ha'. rewrite Hbv in Hb'. simplify_eq.
  apply matrix_variable_has_shape in Hkm as [Sk Hd].
  apply matrix_variable_has_shape in Ham as [Sa _].
  apply matrix_variable_has_shape in Hbm as [Sb Hrank].
  destruct (matmul_has_shape 0%Qc Qcplus Qcmult d rank (units l)
              (float2 (v_value a')) (float2 (v_value b')))
    as (ab & Hab & Sab); try done.
  set (s := (alpha / Qc_of_Z (Z.of_nat rank))%Qc).
  pose proof (has_shape_map (Qcmult s) _ _ _ Sab) as Ssc.
  destruct (ewise_has_shape 0%Qc Qcplus d (units l) d (units l)
              d (units l) (float2 (v_value k')) (Ops.scale s ab))
    as (t & Ht & St); auto using bdim_same.
  exists t. split; [|split; [done|]].
  - unfold kernel. mstep. rewrite Hb. cbn [negb]. mstep. rewrite He.
    mstep.
    erewrite run_bind_ok by (apply run_lora_scaling; eauto with lia).
    repeat mstep. reflexivity.
  - intros i j Hi Hj.
    rewrite (get_ewise_same Qcplus _ _ t d (units l) i j Sk Ssc Hd Ht)
      by done.
    unfold Ops.scale. rewrite (get_map_map _ ab d (units l)) by done.
    by rewrite (get_matmul _ _ ab d rank (units l) i j Sa Sb Hd Hrank Hab).
Qed.

Lemma kernel_adds_scaled_lora_product_witness :
  exists t,
    kernel Examples.lora_layer
    = (inr (KTensor (TF (D2 t))), Examples.lora_layer)
    /\ has_shape 5 (units Examples.lora_layer) t
    /\ forall i j, (i < 5)%nat -> (j < units Examples.lora_layer)%nat ->
         get 0%Qc t i j
         = (get 0%Qc
              (float2 (v_value (Examples.stored "_kernel"
                                  Examples.lora_layer))) i j
            + Qc_of_Z 2 / Qc_of_Z (Z.of_nat 2)
              * dot 2
                  (float2 (v_value (Examples.stored "lora_kernel_a"
                                      Examples.lora_layer)))
                  (float2 (v_value (Examples.stored "lora_kernel_b"
                                      Examples.lora_layer))) i j)%Qc.
Proof.
  apply (kernel_adds_scaled_lora_product Examples.lora_layer 5 2
           (Qc_of_Z 2)
           (Examples.stored "_kernel" Examples.lora_layer)
           (Examples.stored "lora_kernel_a" Examples.lora_layer)
           (Examples.stored "lora_kernel_b" Examples.lora_layer)).
  - vm_compute. reflexivity.
  - vm_compute. reflexivity.
  - vm_compute. reflexivity.
  - vm_compute. reflexivity.
  - vm_compute. reflexivity.
Defined.

(** [build] of a layer without quantization policy, up to the point where
    LoRA is enabled if a rank is configured. *)
Lemma run_build_weights l he input_shape d :
  quantization_mode l = None -> last input_shape = Some d ->
  exists l1,
    build he input_shape l
    = match lora_rank l with
      | Some r =>
          if decide (r = 0%nat) then mret tt
          else enable_lora r None he Zeros
      | None => mret tt
      end l1
    /\ built l1 = true
    /\ variables l1 !! "_kernel"
       = Some {| v_name := "kernel"; v_shape := [d; units l];
                 v_dtype := Float32; v_trainable := true;
                 v_value := initial_value (kernel_initializer l) Float32
                              [d; units l] |}
    /\ variables l1 !! "bias"
       = (if use_bias l
          then Some {| v_name := "bias"; v_shape := [units l];
                       v_dtype := Float32; v_trainable := true;
                       v_value := initial_value (bias_initializer l)
                                    Float32 [units l] |}
          else None)
    /\ _trainable_variables l1
       = _trainable_variables l ++ "kernel"
           :: (if use_bias l then ["bias"] else [])
    /\ _non_trainable_variables l1 = _non_trainable_variables l
    /\ units l1 = units l /\ lora_enabled l1 = lora_enabled l
    /\ kernel_constraint l1 = kernel_constraint l
    /\ quantization_mode l1 = None
    /\ lora_rank l1 = lora_rank l
    /\ activation l1 = activation l
    /\ _orig_input_dim l1 = _orig_input_dim l.
Proof.
  intros Hmode Hlast.
  destruct (use_bias l) eqn:Hub;
    (eexists; split;
     [ unfold build; rewrite Hlast; repeat mstep; proj_simpl;
       rewrite Hmode; unfold add_weight;
       repeat mstep; proj_simpl; rewrite Hub; repeat mstep; proj_simpl;
       reflexivity
     | cbn; simplify_map_eq; rewrite <- ?app_assoc;
       repeat split; try done ]).
Qed.

Lemma matrix_variable_initial nm d u init tr :
  (0 < d)%nat ->
  matrix_variable d u
    {| v_name := nm; v_shape := [d; u]; v_dtype := Float32;
       v_trainable := tr; v_value := initial_value init Float32 [d; u] |}
  = true.
Proof.
  intros Hd. pose proof (has_shape_initial_value init d u) as Hsh.
  apply matrix_variable_intro; cbn [v_shape v_value]; try done;
    [|by destruct Hsh].
  destruct init; cbn; rewrite ?replicate_tabulate;
    by rewrite (shape_of_matrix d u) by (done || apply has_shape_tabulate).
Qed.

Lemma vector_variable_initial nm u init tr :
  vector_variable u
    {| v_name := nm; v_shape := [u]; v_dtype := Float32;
       v_trainable := tr; v_value := initial_value init Float32 [u] |}
  = true.
Proof.
  unfold vector_variable. cbn [v_shape v_value].
  rewrite !bool_decide_eq_true_2; [done| |done].
  destruct init; cbn;
    by rewrite ?length_replicate, ?length_map, ?length_seq.
Qed.

Lemma Qc_of_Z_nonzero (r : nat) : r ≠ 0%nat -> Qc_of_Z (Z.of_nat r) ≠ 0%Qc.
Proof.
  intros Hr H. unfold Qc_of_Z in H. apply Q2Qc_eq_iff in H.
  unfold Qeq in H. cbn in H. lia.
Qed.

Lemma lora_scaling_one (r : nat) :
  r ≠ 0%nat -> (Qc_of_Z (Z.of_nat r) / Qc_of_Z (Z.of_nat r))%Qc = 1%Qc.
Proof. intros Hr. apply Qcmult_inv_r. by apply Qc_of_Z_nonzero. Qed.

(** X8. [build] on an input shape whose last dimension is [d] creates
    the kernel with shape [(d, units)] from the kernel initializer and,
    if [use_bias] is set, the bias with shape [(units,)] from the bias
    initializer, both trainable and tracked; without [use_bias] the layer
    has no bias. The layer is then built and ready for [call]. *)
Theorem build_creates_kernel_and_bias
    (l : Dense) (he : Initializer) (input_shape : list nat) (d : nat) :
  quantization_mode l = None -> lora_rank l = None ->
  lora_enabled l = false ->
  last input_shape = Some d -> (0 < d)%nat ->
  exists l',
    build he input_shape l = (inr tt, l')
    /\ forward_ready d l' = true
    /\ variables l' !! "_kernel"
       = Some {| v_name := "kernel"; v_shape := [d; units l];
                 v_dtype := Float32; v_trainable := true;
                 v_value := initial_value (kernel_initializer l) Float32
                              [d; units l] |}
    /\ variables l' !! "bias"
       = (if use_bias l
          then Some {| v_name := "bias"; v_shape := [units l];
                       v_dtype := Float32; v_trainable := true;
                       v_value := initial_value (bias_initializer l)
                                    Float32 [units l] |}
          else None)
    /\ _trainable_variables l'
       = _trainable_variables l ++ "kernel"
           :: (if use_bias l then ["bias"] else [])
    /\ _non_trainable_variables l' = _non_trainable_variables l.
Proof.
  intros Hmode Hrank He Hlast Hd.
  destruct (run_build_weights l he input_shape d Hmode Hlast)
    as (l1 & Hrun & Hb1 & Hk1 & Hbias1 & Ht1 & Hn1 & Hu1 & He1 & _).
  rewrite Hrank in Hrun. exists l1. split; [exact Hrun|].
  split; [|done].
  unfold forward_ready. rewrite Hb1, He1, He, Hk1, Hbias1, Hu1.
  rewrite matrix_variable_initial by done.
  destruct (use_bias l); [|done]. cbn [optional_vector].
  by rewrite vector_variable_initial.
Qed.

Lemma build_creates_kernel_and_bias_witness :
  exists l',
    build Examples.he_uniform [3; 5]%nat Examples.fresh = (inr tt, l')
    /\ forward_ready 5 l' = true
    /\ variables l' !! "_kernel"
       = Some {| v_name := "kernel"; v_shape := [5; units Examples.fresh]%nat;
                 v_dtype := Float32; v_trainable := true;
                 v_value := initial_value
                              (kernel_initializer Examples.fresh) Float32
                              [5; units Examples.fresh]%nat |}
    /\ variables l' !! "bias"
       = (if use_bias Examples.fresh
          then Some {| v_name := "bias"; v_shape := [units Examples.fresh];
                       v_dtype := Float32; v_trainable := true;
                       v_value := initial_value
                                    (bias_initializer Examples.fresh)
                                    Float32 [units Examples.fresh] |}
          else None)
    /\ _trainable_variables l'
       = _trainable_variables Examples.fresh ++ "kernel"
           :: (if use_bias Examples.fresh then ["bias"] else [])
    /\ _non_trainable_variables l'
       = _non_trainable_variables Examples.fresh.
Proof.
  apply (build_creates_kernel_and_bias Examples.fresh Examples.he_uniform
           [3; 5]%nat 5).
  - reflexivity.
  - reflexivity.
  - reflexivity.
  - reflexivity.
  - lia.
Defined.

(** X9. [build] on a layer constructed with a LoRA rank enables LoRA with
    that rank and resets [lora_alpha] to the rank, whatever [lora_alpha]
    the constructor was given: [enable_lora] is called with the rank
    alone. The LoRA product is therefore applied with factor 1, and the
    effective kernel right after [build] is the freshly initialized
    kernel. *)
Theorem build_with_lora_rank_resets_lora_alpha
    (l : Dense) (he : Initializer) (input_shape : list nat) (d rank : nat) :
  quantization_mode l = None -> lora_rank l = Some rank -> rank ≠ 0%nat ->
  kernel_constraint l = None -> lora_enabled l = false ->
  last input_shape = Some d -> (0 < d)%nat ->
  exists l',
    build he input_shape l = (inr tt, l')
    /\ lora_ready d rank l' = true
    /\ lora_alpha l' = Some (Qc_of_Z (Z.of_nat rank))
    /\ lora_scaling l' = (inr 1%Qc, l')
    /\ kernel l'
       = (inr (KTensor (TF (D2 (float2
            (initial_value (kernel_initializer l) Float32
               [d; units l]))))), l').
Proof.
  intros Hmode Hrank Hr Hc He Hlast Hd.
  destruct (run_build_weights l he input_shape d Hmode Hlast)
    as (l1 & Hrun & Hb1 & Hk1 & Hbias1 & _ & _ & Hu1 & He1 & Hc1 & Hm1
        & Hr1 & _).
  rewrite Hrank, decide_False in Hrun by done.
  rewrite He in He1. rewrite Hc in Hc1.
  set (k := {| v_name := "kernel"; v_shape := [d; units l];
               v_dtype := Float32; v_trainable := true;
               v_value := initial_value (kernel_initializer l) Float32
                            [d; units l] |}) in *.
  assert (Hkm : matrix_variable d (units l1) k = true).
  { rewrite Hu1. by apply matrix_variable_initial. }
  destruct (kernel_after_enable_lora l1 k d (units l1) rank None he
              Hc1 Hb1 He1 Hk1 Hkm) as (l' & Hrun' & Hker);
    [by rewrite Hm1|done|].
  destruct (run_enable_lora l1 k d (units l1) rank None he Zeros
              Hc1 Hb1 He1 Hk1)
    as (l2 & Hrun2 & Hen & Hrk & Ha & Hk2 & (a_rows & HA & Hrows) & HB
        & Hother & _ & _ & _ & Hu2 & _ & _ & Hb2);
    [by rewrite Hu1|].
  rewrite Hrun' in Hrun2. simplify_eq.
  assert (Hrows : (match _orig_input_dim l1 with
                   | Some orig =>
                       if bool_decide (quantization_mode l1 = Some "int4")
                       then orig else d
                   | None => d
                   end) = d).
  { rewrite Hm1. by destruct (_orig_input_dim l1). }
  rewrite Hrows in HA.
  exists l2. split; [by rewrite Hrun|].
  split; [|split; [done|split; [|done]]].
  - unfold lora_ready. rewrite Hb2, Hen, Hrk, Ha, Hk2, HA, HB, Hu2.
    rewrite Hother by done. rewrite Hbias1.
    rewrite bool_decide_eq_true_2 by done. cbn [andb is_some].
    rewrite matrix_variable_set_trainable, Hkm.
    rewrite !matrix_variable_initial by lia.
    destruct (use_bias l); [|done]. cbn [optional_vector andb].
    rewrite <- Hu1. by rewrite vector_variable_initial.
  - erewrite run_lora_scaling by eauto. cbn [default].
    by rewrite lora_scaling_one.
Qed.

Lemma build_with_lora_rank_resets_lora_alpha_witness :
  lora_alpha Examples.lora_fresh = Some (Qc_of_Z 8)
  /\ exists l',
       build Examples.he_uniform [3; 5]%nat Examples.lora_fresh
       = (inr tt, l')
       /\ lora_ready 5 2 l' = true
       /\ lora_alpha l' = Some (Qc_of_Z (Z.of_nat 2))
       /\ lora_scaling l' = (inr 1%Qc, l')
       /\ kernel l'
          = (inr (KTensor (TF (D2 (float2
               (initial_value (kernel_initializer Examples.lora_fresh)
                  Float32 [5; units Examples.lora_fresh]%nat))))), l').
Proof.
  split; [reflexivity|].
  apply (build_with_lora_rank_resets_lora_alpha Examples.lora_fresh
           Examples.he_uniform [3; 5]%nat 5 2).
  - reflexivity.
  - reflexivity.
  - lia.
  - reflexivity.
  - reflexivity.
  - reflexivity.
  - lia.
Defined.

(** *** The int8 mode *)

Lemma int8_ready_spec d l :
  int8_ready d l = true ->
  built l = true /\ lora_enabled l = false
  /\ inputs_quantizer l = Some Quantizers.AxisLast
  /\ (exists k, variables l !! "_kernel" = Some k
        /\ int8_matrix_variable d (units l) k = true)
  /\ (exists s, variables l !! "kernel_scale" = Some s
        /\ vector_variable (units l) s = true)
  /\ optional_vector (units l) (variables l !! "bias") = true.
Proof.
  unfold int8_ready.
  rewrite !andb_true_iff, !bool_decide_eq_true, !negb_true_iff.
  intros [[[[[Hb He] Hq] Hk] Hs] Hbias]. repeat split; try done.
  - destruct (variables l !! "_kernel") as [k|]; [eauto|done].
  - destruct (variables l !! "kernel_scale") as [s|]; [eauto|done].
Qed.

Lemma int8_matrix_variable_intro d u nm tr (kv : list (list Z)) :
  has_shape d u kv -> (0 < d)%nat ->
  int8_matrix_variable d u
    {| v_name := nm; v_shape := [d; u]; v_dtype := Int8;
       v_trainable := tr; v_value := TI (D2 kv) |} = true.
Proof.
  intros Skv Hd. unfold int8_matrix_variable.
  rewrite matrix_variable_intro; cbn; try done.
  - by apply shape_of_matrix.
  - by destruct (has_shape_map Qc_of_Z _ _ _ Skv).
Qed.

Lemma run_int8_call_ready l inputs n d :
  int8_ready d l = true -> has_shape n d inputs -> (0 < n)%nat ->
  exists y grad_fn,
    _int8_call inputs l = (inr (y, grad_fn), l)
    /\ shape2 y = (n, units l).
Proof.
  intros (_ & He & Hq & (k & Hk & Hkm) & (s & Hs & Hsv) & Hbias)
           %int8_ready_spec Si Hn.
  destruct (run_int8_call l k s inputs n d Hk Hs Hkm Hsv Hbias Hq He Si Hn)
    as (y & Hy & Sy).
  by exists y, (int8_grad_fn (v_value k) (v_value s)).
Qed.

Lemma quantize_int8_ready l d tc :
  (tc && is_subclass l) = false -> forward_ready d l = true ->
  exists l', quantize "int8" tc l = (inr tt, l')
             /\ int8_ready d l' = true /\ units l' = units l
             /\ quantization_mode l'
                = Some (default "int8" (quantization_mode l)).
Proof.
  intros Htc (Hb & He & (k & Hk & Hm) & Hbias)%forward_ready_spec.
  destruct (run_quantize_int8 l k d tc Htc Hk Hm)
    as (l' & kv & scales & Hrun & Hq & Hk' & Hs' & Hother & Hm' & Hiq'
        & Hu' & Hb' & He' & _).
  apply matrix_variable_spec in Hm as (Hs & Hd & Hlen & Hrect).
  destruct (abs_max_quantize_columns_shape (float2 (v_value k)) d (units l)
              Quantizers.default_value_range (conj Hlen Hrect) Hd)
    as (kv0 & scales0 & Hq0 & _ & _ & Hsl & Skv).
  rewrite Hq in Hq0. simplify_eq.
  exists l'. split; [exact Hrun|]. split; [|done].
  unfold int8_ready.
  rewrite Hb', Hb, He', He, Hiq', Hk', Hs', Hu'.
  rewrite Hother by done. rewrite Hbias.
  rewrite int8_matrix_variable_intro by done.
  unfold vector_variable. cbn. rewrite Hsl.
  by rewrite !bool_decide_eq_true_2.
Qed.

(** X10. [quantize("int8")] turns a built full-precision layer into one
    on which the int8 forward pass works: the kernel is stored as an int8
    matrix of the same shape with one scale per unit, and [_int8_call] on
    a batch of shape [(n, d)] returns an output of shape [(n, units)]. *)
Theorem quantize_int8_then_int8_call_returns
    (l : Dense) (d n : nat) (type_check : bool) (inputs : matrix) :
  (type_check && is_subclass l) = false -> forward_ready d l = true ->
  has_shape n d inputs -> (0 < n)%nat ->
  exists l' y grad_fn,
    quantize "int8" type_check l = (inr tt, l')
    /\ int8_ready d l' = true
    /\ _int8_call inputs l' = (inr (y, grad_fn), l')
    /\ shape2 y = (n, units l).
Proof.
  intros Htc Hl Si Hn.
  destruct (quantize_int8_ready l d type_check Htc Hl)
    as (l' & Hrun & Hready & Hu & _).
  destruct (run_int8_call_ready l' inputs n d Hready Si Hn)
    as (y & grad_fn & Hy & Sy).
  exists l', y, grad_fn. rewrite <- Hu. by repeat split.
Qed.

Lemma quantize_int8_then_int8_call_returns_witness :
  exists l' y grad_fn,
    quantize "int8" true Examples.built_layer = (inr tt, l')
    /\ int8_ready 5 l' = true
    /\ _int8_call Examples.batch l' = (inr (y, grad_fn), l')
    /\ shape2 y = (3, units Examples.built_layer)%nat.
Proof.
  apply (quantize_int8_then_int8_call_returns Examples.built_layer 5 3 true
           Examples.batch).
  - reflexivity.
  - vm_compute. reflexivity.
  - split; [reflexivity|]. apply rectb_spec. reflexivity.
  - lia.
Defined.

(** *** Running the saving path *)

Lemma run_sbind_ok {A B} (m : MSave A) (k : A -> MSave B) l x l' :
  m l = (inr x, l') -> (m ≫= k) l = k x l'.
Proof. intros H. unfold mbind, MSave_bind. by rewrite H. Qed.

Lemma run_sbind_err {A B} (m : MSave A) (k : A -> MSave B) l e l' :
  m l = (inl e, l') -> (m ≫= k) l = (inl e, l').
Proof. intros H. unfold mbind, MSave_bind. by rewrite H. Qed.

Lemma run_sbind_assoc {A B C} (m : MSave A) (f : A -> MSave B)
    (g : B -> MSave C) l :
  ((m ≫= f) ≫= g) l = (m ≫= fun x => f x ≫= g) l.
Proof. unfold mbind, MSave_bind. by destruct (m l) as [[e|x] l']. Qed.

Lemma run_lift_ok {A} (m : M A) l x l' :
  m l = (inr x, l') -> lift m l = (inr x, l').
Proof. intros H. unfold lift. by rewrite H. Qed.

Lemma run_lift_err {A} (m : M A) l e l' :
  m l = (inl e, l') -> lift m l = (inl (Raised e), l').
Proof. intros H. unfold lift. by rewrite H. Qed.

Ltac srun_base :=
  first [ reflexivity
        | apply run_lift_ok; run_kernel
        | apply run_lift_err; run_base ].

Ltac sstep_with tac :=
  cbv beta iota;
  lazymatch goal with
  | |- context [mbind ?k (mbind ?f ?m) ?l] =>
      rewrite (run_sbind_assoc m _ _ l)
  | |- context [mbind ?k ?m ?l] =>
      first [ erewrite (run_sbind_ok m _ l) by tac
            | erewrite (run_sbind_err m _ l) by tac ]
  end; cbv beta iota.

Ltac sstep := sstep_with srun_base.

Lemma run_target_value a l v :
  variables l !! a = Some v -> target_value a l = (inr [v_value v], l).
Proof. intros H. unfold target_value. sstep. reflexivity. Qed.

Lemma saveable_spec l :
  saveable l = true ->
  built l = true /\ lora_enabled l = false
  /\ (quantization_mode l = None \/ quantization_mode l = Some "int8"
      \/ quantization_mode l = Some "int4"
      \/ quantization_mode l = Some "float8")
  /\ Forall (fun a => exists v, variables l !! a = Some v
                                /\ variable_wf v = true)
       (expected_targets l)
  /\ length (_trainable_variables l ++ _non_trainable_variables l)
     = length (expected_targets l).
Proof.
  unfold saveable. rewrite !andb_true_iff, negb_true_iff.
  intros [[[[Hb He] Hm] Hf] Hn]. apply Nat.eqb_eq in Hn.
  split; [done|]. split; [done|]. split; [|split; [|done]].
  - destruct (quantization_mode l) as [m|]; [|by left]. right.
    rewrite !orb_true_iff, !bool_decide_eq_true in Hm.
    destruct Hm as [[->| ->]| ->]; auto.
  - apply Forall_forall. intros a Ha.
    rewrite forallb_forall in Hf. apply list_elem_of_In in Ha.
    specialize (Hf a Ha).
    destruct (variables l !! a) as [v|]; [eauto|done].
Qed.

Lemma integer_mode_int8 :
  bool_decide ("int8" = "int8") || bool_decide ("int8" = "int4") = true.
Proof. reflexivity. Qed.

Lemma integer_mode_int4 :
  bool_decide ("int4" = "int8") || bool_decide ("int4" = "int4") = true.
Proof. reflexivity. Qed.

Lemma integer_mode_float8 :
  bool_decide ("float8" = "int8") || bool_decide ("float8" = "int4")
  = false.
Proof. reflexivity. Qed.

Ltac mode_simpl :=
  rewrite ?integer_mode_int8, ?integer_mode_int4, ?integer_mode_float8.

Ltac mode_simpl_in H :=
  rewrite ?integer_mode_int8, ?integer_mode_int4, ?integer_mode_float8
    in H.

(** The enumerated variables of a layer in a given mode, one by one. *)
Ltac targets_cases l H :=
  let Hub := fresh "Hub" in
  let Hm := fresh "Hm" in
  pose proof H as (_ & _ & Hm & HF & _)%saveable_spec;
  unfold expected_targets in HF;
  destruct (use_bias l) eqn:Hub;
  destruct Hm as [Hm|[Hm|[Hm|Hm]]]; rewrite Hm in HF;
  mode_simpl_in HF; unfold float8_buffers in HF; cbn [app] in HF;
  repeat match type of HF with
         | Forall _ (_ :: _) =>
             let v := fresh "v" in
             let Hv := fresh "Hv" in
             let Hw := fresh "Hw" in
             apply Forall_cons in HF as [(v & Hv & Hw) HF]
         end;
  clear HF.

Lemma expected_targets_eq l ub m :
  use_bias l = ub -> quantization_mode l = m ->
  expected_targets l
  = ["_kernel"] ++ (if ub then ["bias"] else [])
    ++ match m with
       | None => []
       | Some m =>
           if bool_decide (m = "int8") || bool_decide (m = "int4")
           then ["kernel_scale"]
           else float8_buffers
       end.
Proof. by intros <- <-. Qed.

(** On a saveable layer [load_own_variables] enumerates the expected
    targets. *)
Lemma run_target_variables l :
  saveable l = true -> target_variables l = (inr (expected_targets l), l).
Proof.
  intros H. targets_cases l H;
    rewrite (expected_targets_eq l _ _ Hub Hm);
    unfold target_variables, target;
    repeat mstep; rewrite ?Hub; repeat mstep; proj_simpl; rewrite ?Hm;
    mode_simpl; rewrite ?decide_True by done;
    repeat mstep; reflexivity.
Qed.



(** *** The store written by [save_own_variables] *)





(** *** Assigning from the store *)














(** *** Saving and loading with LoRA *)




Lemma pretty_nat_0 : pretty 0%nat = "0".
Proof. reflexivity. Qed.










(** *** What saving and loading never do *)

Lemma save_readonly_bind {A B} (m : MSave A) (k : A -> MSave B) :
  (forall l, (m l).2 = l) -> (forall x l, (k x l).2 = l) ->
  forall l, ((m ≫= k) l).2 = l.
Proof.
  intros Hm Hk l. unfold mbind, MSave_bind. specialize (Hm l).
  destruct (m l) as [[e|x] l1]; cbn in *; subst; [done|]. apply Hk.
Qed.

Lemma save_readonly_lift {A} (m : M A) :
  readonly m -> forall l, (lift m l).2 = l.
Proof.
  intros Hm l. unfold lift. specialize (Hm l).
  by destruct (m l) as [[e|x] l1].
Qed.

Lemma readonly_lora_scaling : readonly lora_scaling.
Proof. unfold lora_scaling. repeat readonly_step. Qed.

Lemma readonly_kernel : readonly kernel.
Proof.
  unfold kernel. repeat (readonly_step || apply readonly_lora_scaling).
Qed.

Ltac save_readonly_step :=
  first [ apply save_readonly_bind; [|intros ?]
        | apply save_readonly_lift;
          first [ apply readonly_kernel | apply readonly_lora_scaling
                | apply readonly_getattr | apply readonly_gets
                | apply readonly_raise | apply readonly_op
                | apply readonly_lift_opt ]
        | intros ?; reflexivity
        | match goal with
          | |- forall l, ((if ?b then _ else _) l).2 = l => destruct b
          | |- forall l, ((match ?o with Some _ => _ | None => _ end) l).2
                         = l => destruct o
          | |- forall l, ((let '(_, _) := ?p in _) l).2 = l => destruct p
          end ].

Lemma save_readonly_merged :
  forall l, (_get_kernel_with_merged_lora l).2 = l.
Proof.
  unfold _get_kernel_with_merged_lora. repeat save_readonly_step.
Qed.

(** X13. [save_own_variables] never assigns to the layer, whether it
    returns or raises, and on a layer that is not built it returns the
    store as it was handed over, nothing written. *)
Theorem save_own_variables_leaves_layer_unchanged
    (store : gmap string tensor) (l : Dense) :
  (save_own_variables store l).2 = l
  /\ (built l = false -> (save_own_variables store l).1 = inr store).
Proof.
  split.
  - revert l. unfold save_own_variables, target_value.
    repeat (save_readonly_step || apply save_readonly_merged).
  - intros Hb. unfold save_own_variables. sstep. by rewrite Hb.
Qed.

(** *** float8 and LoRA *)

Section Float8Lora.
Variable quantize_and_dequantize : matrix -> tensor -> string -> matrix.
Variable compute_float8_scale : Qc -> tensor -> Qc -> tensor.
Variable compute_float8_amax_history : matrix -> tensor -> tensor.
Variable ops_max : tensor -> Qc.
Variable cast_bfloat16 : Qc -> Qc.

(** X14. LoRA and float8 do not go together, although [enable_lora]
    accepts a float8 layer: on a built float8 layer with LoRA enabled
    the forward pass raises [NotImplementedError] and
    [save_own_variables] raises the [ValueError] for an unsupported
    quantization mode, both leaving the layer as it was. *)
Theorem float8_layer_with_lora_neither_runs_nor_saves
    (l : Dense) (k s : KerasVariable) :
  built l = true -> lora_enabled l = true ->
  quantization_mode l = Some "float8" ->
  variables l !! "_kernel" = Some k ->
  variables l !! "kernel_scale" = Some s ->
  (forall inputs training,
     _float8_call quantize_and_dequantize compute_float8_scale
       compute_float8_amax_history ops_max cast_bfloat16
       inputs training l
     = (inl Float8LoraNotImplementedError, l))
  /\ forall store,
       save_own_variables store l
       = (inl (UnsupportedQuantizationModeError "float8"), l).
Proof.
  intros Hb He Hm Hk Hs. split.
  - intros inputs training. unfold _float8_call. mstep. by rewrite He.
  - intros store. unfold save_own_variables, _get_kernel_with_merged_lora.
    sstep. rewrite Hb. cbn [negb]. repeat sstep. proj_simpl.
    rewrite Hm. repeat sstep. rewrite He.
    do 2 rewrite decide_False by done.
    repeat sstep. reflexivity.
Qed.
End Float8Lora.

Lemma float8_layer_with_lora_neither_runs_nor_saves_witness :
  (enable_lora 2 None Examples.he_uniform Zeros Examples.float8_layer).1
  = inr tt
  /\ (forall inputs training,
        _float8_call (fun x _ _ => x) (fun _ scale _ => scale)
          (fun _ history => history) (fun _ => 0%Qc) (fun q => q)
          inputs training Examples.float8_lora_layer
        = (inl Float8LoraNotImplementedError, Examples.float8_lora_layer))
  /\ forall store,
       save_own_variables store Examples.float8_lora_layer
       = (inl (UnsupportedQuantizationModeError "float8"),
          Examples.float8_lora_layer).
Proof.
  split; [vm_compute; reflexivity|].
  apply (float8_layer_with_lora_neither_runs_nor_saves
           (fun x _ _ => x) (fun _ scale _ => scale)
           (fun _ history => history) (fun _ => 0%Qc) (fun q => q)
           Examples.float8_lora_layer
           (Examples.stored "_kernel" Examples.float8_lora_layer)
           (Examples.stored "kernel_scale" Examples.float8_lora_layer)).
  - reflexivity.
  - reflexivity.
  - reflexivity.
  - vm_compute. reflexivity.
  - vm_compute. reflexivity.
Defined.

(** *** Edge cases of loading *)

(** X15. [load_own_variables] on a layer that is not built assigns
    nothing, whatever the store holds; it returns exactly when LoRA is
    enabled or the store has as many entries as the layer tracks
    variables, and raises from the count check otherwise. *)
Theorem load_on_unbuilt_layer_assigns_nothing
    (l : Dense) (store : gmap string tensor) :
  built l = false ->
  (load_own_variables store l).2 = l
  /\ ((load_own_variables store l).1 = inr tt
      <-> lora_enabled l = true
          \/ size store
             = length (_trainable_variables l
                         ++ _non_trainable_variables l)).
Proof.
  intros Hb. unfold load_own_variables. mstep.
  destruct (lora_enabled l) eqn:He; cbn [negb].
  - do 2 mstep. rewrite Hb. cbn [negb]. split; [done|].
    split; [by left|done].
  - destruct (decide (size store
                      = length (_trainable_variables l
                                  ++ _non_trainable_variables l)))
      as [Hn|Hn].
    + erewrite run_bind_ok by (by apply run_check_match).
      mstep. rewrite Hb. cbn [negb]. split; [done|].
      split; [by right|done].
    + erewrite run_bind_err by (by apply run_check_mismatch).
      split; [done|]. cbn [fst]. split; [done|].
      intros [?|?]; [done|by destruct Hn].
Qed.

Lemma load_on_unbuilt_layer_assigns_nothing_witness :
  (load_own_variables Examples.short_store Examples.fresh).2
  = Examples.fresh
  /\ ((load_own_variables Examples.short_store Examples.fresh).1 = inr tt
      <-> lora_enabled Examples.fresh = true
          \/ size Examples.short_store
             = length (_trainable_variables Examples.fresh
                         ++ _non_trainable_variables Examples.fresh)).
Proof.
  apply (load_on_unbuilt_layer_assigns_nothing Examples.fresh
           Examples.short_store).
  reflexivity.
Defined.

(** X16. The store is read by position: on a built layer without LoRA a
    store with the right number of entries that lacks the key "0" makes
    [load_own_variables] raise [KeyError] for that key before anything is
    assigned. *)
Theorem load_without_key_zero_raises_key_error
    (l : Dense) (store : gmap string tensor) :
  saveable l = true ->
  size store
  = length (_trainable_variables l ++ _non_trainable_variables l) ->
  store !! "0" = None ->
  load_own_variables store l = (inl (KeyError "0"), l).
Proof.
  intros Hl Hn H0.
  pose proof Hl as (Hb & He & _)%saveable_spec.
  unfold load_own_variables. mstep. rewrite He. cbn [negb].
  erewrite run_bind_ok by (by apply run_check_match).
  mstep. rewrite Hb. cbn [negb].
  erewrite run_bind_ok by (by apply run_target_variables).
  unfold expected_targets. cbn [app assign_from_store].
  rewrite pretty_nat_0, H0.
  erewrite run_bind_err; [reflexivity|].
  by erewrite run_bind_err by reflexivity.
Qed.

Lemma load_without_key_zero_raises_key_error_witness :
  load_own_variables Examples.misnamed_store Examples.built_layer
  = (inl (KeyError "0"), Examples.built_layer).
Proof.
  apply (load_without_key_zero_raises_key_error Examples.built_layer
           Examples.misnamed_store).
  - vm_compute. reflexivity.
  - vm_compute. reflexivity.
  - vm_compute. reflexivity.
Defined.

(** *** Invariants and errors of the life cycle *)

(** X17. The stored kernel stays well formed: if it is a rectangular
    matrix of its declared shape with one column per unit, it still is
    after every call of [quantize] (in each of the three modes, packed or
    not) and of [enable_lora] that returns. *)
Theorem quantize_and_enable_lora_keep_kernel_well_formed (l : Dense) :
  kernel_wf l = true ->
  (forall mode type_check l',
     quantize mode type_check l = (inr tt, l') -> kernel_wf l' = true)
  /\ (forall rank alpha a_init b_init l',
        enable_lora rank alpha a_init b_init l = (inr tt, l') ->
        kernel_wf l' = true).
Proof.
  intros Hwf. split.
  - intros mode tc l' Hrun. by eapply quantize_preserves_kernel_wf.
  - intros rank alpha a_init b_init l' Hrun.
    by eapply enable_lora_preserves_kernel_wf.
Qed.

Lemma quantize_and_enable_lora_keep_kernel_well_formed_witness :
  (forall mode type_check l',
     quantize mode type_check Examples.built_layer = (inr tt, l') ->
     kernel_wf l' = true)
  /\ (forall rank alpha a_init b_init l',
        enable_lora rank alpha a_init b_init Examples.built_layer
        = (inr tt, l') ->
        kernel_wf l' = true).
Proof.
  apply (quantize_and_enable_lora_keep_kernel_well_formed
           Examples.built_layer).
  vm_compute. reflexivity.
Defined.



End LayerFacts.
